(** * Resiliency scoring of Krkn chaos runs: a shallow embedding

    The development follows [krkn/resiliency/score.py] (the pure score
    calculator) and [krkn/resiliency/resiliency.py] (the [Resiliency]
    orchestrator: definition loader, per-scenario evaluation, finalisation
    and report persistence).

    Conventions of the embedding:
    - a Python [int] is a [Z]; a Python [float] is a binary64 number, a
      [spec_float] handled with the operations of [SpecFloat] at precision
      53 and maximal exponent 1024;
    - a Python [dict] is an association list in insertion order, updated
      in place by [PyDict.set];
    - the collaborators outside these two files (the clock, the SLO
      evaluator of [krkn.prometheus.collector], [repr] of floats) are the
      variables of the sections that use them;
    - a Python [str] is a [string] whose characters are read as the code
      points 0..255;
    - a raised exception is the [Raise] outcome of a computation; state
      changes made before the exception are kept. *)

From Stdlib Require Import ZArith List String Ascii Bool Lia.
From Stdlib Require Import SpecFloat DecimalString Permutation.
From Stdlib Require DecimalNat.
From Stdlib Require QArith Qround.
Import ListNotations.
Open Scope string_scope.
Open Scope Z_scope.

Set Implicit Arguments.

(** ** Exceptions and outcomes *)

(** The exception classes the modelled code raises or receives from its
    collaborators; all of them derive from Python's [Exception]. *)
Inductive exn : Type :=
| RuntimeError (msg : string)
| ValueError (msg : string)
| OverflowError (msg : string)
| ZeroDivisionError
| FileNotFoundError (msg : string)
| OSError (msg : string)
| AttributeError (msg : string)
| TypeError (msg : string)
| IndexError (msg : string)
| CollaboratorError (msg : string).

Inductive result (A : Type) : Type :=
| Ok (a : A)
| Raise (e : exn).

Arguments Ok {A} a.
Arguments Raise {A} e.

Definition rbind {A B} (r : result A) (k : A -> result B) : result B :=
  match r with
  | Ok a => k a
  | Raise e => Raise e
  end.

Definition is_ok {A} (r : result A) : bool :=
  match r with Ok _ => true | Raise _ => false end.

Declare Scope result_scope.
Delimit Scope result_scope with result.
Notation "'let!' x ':=' r 'in' k" := (rbind r (fun x => k))
  (at level 10, x pattern, r at level 100, k at level 200) : result_scope.

(** ** Python dictionaries *)

Module PyDict.

Definition t (V : Type) : Type := list (string * V).

Definition empty {V} : t V := [].

Fixpoint get {V} (d : t V) (k : string) : option V :=
  match d with
  | [] => None
  | (k', v) :: d' => if String.eqb k k' then Some v else get d' k
  end.

(** [k in d] *)
Definition mem {V} (d : t V) (k : string) : bool :=
  match get d k with Some _ => true | None => false end.

(** [d.get(k, dflt)] *)
Definition get_default {V} (d : t V) (k : string) (dflt : V) : V :=
  match get d k with Some v => v | None => dflt end.

(** [d[k] = v]: an existing key keeps its position, a new key goes last. *)
Fixpoint set {V} (d : t V) (k : string) (v : V) : t V :=
  match d with
  | [] => [(k, v)]
  | (k', v') :: d' =>
      if String.eqb k k' then (k', v) :: d' else (k', v') :: set d' k v
  end.

(** [del d[k]] where present. *)
Fixpoint remove {V} (d : t V) (k : string) : t V :=
  match d with
  | [] => []
  | (k', v') :: d' =>
      if String.eqb k k' then remove d' k else (k', v') :: remove d' k
  end.

Definition keys {V} (d : t V) : list string := map fst d.

(** [{key(x): value(x) for x in xs}] *)
Definition comprehension {X V} (key : X -> string) (value : X -> V)
           (xs : list X) : t V :=
  fold_left (fun d x => set d (key x) (value x)) xs empty.

(** The well-formed dictionaries: no key occurs twice. *)
Definition wf {V} (d : t V) : Prop := NoDup (keys d).

End PyDict.

(** ** Python numbers *)

Module PyNum.

Definition prec : Z := 53.
Definition emax : Z := 1024.

Definition float : Type := spec_float.

Definition fmul : float -> float -> float := SFmul prec emax.
Definition fadd : float -> float -> float := SFadd prec emax.
Definition fdiv : float -> float -> float := SFdiv prec emax.

(** The integer [z] as an exact dyadic number (not yet rounded). *)
Definition exact_of_Z (z : Z) : float :=
  match z with
  | Z0 => S754_zero false
  | Zpos p => S754_finite false p 0
  | Zneg p => S754_finite true p 0
  end.

Definition is_infinite (x : float) : bool :=
  match x with S754_infinity _ => true | _ => false end.

Definition is_zero (x : float) : bool :=
  match x with S754_zero _ => true | _ => false end.

(** [float(z)]: the nearest binary64 number, ties to even;
    [OverflowError] when that is not finite. *)
Definition float_of_int (z : Z) : result float :=
  let x := binary_normalize prec emax z 0 false in
  if is_infinite x
  then Raise (OverflowError "int too large to convert to float")
  else Ok x.

(** [a / b] on two [int]s: the correctly rounded quotient of the two
    integers. *)
Definition int_true_divide (a b : Z) : result float :=
  if b =? 0 then Raise ZeroDivisionError
  else
    let q := fdiv (exact_of_Z a) (exact_of_Z b) in
    if is_infinite q
    then Raise (OverflowError "integer division result too large for a float")
    else Ok q.

(** [x / y] on two [float]s. *)
Definition float_true_divide (x y : float) : result float :=
  if is_zero y then Raise ZeroDivisionError else Ok (fdiv x y).

(** [int(x)] on a [float]: truncation toward zero. *)
Definition int_of_float (x : float) : result Z :=
  match x with
  | S754_zero _ => Ok 0
  | S754_finite s m e =>
      let mag := match e with
                 | Zneg _ => Z.shiftr (Zpos m) (- e)
                 | _ => Z.shiftl (Zpos m) e
                 end in
      Ok (if s then - mag else mag)
  | S754_infinity _ =>
      Raise (OverflowError "cannot convert float infinity to integer")
  | S754_nan => Raise (ValueError "cannot convert float NaN to integer")
  end.

(** A value of type [int | float]. *)
Inductive t : Type :=
| PInt (z : Z)
| PFloat (x : float).

Definition to_float (n : t) : result float :=
  match n with
  | PInt z => float_of_int z
  | PFloat x => Ok x
  end.

Local Open Scope result_scope.

Definition add (a b : t) : result t :=
  match a, b with
  | PInt x, PInt y => Ok (PInt (x + y))
  | _, _ =>
      let! x := to_float a in
      let! y := to_float b in
      Ok (PFloat (fadd x y))
  end.

Definition mul (a b : t) : result t :=
  match a, b with
  | PInt x, PInt y => Ok (PInt (x * y))
  | _, _ =>
      let! x := to_float a in
      let! y := to_float b in
      Ok (PFloat (fmul x y))
  end.

Definition true_divide (a b : t) : result float :=
  match a, b with
  | PInt x, PInt y => int_true_divide x y
  | _, _ =>
      let! x := to_float a in
      let! y := to_float b in
      float_true_divide x y
  end.

(** [sum(xs)]: left to right from the [int] 0 (the plain additions of
    CPython up to 3.11; later versions compensate the rounding errors of a
    sum of several floats). *)
Fixpoint sum_from (acc : t) (xs : list t) : result t :=
  match xs with
  | [] => Ok acc
  | x :: xs' => let! acc' := add acc x in sum_from acc' xs'
  end.

Definition sum (xs : list t) : result t := sum_from (PInt 0) xs.

End PyNum.

(** ** The score calculator ([krkn/resiliency/score.py]) *)

Module Score.

Import PyNum.
Local Open Scope result_scope.

(** [DEFAULT_WEIGHTS] *)
Definition DEFAULT_WEIGHTS : PyDict.t Z := [("critical", 3); ("warning", 1)].

(** [class SLOResult] *)
Record SLOResult : Type := mkSLOResult {
  name : string;
  severity : string;
  passed : bool;
  _custom_weight : option Z
}.

(** [SLOResult.weight] *)
Definition weight (slo : SLOResult) (severity_weights : PyDict.t Z) : Z :=
  match _custom_weight slo with
  | Some w => w
  | None =>
      PyDict.get_default severity_weights (severity slo)
        (PyDict.get_default severity_weights "warning" 1)
  end.

(** A value of [slo_definitions]: the old format, a severity string, or
    the new format, a dictionary whose keys [severity] and [weight] may
    be missing ([weight] may also be [None]). *)
Inductive slo_def : Type :=
| DefStr (sev : string)
| DefDict (sev : option string) (w : option Z).

(** A value of [health_check_results]: a flag, or any record of named
    numbers a caller may have put there; only its truth value is read. *)
Inductive hc_value : Type :=
| HCFlag (b : bool)
| HCRecord (fields : PyDict.t Z).

(** [bool(v)] *)
Definition truthy (v : hc_value) : bool :=
  match v with
  | HCFlag b => b
  | HCRecord [] => false
  | HCRecord (_ :: _) => true
  end.

(** The [SLOResult] the first loop builds for an evaluated definition:
    the old format gives the severity and no custom weight, the new one
    [slo_def.get("severity", "warning")] and [slo_def.get("weight")]. *)
Definition object_of (slo_name : string) (slo_def : slo_def) (passed : bool)
  : SLOResult :=
  match slo_def with
  | DefStr severity => mkSLOResult slo_name severity passed None
  | DefDict severity slo_weight =>
      mkSLOResult slo_name
        (match severity with Some s => s | None => "warning" end)
        passed slo_weight
  end.

(** The first loop: one [SLOResult] per evaluated definition; a name
    the results do not hold is passed over. *)
Fixpoint definition_objects (slo_definitions : PyDict.t slo_def)
         (prometheus_results : PyDict.t bool) : list SLOResult :=
  match slo_definitions with
  | [] => []
  | (slo_name, d) :: rest =>
      match PyDict.get prometheus_results slo_name with
      | None => definition_objects rest prometheus_results
      | Some p =>
          object_of slo_name d p :: definition_objects rest prometheus_results
      end
  end.

(** The second loop: one critical [SLOResult] per health check. *)
Definition health_check_objects (health_check_results : PyDict.t hc_value)
  : list SLOResult :=
  map (fun '(hc_name, hc_passed) =>
         mkSLOResult hc_name "critical" (truthy hc_passed) None)
      health_check_results.

Definition slo_objects (slo_definitions : PyDict.t slo_def)
           (prometheus_results : PyDict.t bool)
           (health_check_results : PyDict.t hc_value) : list SLOResult :=
  definition_objects slo_definitions prometheus_results
    ++ health_check_objects health_check_results.

(** [sum(...)] over [int]s. *)
Definition zsum (xs : list Z) : Z := fold_left Z.add xs 0.

Definition total_points_of (objs : list SLOResult) : Z :=
  zsum (map (fun slo => weight slo DEFAULT_WEIGHTS) objs).

Definition points_lost_of (objs : list SLOResult) : Z :=
  zsum (map (fun slo => weight slo DEFAULT_WEIGHTS)
            (filter (fun slo => negb (passed slo)) objs)).

Record Breakdown : Type := mkBreakdown {
  total_points : Z;
  points_lost : Z;
  bd_passed : Z;
  bd_failed : Z
}.

Definition breakdown_of (objs : list SLOResult) : Breakdown :=
  mkBreakdown (total_points_of objs) (points_lost_of objs)
    (Z.of_nat (List.length (filter passed objs)))
    (Z.of_nat (List.length (filter (fun s => negb (passed s)) objs))).

(** [0 if total_points == 0 else
     int(((total_points - points_lost) / total_points) * 100)] *)
Definition score_of (tp pl : Z) : result Z :=
  if tp =? 0 then Ok 0
  else
    let! q := int_true_divide (tp - pl) tp in
    let! hundred := float_of_int 100 in
    int_of_float (fmul q hundred).

(** [calculate_resiliency_score] *)
Definition calculate_resiliency_score
           (slo_definitions : PyDict.t slo_def)
           (prometheus_results : PyDict.t bool)
           (health_check_results : PyDict.t hc_value)
  : result (Z * Breakdown) :=
  let objs := slo_objects slo_definitions prometheus_results
                          health_check_results in
  let tp := total_points_of objs in
  let pl := points_lost_of objs in
  let! score := score_of tp pl in
  Ok (score, breakdown_of objs).

(** The definitions whose custom weights, where given, are not negative. *)
Definition nonneg_custom_weights (defs : PyDict.t slo_def) : Prop :=
  Forall (fun kv => match snd kv with
                    | DefDict _ (Some w) => 0 <= w
                    | _ => True
                    end) defs.

End Score.

(** ** Python values read from YAML or carried by telemetry *)

Module PyVal.

#[local] Set Warnings "-register-all".

Inductive t : Type :=
| VNone
| VBool (b : bool)
| VInt (z : Z)
| VFloat (x : PyNum.float)
| VStr (s : string)
| VList (items : list t)
| VDict (entries : PyDict.t t).

(** [bool(v)] *)
Definition truthy (v : t) : bool :=
  match v with
  | VNone => false
  | VBool b => b
  | VInt z => negb (z =? 0)
  | VFloat x => negb (PyNum.is_zero x)
  | VStr s => negb (String.eqb s "")
  | VList items => match items with [] => false | _ => true end
  | VDict entries => match entries with [] => false | _ => true end
  end.

(** [isinstance(v, list)] and [isinstance(v, dict)] *)
Definition is_list (v : t) : bool :=
  match v with VList _ => true | _ => false end.

Definition is_dict (v : t) : bool :=
  match v with VDict _ => true | _ => false end.

(** The decimal numeral of an [int], as [str] prints it. *)
Definition str_of_int (z : Z) : string :=
  NilEmpty.string_of_int (Z.to_int z).

Definition str_of_nat (n : nat) : string :=
  NilEmpty.string_of_uint (Nat.to_uint n).

(** [c.lower()] on one character of the range 0..255. *)
Definition lower_char (c : ascii) : ascii :=
  let n := nat_of_ascii c in
  if ((65 <=? n) && (n <=? 90)
      || (192 <=? n) && (n <=? 214)
      || (216 <=? n) && (n <=? 222))%nat
  then ascii_of_nat (n + 32)
  else c.

(** [s.lower()] *)
Fixpoint lower (s : string) : string :=
  match s with
  | EmptyString => EmptyString
  | String c s' => String (lower_char c) (lower s')
  end.

Section Str.

(** [str] of a float, a list or a dictionary is Python's [repr], left
    to the interpreter. *)
Variable repr_other : t -> string.

(** [str(v)] *)
Definition str (v : t) : string :=
  match v with
  | VNone => "None"
  | VBool true => "True"
  | VBool false => "False"
  | VInt z => str_of_int z
  | VStr s => s
  | _ => repr_other v
  end.

End Str.

End PyVal.

(** ** The definition loader ([Resiliency._normalise_alerts]) *)

Module Loader.

Import PyVal.

(** One record of the internal SLO list, with the values as the loader
    stores them: [name] is the description or a synthesised string,
    [expr] and [weight] are what the entry holds ([weight] is [None]
    when the key is missing), [severity] is a lower-case string. *)
Record slo : Type := mkSlo {
  name : PyVal.t;
  expr : PyVal.t;
  severity : string;
  weight : PyVal.t
}.

(** [enumerate(alerts)] counted from [idx]. *)
Definition enumerate_from {A} (idx : nat) (xs : list A) : list (nat * A) :=
  combine (seq idx (List.length xs)) xs.

(** An entry that is a dictionary without [expr] and without [severity]. *)
Definition lacks_both (alert : PyVal.t) : bool :=
  match alert with
  | VDict d => negb (PyDict.mem d "expr") && negb (PyDict.mem d "severity")
  | _ => false
  end.

Section Normalise.

Variable repr_other : PyVal.t -> string.

(** The test of line 354: a dictionary with both keys. *)
Definition valid_entry (alert : PyVal.t) : bool :=
  match alert with
  | VDict d => PyDict.mem d "expr" && PyDict.mem d "severity"
  | _ => false
  end.

(** [alert[k]] for a key the test has found in the dictionary. *)
Definition item (d : PyDict.t PyVal.t) (k : string) : PyVal.t :=
  PyDict.get_default d k VNone.

(** The record appended for the valid dictionary [d] at index [idx]. *)
Definition record_of (idx : nat) (d : PyDict.t PyVal.t) : slo :=
  let description := PyDict.get_default d "description" VNone in
  let name := if truthy description then description
              else VStr ("slo_" ++ str_of_nat idx) in
  mkSlo name (item d "expr") (lower (str repr_other (item d "severity")))
        (PyDict.get_default d "weight" VNone).

(** The loop over [enumerate(raw_alerts)] from index [idx] on: the
    records kept, and the indices a warning was logged for. *)
Fixpoint normalise_from (idx : nat) (alerts : list PyVal.t)
  : list slo * list nat :=
  match alerts with
  | [] => ([], [])
  | alert :: rest =>
      let '(slos, warned) := normalise_from (S idx) rest in
      match alert with
      | VDict d =>
          if negb (valid_entry alert) then (slos, idx :: warned)
          else (record_of idx d :: slos, warned)
      | _ => (slos, idx :: warned)
      end
  end.

(** What the loop keeps of the entry at index [idx]. *)
Definition kept (idx : nat) (alert : PyVal.t) : list slo :=
  match alert with
  | VDict d => if valid_entry alert then [record_of idx d] else []
  | _ => []
  end.

(** [_normalise_alerts] *)
Definition _normalise_alerts (raw_alerts : PyVal.t)
  : result (list slo * list nat) :=
  match raw_alerts with
  | VList alerts => Ok (normalise_from 0 alerts)
  | _ =>
      Raise
        (ValueError
           "SLO configuration must be a list under key 'slos' or top-level list")
  end.

End Normalise.

End Loader.

(** ** JSON text as [json.dumps] and [json.dump] write it *)

Module Json.

#[local] Set Warnings "-register-all".

Inductive t : Type :=
| JNull
| JBool (b : bool)
| JInt (z : Z)
| JFloat (x : PyNum.float)
| JStr (s : string)
| JArr (items : list t)
| JObj (members : list (string * t)).

Definition hex_digit (n : nat) : ascii :=
  match n with
  | 0 => "0" | 1 => "1" | 2 => "2" | 3 => "3" | 4 => "4" | 5 => "5"
  | 6 => "6" | 7 => "7" | 8 => "8" | 9 => "9" | 10 => "a" | 11 => "b"
  | 12 => "c" | 13 => "d" | 14 => "e" | _ => "f"
  end%nat%char.

(** The replacement [ensure_ascii] gives one character: printable ASCII
    other than the quote and the backslash stands for itself. *)
Definition escape_char (c : ascii) : string :=
  let n := nat_of_ascii c in
  if (n =? 34)%nat then "\" ++ String c ""
  else if (n =? 92)%nat then "\\"
  else if (n =? 10)%nat then "\n"
  else if (n =? 13)%nat then "\r"
  else if (n =? 9)%nat then "\t"
  else if (n =? 8)%nat then "\b"
  else if (n =? 12)%nat then "\f"
  else if ((32 <=? n) && (n <=? 126))%nat then String c ""
  else "\u00" ++ String (hex_digit (n / 16)) (String (hex_digit (n mod 16)) "").

Fixpoint escape (s : string) : string :=
  match s with
  | EmptyString => EmptyString
  | String c s' => escape_char c ++ escape s'
  end.

Definition quote (s : string) : string :=
  String (ascii_of_nat 34) (escape s ++ String (ascii_of_nat 34) "").

Definition newline : string := String (ascii_of_nat 10) "".

Fixpoint spaces (n : nat) : string :=
  match n with
  | O => ""
  | S n' => " " ++ spaces n'
  end.

(** [sep.join(parts)] *)
Fixpoint join (sep : string) (parts : list string) : string :=
  match parts with
  | [] => ""
  | [p] => p
  | p :: rest => p ++ sep ++ join sep rest
  end.

(** Whether the character [c] occurs in [s]; a text is one line when no
    newline occurs in it. *)
Fixpoint contains (c : ascii) (s : string) : bool :=
  match s with
  | EmptyString => false
  | String c' s' => Ascii.eqb c c' || contains c s'
  end.

Definition one_line (s : string) : Prop :=
  contains (ascii_of_nat 10) s = false.

Local Open Scope result_scope.

(** The results of a list of computations, or the first exception. *)
Fixpoint sequence {A} (rs : list (result A)) : result (list A) :=
  match rs with
  | [] => Ok []
  | r :: rest =>
      let! a := r in
      let! others := sequence rest in
      Ok (a :: others)
  end.

(** What a writer of chunks has done when it stops: the text written,
    and the exception that ended the writing, if one did. *)
Definition progress : Type := (string * option exn)%type.

Definition emit (text : string) : progress := (text, None).

Definition stop (e : exn) : progress := ("", Some e).

Definition and_then (a b : progress) : progress :=
  match a with
  | (text, None) => (text ++ fst b, snd b)
  | (text, Some e) => (text, Some e)
  end.

Section Encode.

(** [sys.get_int_max_str_digits()]: the most decimal digits an [int] may
    have when it is converted to a string. 0 lifts the limit, the default
    is 4300 and no other setting is below 640; an interpreter that has no
    such limit behaves as under 0. *)
Variable int_max_str_digits : Z.

(** [float.__repr__] on the finite floats, left to the interpreter. *)
Variable float_repr : PyNum.float -> string.

Definition encode_float (x : PyNum.float) : string :=
  match x with
  | S754_nan => "NaN"
  | S754_infinity false => "Infinity"
  | S754_infinity true => "-Infinity"
  | _ => float_repr x
  end.

(** The number of decimal digits of an [int], its sign apart. *)
Definition decimal_digits (z : Z) : Z :=
  Z.of_nat (String.length (PyVal.str_of_int (Z.abs z))).

(** An [int] of more digits than a limit that is set allows. *)
Definition exceeds_limit (z : Z) : bool :=
  (0 <? int_max_str_digits) && (int_max_str_digits <? decimal_digits z).

Definition limit_error : exn :=
  ValueError
    ("Exceeds the limit (" ++ PyVal.str_of_int int_max_str_digits
       ++ " digits) for integer string conversion; "
       ++ "use sys.set_int_max_str_digits() to increase the limit").

(** [int.__repr__], which both encoders call on an [int]. *)
Definition encode_int (z : Z) : result string :=
  if exceeds_limit z then Raise limit_error else Ok (PyVal.str_of_int z).

(** The text of a value that is no container, or the exception its
    conversion raises. *)
Definition scalar (j : t) : option (result string) :=
  match j with
  | JNull => Some (Ok "null")
  | JBool true => Some (Ok "true")
  | JBool false => Some (Ok "false")
  | JInt z => Some (encode_int z)
  | JFloat x => Some (Ok (encode_float x))
  | JStr s => Some (Ok (quote s))
  | JArr _ | JObj _ => None
  end.

(** [json.dumps(j)]: separators [", "] and [": "], one line. The text is
    built as a whole, so a conversion that raises leaves nothing. *)
Fixpoint dumps (j : t) : result string :=
  match j with
  | JNull => Ok "null"
  | JBool true => Ok "true"
  | JBool false => Ok "false"
  | JInt z => encode_int z
  | JFloat x => Ok (encode_float x)
  | JStr s => Ok (quote s)
  | JArr items =>
      let! parts := sequence (map dumps items) in
      Ok ("[" ++ join ", " parts ++ "]")
  | JObj members =>
      let! parts :=
        sequence (map (fun '(k, v) =>
                         let! text := dumps v in
                         Ok (quote k ++ ": " ++ text)) members) in
      Ok ("{" ++ join ", " parts ++ "}")
  end.

Section Chunks.

(** The chunks of a container one level down. *)
Variable nested : t -> progress.

(** An item of a list: a scalar goes out in one chunk with the text
    pending before it ([buf]: the opening bracket or the separator), so
    nothing of the two is written when its conversion raises; before a
    container the pending text goes out on its own. *)
Definition element (buf : string) (x : t) : progress :=
  match scalar x with
  | Some (Ok text) => emit (buf ++ text)
  | Some (Raise e) => stop e
  | None => and_then (emit buf) (nested x)
  end.

Fixpoint elements (separator buf : string) (xs : list t) : progress :=
  match xs with
  | [] => emit ""
  | x :: rest =>
      and_then (element buf x) (elements separator separator rest)
  end.

(** The value of a dictionary item: its key and the colon are written
    before the value is converted. *)
Definition value (v : t) : progress :=
  match scalar v with
  | Some (Ok text) => emit text
  | Some (Raise e) => stop e
  | None => nested v
  end.

Fixpoint pairs (separator : string) (first : bool) (xs : list (string * t))
  : progress :=
  match xs with
  | [] => emit ""
  | (k, v) :: rest =>
      and_then
        (emit ((if first then "" else separator) ++ quote k ++ ": "))
        (and_then (value v) (pairs separator false rest))
  end.

End Chunks.

(** [json.dump(j, fp, indent=2)] at nesting depth [level]: separators
    [","] and [": "], every item on a line of its own indented by two
    spaces per level, an empty container closed on its line. The text
    reaches the file chunk by chunk, so what was written before a
    conversion raised stays written. *)
Fixpoint dump (level : nat) (j : t) {struct j} : progress :=
  let inner := newline ++ spaces (2 * S level) in
  let outer := newline ++ spaces (2 * level) in
  match j with
  | JArr [] => emit "[]"
  | JArr items =>
      and_then
        (elements (dump (S level)) ("," ++ inner) ("[" ++ inner) items)
        (emit (outer ++ "]"))
  | JObj [] => emit "{}"
  | JObj members =>
      and_then
        (emit ("{" ++ inner))
        (and_then (pairs (dump (S level)) ("," ++ inner) true members)
                  (emit (outer ++ "}")))
  | _ => value (fun _ => emit "") j
  end.

(** The values all of whose [int]s can be converted. *)
Fixpoint within_limit (j : t) : bool :=
  match j with
  | JInt z => negb (exceeds_limit z)
  | JArr items => forallb within_limit items
  | JObj members => forallb (fun kv => within_limit (snd kv)) members
  | _ => true
  end.

End Encode.

End Json.

(** ** The orchestrator ([class Resiliency]) *)

Module Resiliency.

Import Score.

(** An SLO record as the orchestrator reads it: the loader's record with
    a string name and expression and an integer or absent weight, the
    types of the data model. *)
Record slo : Type := mkSlo {
  slo_name : string;
  slo_expr : string;
  slo_severity : string;
  slo_weight : option Z
}.

Definition slo_of_loaded (r : Loader.slo) : option slo :=
  match Loader.name r, Loader.expr r, Loader.weight r with
  | PyVal.VStr n, PyVal.VStr e, PyVal.VNone =>
      Some (mkSlo n e (Loader.severity r) None)
  | PyVal.VStr n, PyVal.VStr e, PyVal.VInt w =>
      Some (mkSlo n e (Loader.severity r) (Some w))
  | _, _, _ => None
  end.

(** The dictionary comprehension of lines 57, 111 and 156:
    [{slo["name"]: {"severity": ..., "weight": slo.get("weight")} ...}] *)
Definition slo_defs (slos : list slo) : PyDict.t slo_def :=
  PyDict.comprehension slo_name
    (fun s => DefDict (Some (slo_severity s)) (slo_weight s)) slos.

(** The last SLO record with the name [n]. *)
Definition last_named (n : string) (slos : list slo) : option slo :=
  find (fun s => String.eqb n (slo_name s)) (rev slos).

(** One entry of [scenario_reports]; the window holds the two
    [isoformat] strings. *)
Record scenario_report : Type := mkReport {
  rep_name : string;
  rep_window_start : string;
  rep_window_end : string;
  rep_score : Z;
  rep_weight : PyNum.t;
  rep_breakdown : Breakdown;
  rep_slo_results : PyDict.t bool;
  rep_health_check_results : PyDict.t hc_value
}.

Record Summary : Type := mkSummary {
  sum_scenarios : PyDict.t Z;
  resiliency_score : Z;
  passed_slos : Z;
  total_slos : Z
}.

(** The value of [detailed_report] after finalisation is the dictionary
    [{"scenarios": self.scenario_reports}]: it holds the report list of
    the object itself, not a copy. *)
Inductive detailed_ref : Type :=
| ScenariosOfSelf.

(** An instance attribute: not set at all, or bound to a value. *)
Inductive attribute (A : Type) : Type :=
| Unbound
| Bound (v : A).
Arguments Unbound {A}.
Arguments Bound {A} v.

(** [hasattr(self, ...)] *)
Definition hasattr {A} (a : attribute A) : bool :=
  match a with Unbound => false | Bound _ => true end.

(** The attributes of a [Resiliency] object; [None] is Python's. *)
Record object : Type := mkObject {
  _slos : list slo;
  _results : PyDict.t bool;
  _score : option Z;
  _breakdown : option Breakdown;
  _health_check_results : PyDict.t hc_value;
  scenario_reports : list scenario_report;
  summary : attribute (option Summary);
  detailed_report : attribute (option detailed_ref)
}.

(** The attributes [__init__] sets once the SLO records are loaded
    (lines 38 to 45). *)
Definition init (slos : list slo) : object :=
  mkObject slos PyDict.empty None None PyDict.empty []
           (Bound None) (Bound None).

Inductive log_level : Type := INFO | WARNING | ERROR.

(** What the code acts on outside the object: how many window
    evaluations the metrics backend has served, standard output, the
    files written, and the log. *)
Record world : Type := mkWorld {
  prom_calls : nat;
  stdout : string;
  stdout_broken : bool;
  files : PyDict.t string;
  writable : string -> bool;
  log : list (log_level * string * option exn)
}.

Record state : Type := mkState {
  the_world : world;
  self : object
}.

(** Computations over the state that may raise. *)
Definition M (A : Type) : Type := state -> state * result A.

Definition ret {A} (a : A) : M A := fun st => (st, Ok a).

Definition raise {A} (e : exn) : M A := fun st => (st, Raise e).

Definition bind {A B} (m : M A) (k : A -> M B) : M B :=
  fun st =>
    match m st with
    | (st', Ok a) => k a st'
    | (st', Raise e) => (st', Raise e)
    end.

(** [try: body  except Exception as exc: handler(exc)] *)
Definition try_except {A} (body : M A) (handler : exn -> M A) : M A :=
  fun st =>
    match body st with
    | (st', Ok a) => (st', Ok a)
    | (st', Raise e) => handler e st'
    end.

Definition lift {A} (r : result A) : M A := fun st => (st, r).

Definition get_self : M object := fun st => (st, Ok (self st)).

Definition set_self (o : object) : M unit :=
  fun st => (mkState (the_world st) o, Ok tt).

Definition get_world : M world := fun st => (st, Ok (the_world st)).

Definition set_world (w : world) : M unit :=
  fun st => (mkState w (self st), Ok tt).

Declare Scope m_scope.
Delimit Scope m_scope with M.
Notation "x <- m ;; k" := (bind m (fun x => k))
  (at level 61, m at next level, right associativity) : m_scope.
Notation "' pat <- m ;; k" :=
  (bind m (fun x => match x with pat => k end))
  (at level 61, pat pattern, m at next level, right associativity) : m_scope.
Notation "m ;; k" := (bind m (fun _ => k))
  (at level 61, right associativity) : m_scope.
Local Open Scope m_scope.

(** The world after one more log record. *)
Definition logged (w : world) (entry : log_level * string * option exn)
  : world :=
  mkWorld (prom_calls w) (stdout w) (stdout_broken w) (files w) (writable w)
          (log w ++ [entry]).

(** [logging.info], [logging.warning], [logging.error] *)
Definition logging (lvl : log_level) (msg : string) (exc : option exn)
  : M unit :=
  w <- get_world ;;
  set_world (logged w (lvl, msg, exc)).

(** The world after one more window evaluation by the metrics backend. *)
Definition queried (w : world) : world :=
  mkWorld (S (prom_calls w)) (stdout w) (stdout_broken w) (files w)
          (writable w) (log w).

(** The object after [self.scenario_reports.append(r)]. *)
Definition with_report (o : object) (r : scenario_report) : object :=
  mkObject (_slos o) (_results o) (_score o) (_breakdown o)
           (_health_check_results o) (scenario_reports o ++ [r])
           (summary o) (detailed_report o).

(** The object after the two assignments that end [finalize_report]. *)
Definition finalized (o : object) (s : Summary) : object :=
  mkObject (_slos o) (_results o) (_score o) (_breakdown o)
           (_health_check_results o) (scenario_reports o)
           (Bound (Some s)) (Bound (Some ScenariosOfSelf)).

(** [compact_breakdown] on a report of [scenario_reports] (every key is
    present, so the [try] branch computes the result). *)
Record compact : Type := mkCompact {
  c_resiliency_score : Z;
  c_passed_slos : Z;
  c_total_slos : Z
}.

Definition compact_breakdown (report : scenario_report) : compact :=
  let passed := bd_passed (rep_breakdown report) in
  let failed := bd_failed (rep_breakdown report) in
  mkCompact (rep_score report) passed (passed + failed).

(** [get_summary] and [get_detailed_report] *)
(** [self.name] for an attribute slot. *)
Definition getattr {A} (name : string) (a : attribute A) : M A :=
  match a with
  | Unbound => raise (AttributeError name)
  | Bound v => ret v
  end.

Definition get_summary : M (option Summary) :=
  o <- get_self ;;
  if negb (hasattr (summary o))
  then raise (RuntimeError "finalize_report() must be called first")
  else getattr "summary" (summary o).

Definition get_detailed_report : M (option detailed_ref) :=
  o <- get_self ;;
  if negb (hasattr (detailed_report o))
  then raise (RuntimeError "finalize_report() must be called first")
  else getattr "detailed_report" (detailed_report o).

(** [calculate_score] on the collected results, and [to_dict], which
    refuses to answer before a score exists. *)
Definition calculate_score (health_check_results : option (PyDict.t hc_value))
  : M Z :=
  o <- get_self ;;
  let hc := match health_check_results with
            | Some d => d
            | None => PyDict.empty
            end in
  ' (score, breakdown) <-
    lift (calculate_resiliency_score (slo_defs (_slos o)) (_results o) hc) ;;
  set_self (mkObject (_slos o) (_results o) (Some score) (Some breakdown) hc
                     (scenario_reports o) (summary o) (detailed_report o)) ;;
  ret score.

Definition to_dict
  : M (Z * option Breakdown * PyDict.t bool * PyDict.t hc_value) :=
  o <- get_self ;;
  match _score o with
  | None =>
      raise (RuntimeError "calculate_score() must be called before to_dict()")
  | Some score =>
      ret (score, _breakdown o, _results o, _health_check_results o)
  end.

(** What a reader of the detailed report sees in a given state. *)
Definition deref (o : object) (d : detailed_ref) : list scenario_report :=
  match d with ScenariosOfSelf => scenario_reports o end.

(** A telemetry item: a dictionary or an object with the same named
    values; an object may refuse a new attribute. *)
Inductive item_kind : Type :=
| ItemDict
| ItemObject (accepts_setattr : bool).

Record telemetry : Type := mkTelemetry {
  tel_kind : item_kind;
  tel_fields : PyDict.t PyVal.t;
  tel_resiliency_report : option compact
}.

Section Collaborators.

(** [datetime.datetime], its [isoformat] and [fromtimestamp]. *)
Variable datetime : Type.
Variable isoformat : datetime -> string.
Variable fromtimestamp : Z -> result datetime.

(** [krkn.prometheus.collector.evaluate_slos]: the answer of the
    metrics backend to its [n]-th window evaluation. *)
Variable evaluate_slos :
  nat -> list slo -> datetime -> datetime -> result (PyDict.t bool).

(** [repr] of floats and containers, [float.__repr__], and [int] on a
    string, left to the interpreter. *)
Variable repr_other : PyVal.t -> string.
Variable float_repr : PyNum.float -> string.
Variable int_of_str : string -> result Z.

(** [sys.get_int_max_str_digits()] *)
Variable int_max_str_digits : Z.

Definition call_evaluate_slos (start_time end_time : datetime)
  : M (PyDict.t bool) :=
  w <- get_world ;;
  o <- get_self ;;
  set_world (queried w) ;;
  lift (evaluate_slos (prom_calls w) (_slos o) start_time end_time).

(** [health_check_results or {}] *)
Definition or_empty (hc : option (PyDict.t hc_value)) : PyDict.t hc_value :=
  match hc with
  | Some d => d
  | None => PyDict.empty
  end.

Definition append_report (r : scenario_report) : M unit :=
  o <- get_self ;;
  set_self (with_report o r).

(** [add_scenario_report] *)
Definition add_scenario_report (scenario_name : string)
           (start_time end_time : datetime) (weight : PyNum.t)
           (health_check_results : option (PyDict.t hc_value)) : M Z :=
  slo_results <- call_evaluate_slos start_time end_time ;;
  o <- get_self ;;
  ' (score, breakdown) <-
    lift (calculate_resiliency_score (slo_defs (_slos o)) slo_results
            (or_empty health_check_results)) ;;
  append_report
    (mkReport scenario_name (isoformat start_time) (isoformat end_time)
              score weight breakdown slo_results
              (or_empty health_check_results)) ;;
  ret score.

(** [sum(rep["score"] * rep["weight"] for rep in ...)] continued from
    the partial sum [acc]. *)
Fixpoint sum_products (acc : PyNum.t) (reports : list scenario_report)
  : result PyNum.t :=
  match reports with
  | [] => Ok acc
  | rep :: rest =>
      (let! p := PyNum.mul (PyNum.PInt (rep_score rep)) (rep_weight rep) in
       let! acc' := PyNum.add acc p in
       sum_products acc' rest)%result
  end.

(** The weighted average of lines 144 to 147. *)
Definition weighted_average (reports : list scenario_report) : result Z :=
  (let! total_weight := PyNum.sum (map rep_weight reports) in
   let! numerator := sum_products (PyNum.PInt 0) reports in
   let! q := PyNum.true_divide numerator total_weight in
   PyNum.int_of_float q)%result.

(** [finalize_report] *)
Definition finalize_report (total_start_time total_end_time : datetime)
  : M unit :=
  o <- get_self ;;
  match scenario_reports o with
  | [] => raise (RuntimeError "No scenario reports added - nothing to finalize")
  | _ :: _ =>
      score <- lift (weighted_average (scenario_reports o)) ;;
      full_slo_results <- call_evaluate_slos total_start_time total_end_time ;;
      ' (_, full_breakdown) <-
        lift (calculate_resiliency_score (slo_defs (_slos o))
                full_slo_results PyDict.empty) ;;
      o <- get_self ;;
      set_self
        (finalized o
           (mkSummary
              (PyDict.comprehension rep_name rep_score (scenario_reports o))
              score
              (bd_passed full_breakdown)
              (bd_passed full_breakdown + bd_failed full_breakdown)))
  end.

(** [int(v)] on a timestamp value. *)
Definition py_int (v : PyVal.t) : result Z :=
  match v with
  | PyVal.VInt z => Ok z
  | PyVal.VBool b => Ok (if b then 1 else 0)
  | PyVal.VFloat x => PyNum.int_of_float x
  | PyVal.VStr s => int_of_str s
  | _ => Raise (TypeError "int() argument must be a string or a number")
  end.

(** [tel["resiliency_report"] = compact] or
    [setattr(tel, "resiliency_report", compact)] *)
Definition set_resiliency_report (tel : telemetry) (c : compact)
  : result telemetry :=
  match tel_kind tel with
  | ItemObject false =>
      Raise (AttributeError "object has no attribute 'resiliency_report'")
  | _ => Ok (mkTelemetry (tel_kind tel) (tel_fields tel) (Some c))
  end.

(** The body of the [try] of [add_scenario_reports] for one item. *)
Definition process_item (scenario_type : string)
           (batch_start_dt batch_end_dt : datetime) (weight : PyNum.t)
           (tel : telemetry) : M telemetry :=
  let st_ts :=
    PyDict.get_default (tel_fields tel) "start_timestamp" PyVal.VNone in
  let en_ts :=
    PyDict.get_default (tel_fields tel) "end_timestamp" PyVal.VNone in
  let scen_name :=
    PyDict.get_default (tel_fields tel) "scenario" (PyVal.VStr scenario_type) in
  ' (st_dt, en_dt) <-
    (if PyVal.truthy st_ts && PyVal.truthy en_ts
     then
       lift (let! s := py_int st_ts in
             let! st_dt := fromtimestamp s in
             let! e := py_int en_ts in
             let! en_dt := fromtimestamp e in
             Ok (st_dt, en_dt))%result
     else ret (batch_start_dt, batch_end_dt)) ;;
  add_scenario_report (PyVal.str repr_other scen_name) st_dt en_dt weight
                      None ;;
  o <- get_self ;;
  match rev (scenario_reports o) with
  | [] => raise (IndexError "list index out of range")
  | last_report :: _ =>
      lift (set_resiliency_report tel (compact_breakdown last_report))
  end.

(** [add_scenario_reports]: the items as the loop leaves them. *)
Fixpoint add_scenario_reports (scenario_telemetries : list telemetry)
         (scenario_type : string) (batch_start_dt batch_end_dt : datetime)
         (weight : PyNum.t) : M (list telemetry) :=
  match scenario_telemetries with
  | [] => ret []
  | tel :: rest =>
      tel' <- try_except
                (process_item scenario_type batch_start_dt batch_end_dt
                              weight tel)
                (fun exc =>
                   logging ERROR "Resiliency per-scenario evaluation failed"
                           (Some exc) ;;
                   ret tel) ;;
      rest' <- add_scenario_reports rest scenario_type batch_start_dt
                                    batch_end_dt weight ;;
      ret (tel' :: rest')
  end.

(** One item of the batch with its [try] and [except]: the state and the
    item as the loop leaves them. *)
Definition guarded_item (scenario_type : string)
           (batch_start_dt batch_end_dt : datetime) (weight : PyNum.t)
           (tel : telemetry) (st : state) : state * telemetry :=
  match process_item scenario_type batch_start_dt batch_end_dt weight tel
                     st with
  | (st', Ok tel') => (st', tel')
  | (st', Raise e) =>
      (mkState (logged (the_world st')
                  (ERROR, "Resiliency per-scenario evaluation failed", Some e))
               (self st'),
       tel)
  end.

(** The state in which the loop reaches the item of index [k]. *)
Definition state_before (k : nat) (items : list telemetry)
           (scenario_type : string) (bs be : datetime) (weight : PyNum.t)
           (st : state) : state :=
  fst (add_scenario_reports (firstn k items) scenario_type bs be weight st).

(** The detailed report as a JSON value, keys in insertion order. *)
Definition json_of_num (n : PyNum.t) : Json.t :=
  match n with
  | PyNum.PInt z => Json.JInt z
  | PyNum.PFloat x => Json.JFloat x
  end.

Definition json_of_hc (v : hc_value) : Json.t :=
  match v with
  | HCFlag b => Json.JBool b
  | HCRecord fields =>
      Json.JObj (map (fun '(k, z) => (k, Json.JInt z)) fields)
  end.

Definition json_of_report (r : scenario_report) : Json.t :=
  Json.JObj
    [("name", Json.JStr (rep_name r));
     ("window", Json.JObj [("start", Json.JStr (rep_window_start r));
                           ("end", Json.JStr (rep_window_end r))]);
     ("score", Json.JInt (rep_score r));
     ("weight", json_of_num (rep_weight r));
     ("breakdown",
       Json.JObj [("total_points", Json.JInt (total_points (rep_breakdown r)));
                  ("points_lost", Json.JInt (points_lost (rep_breakdown r)));
                  ("passed", Json.JInt (bd_passed (rep_breakdown r)));
                  ("failed", Json.JInt (bd_failed (rep_breakdown r)))]);
     ("slo_results",
       Json.JObj (map (fun '(k, b) => (k, Json.JBool b)) (rep_slo_results r)));
     ("health_check_results",
       Json.JObj (map (fun '(k, v) => (k, json_of_hc v))
                      (rep_health_check_results r)))].

Definition json_of_detailed (o : object) (d : option detailed_ref) : Json.t :=
  match d with
  | None => Json.JNull
  | Some ref =>
      Json.JObj [("scenarios", Json.JArr (map json_of_report (deref o ref)))]
  end.

Definition SENTINEL : string := "KRKN_RESILIENCY_REPORT_JSON:".

(** The world after [text] and a newline went to standard output, and the
    world after the file at [path] was closed with the content [text]. *)
Definition printed (w : world) (text : string) : world :=
  mkWorld (prom_calls w) (stdout w ++ text ++ Json.newline) (stdout_broken w)
          (files w) (writable w) (log w).

Definition written (w : world) (path text : string) : world :=
  mkWorld (prom_calls w) (stdout w) (stdout_broken w)
          (PyDict.set (files w) path text) (writable w) (log w).

(** [print(text)]: the text and a newline on standard output. *)
Definition print (text : string) : M unit :=
  w <- get_world ;;
  if stdout_broken w then raise (OSError "Broken pipe")
  else set_world (printed w text).

(** [with open(path, "w", encoding="utf-8") as fp:
     json.dump(j, fp, indent=2)]: opening empties the file; the chunks
    written before a conversion raised are in it when it is closed. *)
Definition dump_to_file (path : string) (j : Json.t) : M unit :=
  w <- get_world ;;
  if writable w path
  then
    set_world
      (written w path (fst (Json.dump int_max_str_digits float_repr 0 j))) ;;
    match snd (Json.dump int_max_str_digits float_repr 0 j) with
    | None => ret tt
    | Some exc => raise exc
    end
  else raise (OSError "Permission denied").

(** [finalize_and_save] *)
Definition finalize_and_save (total_start_time total_end_time : datetime)
           (run_mode detailed_path : string) : M unit :=
  try_except
    (finalize_report total_start_time total_end_time ;;
     detailed <- get_detailed_report ;;
     o <- get_self ;;
     if String.eqb run_mode "controller"
     then
       try_except
         (detailed_json <-
            lift (Json.dumps int_max_str_digits float_repr
                             (json_of_detailed o detailed)) ;;
          print (SENTINEL ++ detailed_json) ;;
          logging INFO "Resiliency report logged to stdout for krknctl." None)
         (fun exc =>
            logging ERROR
              "Failed to serialize and log detailed resiliency report"
              (Some exc))
     else
       try_except
         (dump_to_file detailed_path (json_of_detailed o detailed) ;;
          logging INFO "Resiliency report written" None)
         (fun io_exc =>
            logging ERROR "Failed to write resiliency report files"
                    (Some io_exc)))
    (fun exc =>
       logging ERROR "Failed to finalize resiliency scoring" (Some exc)).

End Collaborators.

End Resiliency.

(** ** The weighted average in the words of the specification *)

Module AverageSpec.

Import Score Resiliency.

(** The weighted average as the specification words it, on exact
    rationals: [floor(sum(score * weight) / sum(weight))], with a
    float weight standing for the number it denotes; undefined for a
    weight that is not a number and for a zero total weight. *)
Definition float_value (x : PyNum.float) : option QArith_base.Q :=
  match x with
  | S754_zero _ => Some (QArith_base.inject_Z 0)
  | S754_finite s m e =>
      Some (QArith_base.Qmult
              (QArith_base.inject_Z (if s then Zneg m else Zpos m))
              (QArith_base.Qpower (QArith_base.inject_Z 2) e))
  | _ => None
  end.

Definition weight_value (w : PyNum.t) : option QArith_base.Q :=
  match w with
  | PyNum.PInt z => Some (QArith_base.inject_Z z)
  | PyNum.PFloat x => float_value x
  end.

Fixpoint spec_sums (reports : list scenario_report)
  : option (QArith_base.Q * QArith_base.Q) :=
  match reports with
  | [] => Some (QArith_base.inject_Z 0, QArith_base.inject_Z 0)
  | rep :: rest =>
      match weight_value (rep_weight rep), spec_sums rest with
      | Some w, Some (num, den) =>
          Some (QArith_base.Qplus
                  (QArith_base.Qmult (QArith_base.inject_Z (rep_score rep)) w)
                  num,
                QArith_base.Qplus w den)
      | _, _ => None
      end
  end.

Definition spec_resiliency_score (reports : list scenario_report) : option Z :=
  match spec_sums reports with
  | Some (num, den) =>
      if QArith_base.Qeq_bool den (QArith_base.inject_Z 0) then None
      else Some (Qround.Qfloor (QArith_base.Qdiv num den))
  | None => None
  end.

(** The two integer sums over reports whose weights are all [int]s. *)
Definition int_weight (rep : scenario_report) : Z :=
  match rep_weight rep with
  | PyNum.PInt z => z
  | PyNum.PFloat _ => 0
  end.

Definition integer_weights (reports : list scenario_report) : Prop :=
  Forall (fun rep => rep_weight rep = PyNum.PInt (int_weight rep)) reports.

Definition total_weight (reports : list scenario_report) : Z :=
  zsum (map int_weight reports).

Definition weighted_scores (reports : list scenario_report) : Z :=
  zsum (map (fun rep => rep_score rep * int_weight rep) reports).

End AverageSpec.

(** ** Scenario reports and telemetry items as Python values *)

Module Telemetry.

Import Score Resiliency PyVal.
Local Open Scope result_scope.

(** The numbers among the values; a [bool] counts as the [int] 0 or 1. *)
Definition as_number (v : PyVal.t) : option PyNum.t :=
  match v with
  | VBool b => Some (PyNum.PInt (if b then 1 else 0))
  | VInt z => Some (PyNum.PInt z)
  | VFloat x => Some (PyNum.PFloat x)
  | _ => None
  end.

Definition of_number (n : PyNum.t) : PyVal.t :=
  match n with
  | PyNum.PInt z => VInt z
  | PyNum.PFloat x => VFloat x
  end.

(** [a + b]: numbers add, two strings and two lists concatenate, any
    other pair of operands is a [TypeError]. *)
Definition py_add (a b : PyVal.t) : result PyVal.t :=
  match as_number a, as_number b with
  | Some x, Some y => let! s := PyNum.add x y in Ok (of_number s)
  | _, _ =>
      match a, b with
      | VStr s, VStr t => Ok (VStr (s ++ t))
      | VList xs, VList ys => Ok (VList (xs ++ ys))
      | _, _ => Raise (TypeError "unsupported operand type(s) for +")
      end
  end.

(** [v[k]] for a string key: [None] when the subscription raises (a
    missing key, or a value that is not a dictionary); the handler of
    [compact_breakdown] does not look at the exception. *)
Definition subscript (v : PyVal.t) (k : string) : option PyVal.t :=
  match v with
  | VDict d => PyDict.get d k
  | _ => None
  end.

(** [v.get(k, dflt)] *)
Definition get (v : PyVal.t) (k : string) (dflt : PyVal.t) : result PyVal.t :=
  match v with
  | VDict d => Ok (PyDict.get_default d k dflt)
  | _ => Raise (AttributeError "object has no attribute 'get'")
  end.

(** The three assignments of the [try] block (lines 191 to 193). *)
Definition direct_fields (report : PyVal.t)
  : option (PyVal.t * PyVal.t * PyVal.t) :=
  match subscript report "breakdown" with
  | None => None
  | Some breakdown =>
      match subscript breakdown "passed" with
      | None => None
      | Some passed =>
          match subscript report "breakdown" with
          | None => None
          | Some breakdown' =>
              match subscript breakdown' "failed" with
              | None => None
              | Some failed =>
                  match subscript report "score" with
                  | None => None
                  | Some score_val => Some (passed, failed, score_val)
                  end
              end
          end
      end
  end.

(** The three assignments of the handler (lines 195 to 197). *)
Definition default_fields (report : PyVal.t)
  : result (PyVal.t * PyVal.t * PyVal.t) :=
  let! breakdown := get report "breakdown" (VDict []) in
  let! passed := get breakdown "passed" (VInt 0) in
  let! breakdown' := get report "breakdown" (VDict []) in
  let! failed := get breakdown' "failed" (VInt 0) in
  let! score_val := get report "score" (VInt 0) in
  Ok (passed, failed, score_val).

(** [Resiliency.compact_breakdown] on any value. *)
Definition compact_breakdown (report : PyVal.t) : result PyVal.t :=
  let! fields := match direct_fields report with
                 | Some fields => Ok fields
                 | None => default_fields report
                 end in
  let '(passed, failed, score_val) := fields in
  let! total := py_add passed failed in
  Ok (VDict [("resiliency_score", score_val);
             ("passed_slos", passed);
             ("total_slos", total)]).

(** The dictionary [add_scenario_report] appends (lines 118 to 129), and
    the dictionary [compact_breakdown] returns for it. *)
Definition hc_value_of (v : hc_value) : PyVal.t :=
  match v with
  | HCFlag b => VBool b
  | HCRecord fields => VDict (map (fun '(k, z) => (k, VInt z)) fields)
  end.

Definition report_value (r : scenario_report) : PyVal.t :=
  VDict
    [("name", VStr (rep_name r));
     ("window", VDict [("start", VStr (rep_window_start r));
                       ("end", VStr (rep_window_end r))]);
     ("score", VInt (rep_score r));
     ("weight", of_number (rep_weight r));
     ("breakdown",
       VDict [("total_points", VInt (total_points (rep_breakdown r)));
              ("points_lost", VInt (points_lost (rep_breakdown r)));
              ("passed", VInt (bd_passed (rep_breakdown r)));
              ("failed", VInt (bd_failed (rep_breakdown r)))]);
     ("slo_results",
       VDict (map (fun '(k, b) => (k, VBool b)) (rep_slo_results r)));
     ("health_check_results",
       VDict (map (fun '(k, v) => (k, hc_value_of v))
                  (rep_health_check_results r)))].

Definition compact_value (c : compact) : PyVal.t :=
  VDict [("resiliency_score", VInt (c_resiliency_score c));
         ("passed_slos", VInt (c_passed_slos c));
         ("total_slos", VInt (c_total_slos c))].

(** [{rep["name"]: self.compact_breakdown(rep) for rep in ...}] continued
    from the dictionary [acc]. *)
Fixpoint score_map_from (acc : PyDict.t PyVal.t)
         (reports : list scenario_report) : result (PyDict.t PyVal.t) :=
  match reports with
  | [] => Ok acc
  | rep :: rest =>
      let! c := compact_breakdown (report_value rep) in
      score_map_from (PyDict.set acc (rep_name rep) c) rest
  end.

(** [name in score_map], the keys being strings: a list or a dictionary
    cannot be hashed. *)
Definition contains_key (score_map : PyDict.t PyVal.t) (name : PyVal.t)
  : result bool :=
  match name with
  | VStr n => Ok (PyDict.mem score_map n)
  | VList _ | VDict _ => Raise (TypeError "unhashable type")
  | _ => Ok false
  end.

(** [score_map[name]] once [name in score_map] holds. *)
Definition lookup (score_map : PyDict.t PyVal.t) (name : PyVal.t) : PyVal.t :=
  match name with
  | VStr n => PyDict.get_default score_map n VNone
  | _ => VNone
  end.

Section Attach.

(** A telemetry item that is not a dictionary: its [scenario] attribute
    ([None] when it has none) and its conversion to a dictionary, by
    [dataclasses.asdict] or, when that raises, from its public
    attributes that are not callable; the conversion itself may raise. *)
Variable obj : Type.
Variable obj_scenario : obj -> PyVal.t.
Variable obj_as_dict : obj -> result (PyDict.t PyVal.t).

Inductive item : Type :=
| DictItem (d : PyDict.t PyVal.t)
| ObjectItem (o : obj).

Definition item_name (it : item) : PyVal.t :=
  match it with
  | DictItem d => PyDict.get_default d "scenario" VNone
  | ObjectItem o => obj_scenario o
  end.

Definition item_dict (it : item) : result (PyDict.t PyVal.t) :=
  match it with
  | DictItem d => Ok d
  | ObjectItem o => obj_as_dict o
  end.

(** One turn of the loop (lines 211 to 228): the item as the turn leaves
    it in the old list, and the dictionary appended to [new_scenarios].
    A dictionary item is updated in place and appended itself. *)
Definition attach_item (score_map : PyDict.t PyVal.t) (it : item)
  : result (item * PyDict.t PyVal.t) :=
  match it with
  | DictItem d =>
      let name := PyDict.get_default d "scenario" VNone in
      let! found := contains_key score_map name in
      let d' := if found
                then PyDict.set d "resiliency_report" (lookup score_map name)
                else d in
      Ok (DictItem d', d')
  | ObjectItem o =>
      let name := obj_scenario o in
      let! item_dict := obj_as_dict o in
      let! found := contains_key score_map name in
      Ok (ObjectItem o,
          if found
          then PyDict.set item_dict "resiliency_report" (lookup score_map name)
          else item_dict)
  end.

(** The loop: the old list as the loop leaves it, and [new_scenarios]
    or the exception that ended the loop. *)
Fixpoint attach_loop (score_map : PyDict.t PyVal.t) (items : list item)
  : list item * result (list (PyDict.t PyVal.t)) :=
  match items with
  | [] => ([], Ok [])
  | it :: rest =>
      match attach_item score_map it with
      | Raise e => (it :: rest, Raise e)
      | Ok (it', d) =>
          let '(rest', r) := attach_loop score_map rest in
          (it' :: rest', let! ds := r in Ok (d :: ds))
      end
  end.

(** [attach_compact_to_telemetry]: the [scenarios] attribute of the
    telemetry object ([None] when it has none) as the call leaves it. *)
Definition attach_compact_to_telemetry (self : object)
           (scenarios : option (list item))
  : option (list item) * result unit :=
  match score_map_from PyDict.empty (scenario_reports self) with
  | Raise e => (scenarios, Raise e)
  | Ok score_map =>
      match attach_loop score_map
                        (match scenarios with Some l => l | None => [] end) with
      | (old, Raise e) =>
          (match scenarios with Some _ => Some old | None => None end, Raise e)
      | (_, Ok new_scenarios) => (Some (map DictItem new_scenarios), Ok tt)
      end
  end.

End Attach.

Arguments DictItem {obj} d.

End Telemetry.

(** * Properties of the score calculator *)

Section ScoreFacts.

Import Score.

Lemma zsum_from (xs : list Z) (a : Z) :
  fold_left Z.add xs a = a + zsum xs.
Proof.
  unfold zsum. revert a.
  induction xs as [|x xs IH]; intro a; simpl.
  - lia.
  - rewrite IH, (IH x). lia.
Qed.

Lemma zsum_cons (x : Z) (xs : list Z) : zsum (x :: xs) = x + zsum xs.
Proof. unfold zsum at 1. simpl. apply zsum_from. Qed.

(** The score is 0, and nothing is raised, when no point is at stake. *)
Lemma score_of_zero_total (pl : Z) : score_of 0 pl = Ok 0.
Proof. reflexivity. Qed.

Lemma calculate_zero_total defs res hc :
  total_points_of (slo_objects defs res hc) = 0 ->
  calculate_resiliency_score defs res hc
  = Ok (0, breakdown_of (slo_objects defs res hc)).
Proof.
  intro H. unfold calculate_resiliency_score. rewrite H. reflexivity.
Qed.

(** Whatever is returned carries the breakdown of the collected
    [SLOResult]s. *)
Lemma calculate_breakdown defs res hc s bd :
  calculate_resiliency_score defs res hc = Ok (s, bd) ->
  bd = breakdown_of (slo_objects defs res hc)
  /\ score_of (total_points bd) (points_lost bd) = Ok s.
Proof.
  unfold calculate_resiliency_score.
  destruct (score_of _ _) as [s'|e] eqn:E; simpl; intro H; inversion H; subst.
  split; [reflexivity | exact E].
Qed.

Lemma definition_objects_remove defs res n :
  PyDict.get res n = None ->
  definition_objects (PyDict.remove defs n) res = definition_objects defs res.
Proof.
  intro Hn.
  induction defs as [|[k d] defs IH]; simpl; [reflexivity|].
  destruct (String.eqb n k) eqn:E.
  - apply String.eqb_eq in E. subst k. rewrite Hn. exact IH.
  - simpl. rewrite IH. reflexivity.
Qed.

Lemma filter_split_length {A} (p : A -> bool) (xs : list A) :
  (List.length (filter p xs) + List.length (filter (fun x => negb (p x)) xs)
   = List.length xs)%nat.
Proof.
  induction xs as [|x xs IH]; simpl; [reflexivity|].
  destruct (p x); simpl; lia.
Qed.

(** The weight of an [SLOResult] without a custom weight is one of the
    two defaults. *)
Lemma default_weight_cases n sev p :
  weight (mkSLOResult n sev p None) DEFAULT_WEIGHTS = 3
  \/ weight (mkSLOResult n sev p None) DEFAULT_WEIGHTS = 1.
Proof.
  unfold weight, DEFAULT_WEIGHTS, PyDict.get_default; simpl.
  destruct (String.eqb sev "critical"); [left; reflexivity|].
  destruct (String.eqb sev "warning"); right; reflexivity.
Qed.

Lemma definition_objects_nonneg defs res :
  nonneg_custom_weights defs ->
  Forall (fun slo => 0 <= weight slo DEFAULT_WEIGHTS)
         (definition_objects defs res).
Proof.
  induction 1 as [|[k d] defs Hd _ IH]; simpl; [constructor|].
  destruct (PyDict.get res k) as [p|]; [|exact IH].
  destruct d as [s|s [w|]]; constructor; try exact IH; simpl in *.
  - destruct (default_weight_cases k s p) as [->| ->]; lia.
  - exact Hd.
  - destruct (default_weight_cases k
                (match s with Some s' => s' | None => "warning" end) p)
      as [->| ->]; lia.
Qed.

Lemma health_check_objects_critical hc :
  Forall (fun slo => severity slo = "critical"
                     /\ _custom_weight slo = None
                     /\ weight slo DEFAULT_WEIGHTS = 3)
         (health_check_objects hc).
Proof.
  unfold health_check_objects.
  induction hc as [|[k v] hc IH]; simpl; constructor; auto.
Qed.

Lemma slo_objects_nonneg defs res hc :
  nonneg_custom_weights defs ->
  Forall (fun slo => 0 <= weight slo DEFAULT_WEIGHTS) (slo_objects defs res hc).
Proof.
  intro H. unfold slo_objects. apply Forall_app. split.
  - now apply definition_objects_nonneg.
  - eapply Forall_impl; [|apply health_check_objects_critical].
    simpl. intros slo (_ & _ & ->). lia.
Qed.

Lemma points_bounds (objs : list SLOResult) :
  Forall (fun slo => 0 <= weight slo DEFAULT_WEIGHTS) objs ->
  0 <= points_lost_of objs <= total_points_of objs.
Proof.
  unfold points_lost_of, total_points_of.
  induction 1 as [|slo objs Hs _ IH]; simpl.
  - unfold zsum; simpl; lia.
  - destruct (passed slo); simpl; rewrite ?zsum_cons; lia.
Qed.

End ScoreFacts.

(** C1, on the code: with no point at stake the calculator returns the
    score 0 and raises nothing. With points at stake it departs from the
    claim: two evaluated SLOs with custom weights 29 (passed) and 21
    (failed) give [total_points = 50] and [points_lost = 21]; the quotient
    29/50 and its product by 100 are each rounded to binary64, the product
    is 57.99999999999999, and [int] cuts it to 57, while the floor of
    (50 - 21) / 50 * 100 is 58. The same totals, and the same score 57,
    come from default weights alone: sixteen critical SLOs of which seven
    failed and two warning SLOs that passed. *)
Theorem score_truncates_rounded_product :
  (forall defs res hc,
      Score.total_points_of (Score.slo_objects defs res hc) = 0 ->
      Score.calculate_resiliency_score defs res hc
      = Ok (0, Score.breakdown_of (Score.slo_objects defs res hc)))
  /\ Score.calculate_resiliency_score
       [("a", Score.DefDict (Some "critical") (Some 29));
        ("b", Score.DefDict (Some "warning") (Some 21))]
       [("a", true); ("b", false)]
       []
     = Ok (57, Score.mkBreakdown 50 21 1 1)
  /\ Score.calculate_resiliency_score
       (map (fun i => (String.append "critical-" (PyVal.str_of_nat i),
                       Score.DefDict (Some "critical") None)) (seq 1 16)
          ++ [("warning-1", Score.DefDict (Some "warning") None);
              ("warning-2", Score.DefDict (Some "warning") None)])%list
       (map (fun i => (String.append "critical-" (PyVal.str_of_nat i),
                       Nat.leb i 9)) (seq 1 16)
          ++ [("warning-1", true); ("warning-2", true)])%list
       []
     = Ok (57, Score.mkBreakdown 50 21 11 7)
  /\ (50 - 21) * 100 / 50 = 58.
Proof.
  split; [exact calculate_zero_total|].
  repeat split; vm_compute; reflexivity.
Qed.

(** C2: a name of the definitions that the evaluation results do not hold
    contributes nothing: the calculator returns the same score and the
    same breakdown (total and lost points, passed and failed counts) as on
    the definitions without that name. *)
Theorem unevaluated_slo_is_excluded
        (defs : PyDict.t Score.slo_def) (res : PyDict.t bool)
        (hc : PyDict.t Score.hc_value) (n : string) :
  PyDict.get res n = None ->
  Score.slo_objects defs res hc
  = Score.slo_objects (PyDict.remove defs n) res hc
  /\ Score.calculate_resiliency_score defs res hc
     = Score.calculate_resiliency_score (PyDict.remove defs n) res hc.
Proof.
  intro Hn.
  assert (E : Score.slo_objects defs res hc
              = Score.slo_objects (PyDict.remove defs n) res hc).
  { unfold Score.slo_objects. now rewrite definition_objects_remove. }
  split; [exact E|].
  unfold Score.calculate_resiliency_score. now rewrite E.
Qed.

Lemma unevaluated_slo_is_excluded_witness :
  Score.calculate_resiliency_score
    [("a", Score.DefStr "critical"); ("b", Score.DefStr "warning")]
    [("b", true)] []
  = Score.calculate_resiliency_score
      (PyDict.remove
         [("a", Score.DefStr "critical"); ("b", Score.DefStr "warning")] "a")
      [("b", true)] [].
Proof.
  apply (unevaluated_slo_is_excluded
           [("a", Score.DefStr "critical"); ("b", Score.DefStr "warning")]
           [("b", true)] [] "a").
  reflexivity.
Defined.

(** C4: the [SLOResult]s of the calculator are those of the definitions
    followed by one per health check, and every health-check result has
    severity critical, no custom weight and the critical default weight 3,
    whatever value (flag or record with any field) the health check
    carries. *)
Theorem health_checks_are_critical
        (defs : PyDict.t Score.slo_def) (res : PyDict.t bool)
        (hc : PyDict.t Score.hc_value) :
  Score.slo_objects defs res hc
  = (Score.definition_objects defs res ++ Score.health_check_objects hc)%list
  /\ map Score.name (Score.health_check_objects hc) = PyDict.keys hc
  /\ Forall (fun slo => Score.severity slo = "critical"
                        /\ Score._custom_weight slo = None
                        /\ Score.weight slo Score.DEFAULT_WEIGHTS = 3)
            (Score.health_check_objects hc).
Proof.
  split; [reflexivity|]. split.
  - unfold Score.health_check_objects, PyDict.keys.
    rewrite map_map. apply map_ext. now intros [k v].
  - apply health_check_objects_critical.
Qed.

(** C7, as stated, fails: a failed SLO with the custom weight -1 gives a
    breakdown with [points_lost = -1]. *)
Lemma breakdown_invariant_fails_for_negative_weight :
  ~ (forall defs res hc s bd,
        Score.calculate_resiliency_score defs res hc = Ok (s, bd) ->
        Score.total_points bd >= Score.points_lost bd
        /\ Score.points_lost bd >= 0
        /\ Score.bd_passed bd + Score.bd_failed bd
           = Z.of_nat (List.length (Score.slo_objects defs res hc))).
Proof.
  intro H.
  specialize (H [("a", Score.DefDict (Some "critical") (Some (-1)))]
                [("a", false)] [] 0 (Score.mkBreakdown (-1) (-1) 0 1)
                eq_refl).
  simpl in H. lia.
Qed.

(** For every input, [passed + failed] of a returned breakdown is the
    number of [SLOResult]s included. *)
Lemma breakdown_counts
      (defs : PyDict.t Score.slo_def) (res : PyDict.t bool)
      (hc : PyDict.t Score.hc_value) (s : Z) (bd : Score.Breakdown) :
  Score.calculate_resiliency_score defs res hc = Ok (s, bd) ->
  Score.bd_passed bd + Score.bd_failed bd
  = Z.of_nat (List.length (Score.slo_objects defs res hc)).
Proof.
  intro H. apply calculate_breakdown in H. destruct H as [-> _].
  simpl. rewrite <- Nat2Z.inj_add. f_equal. apply filter_split_length.
Qed.

(** C7, amended: when no custom weight of the definitions is negative,
    every breakdown the calculator returns has
    [total_points >= points_lost >= 0] and [passed + failed] equal to the
    number of [SLOResult]s included. *)
Theorem breakdown_invariant
        (defs : PyDict.t Score.slo_def) (res : PyDict.t bool)
        (hc : PyDict.t Score.hc_value) (s : Z) (bd : Score.Breakdown) :
  Score.nonneg_custom_weights defs ->
  Score.calculate_resiliency_score defs res hc = Ok (s, bd) ->
  Score.total_points bd >= Score.points_lost bd
  /\ Score.points_lost bd >= 0
  /\ Score.bd_passed bd + Score.bd_failed bd
     = Z.of_nat (List.length (Score.slo_objects defs res hc)).
Proof.
  intros Hw H. pose proof (breakdown_counts _ _ _ H) as Hc.
  apply calculate_breakdown in H. destruct H as [-> _].
  pose proof (points_bounds (slo_objects_nonneg res hc Hw)).
  simpl in *. lia.
Qed.

Lemma breakdown_invariant_witness :
  let bd := Score.mkBreakdown 4 1 1 1 in
  Score.total_points bd >= Score.points_lost bd
  /\ Score.points_lost bd >= 0
  /\ Score.bd_passed bd + Score.bd_failed bd = 2.
Proof.
  apply (@breakdown_invariant
           [("a", Score.DefDict (Some "critical") None);
            ("b", Score.DefDict (Some "warning") (Some 1))]
           [("a", true); ("b", false)] [] 75 (Score.mkBreakdown 4 1 1 1)).
  - repeat constructor; simpl; lia.
  - vm_compute. reflexivity.
Defined.

(** * Properties of the definition loader *)

Section LoaderFacts.

Import PyVal Loader.

Variable repr_other : PyVal.t -> string.

(** The loop keeps the records of the valid entries, in input order, and
    warns about the others. *)
Lemma normalise_from_spec idx alerts :
  normalise_from repr_other idx alerts
  = (flat_map (fun ia => kept repr_other (fst ia) (snd ia))
              (enumerate_from idx alerts),
     map fst (filter (fun ia => negb (valid_entry (snd ia)))
                     (enumerate_from idx alerts))).
Proof.
  unfold enumerate_from. revert idx.
  induction alerts as [|a alerts IH]; intro idx; simpl; [reflexivity|].
  rewrite IH.
  destruct a as [| | | | |items|d]; try reflexivity.
  unfold kept. destruct (valid_entry (VDict d)); reflexivity.
Qed.

Lemma in_enumerate_from {A} (xs : list A) idx i a :
  nth_error xs i = Some a -> In ((idx + i)%nat, a) (enumerate_from idx xs).
Proof.
  unfold enumerate_from. revert idx i.
  induction xs as [|x xs IH]; intros idx [|i] H; simpl in *; try discriminate.
  - inversion H; subst. left. f_equal. lia.
  - right. replace (idx + S i)%nat with (S idx + i)%nat by lia. now apply IH.
Qed.

Lemma lacks_both_invalid alert :
  is_dict alert = false \/ lacks_both alert = true -> valid_entry alert = false.
Proof.
  unfold is_dict, lacks_both, valid_entry.
  destruct alert; intros [H|H]; try reflexivity; try discriminate.
  destruct (PyDict.mem entries "expr"); [discriminate | reflexivity].
Qed.

Lemma kept_invalid idx alert :
  valid_entry alert = false -> kept repr_other idx alert = [].
Proof.
  unfold kept. intro H. destruct alert; try reflexivity. now rewrite H.
Qed.

End LoaderFacts.

(** C6: the loader raises [ValueError], the configuration error, on every
    top-level value that is not a list; on a list it succeeds, keeps one
    record per entry that is a dictionary with both keys, in input order,
    and logs one warning per other entry; in particular every entry that
    is not a dictionary, or has neither [expr] nor [severity], is skipped
    with a warning while the remaining entries are still loaded. *)
Theorem loader_contract (repr_other : PyVal.t -> string) :
  (forall raw, PyVal.is_list raw = false ->
     Loader._normalise_alerts repr_other raw
     = Raise (ValueError
         "SLO configuration must be a list under key 'slos' or top-level list"))
  /\ (forall alerts,
        Loader._normalise_alerts repr_other (PyVal.VList alerts)
        = Ok (flat_map (fun ia => Loader.kept repr_other (fst ia) (snd ia))
                       (Loader.enumerate_from 0 alerts),
              map fst (filter (fun ia => negb (Loader.valid_entry (snd ia)))
                              (Loader.enumerate_from 0 alerts))))
  /\ (forall alerts i alert warned slos,
        Loader._normalise_alerts repr_other (PyVal.VList alerts)
        = Ok (slos, warned) ->
        nth_error alerts i = Some alert ->
        PyVal.is_dict alert = false \/ Loader.lacks_both alert = true ->
        In i warned
        /\ Loader.kept repr_other i alert = []).
Proof.
  split; [|split].
  - intros raw H. destruct raw; try reflexivity. discriminate.
  - intro alerts. simpl. now rewrite normalise_from_spec.
  - intros alerts i alert warned slos H Hi Hbad.
    simpl in H. rewrite normalise_from_spec in H. inversion H; subst.
    apply lacks_both_invalid in Hbad. split.
    + apply in_map_iff. exists (i, alert). split; [reflexivity|].
      apply filter_In. split.
      * apply (in_enumerate_from alerts 0 i Hi).
      * simpl. now rewrite Hbad.
    + now apply kept_invalid.
Qed.

(** A configuration of four entries: the second is not a dictionary and
    the third lacks [severity]; both are skipped with a warning, the
    other two are loaded in order, the first under a synthesised name. *)
Example loader_skips_invalid_entries :
  Loader._normalise_alerts (fun _ => "")
    (PyVal.VList
       [PyVal.VDict [("expr", PyVal.VStr "up == 0");
                     ("severity", PyVal.VStr "CRITICAL")];
        PyVal.VStr "not a mapping";
        PyVal.VDict [("expr", PyVal.VStr "rate(errors[5m]) > 0")];
        PyVal.VDict [("description", PyVal.VStr "etcd leader changes");
                     ("expr", PyVal.VStr "changes(etcd_leader[10m]) > 3");
                     ("severity", PyVal.VStr "Warning");
                     ("weight", PyVal.VInt 5)]])
  = Ok ([Loader.mkSlo (PyVal.VStr "slo_0") (PyVal.VStr "up == 0")
                      "critical" PyVal.VNone;
         Loader.mkSlo (PyVal.VStr "etcd leader changes")
                      (PyVal.VStr "changes(etcd_leader[10m]) > 3")
                      "warning" (PyVal.VInt 5)],
        [1%nat; 2%nat]).
Proof. reflexivity. Qed.

(** * Properties of the orchestrator *)

(** Unfolds the state-passing operations of [Resiliency.M]. *)
Ltac unfold_m :=
  unfold Resiliency.bind, Resiliency.ret, Resiliency.raise, Resiliency.lift,
    Resiliency.get_self, Resiliency.set_self, Resiliency.get_world,
    Resiliency.set_world, Resiliency.try_except in *.

Section DictFacts.

Context {V : Type}.

Lemma get_set (d : PyDict.t V) k v k' :
  PyDict.get (PyDict.set d k v) k'
  = if String.eqb k' k then Some v else PyDict.get d k'.
Proof.
  induction d as [|[k0 v0] d IH]; simpl.
  - destruct (String.eqb k' k); reflexivity.
  - destruct (String.eqb k k0) eqn:E; simpl.
    + apply String.eqb_eq in E. subst k0.
      destruct (String.eqb k' k); reflexivity.
    + rewrite IH. destruct (String.eqb k' k0) eqn:E'; [|reflexivity].
      apply String.eqb_eq in E'. subst k0.
      destruct (String.eqb k' k) eqn:E''; [|reflexivity].
      apply String.eqb_eq in E''. subst k'.
      rewrite String.eqb_refl in E. discriminate.
Qed.

Lemma in_keys_set (d : PyDict.t V) k v k' :
  In k' (PyDict.keys (PyDict.set d k v)) <-> k' = k \/ In k' (PyDict.keys d).
Proof.
  unfold PyDict.keys.
  induction d as [|[k0 v0] d IH]; simpl.
  - intuition.
  - destruct (String.eqb k k0) eqn:E; simpl.
    + apply String.eqb_eq in E. subst k0. intuition.
    + rewrite IH. intuition.
Qed.

Lemma wf_set (d : PyDict.t V) k v :
  PyDict.wf d -> PyDict.wf (PyDict.set d k v).
Proof.
  unfold PyDict.wf.
  induction d as [|[k0 v0] d IH]; simpl; intro H.
  - constructor; [intros []|constructor].
  - inversion H as [|? ? Hn Hd]; subst.
    destruct (String.eqb k k0) eqn:E; simpl.
    + constructor; assumption.
    + constructor; [|now apply IH].
      intro Hin. apply (in_keys_set d k v k0) in Hin.
      destruct Hin as [->|Hin]; [|contradiction].
      rewrite String.eqb_refl in E. discriminate.
Qed.

Lemma get_none_not_in (d : PyDict.t V) k :
  PyDict.get d k = None <-> ~ In k (PyDict.keys d).
Proof.
  unfold PyDict.keys.
  induction d as [|[k0 v0] d IH]; simpl; [intuition|].
  destruct (String.eqb k k0) eqn:E.
  - apply String.eqb_eq in E. subst. split; [discriminate|intuition].
  - apply String.eqb_neq in E. rewrite IH. intuition.
Qed.

Context {X : Type} (key : X -> string) (value : X -> V).

Lemma comprehension_snoc xs x :
  PyDict.comprehension key value (xs ++ [x])
  = PyDict.set (PyDict.comprehension key value xs) (key x) (value x).
Proof. unfold PyDict.comprehension. now rewrite fold_left_app. Qed.

Lemma comprehension_wf xs : PyDict.wf (PyDict.comprehension key value xs).
Proof.
  induction xs as [|x xs IH] using rev_ind.
  - constructor.
  - rewrite comprehension_snoc. now apply wf_set.
Qed.

Lemma comprehension_keys xs k :
  In k (PyDict.keys (PyDict.comprehension key value xs)) <-> In k (map key xs).
Proof.
  induction xs as [|x xs IH] using rev_ind; [simpl; tauto|].
  rewrite comprehension_snoc, in_keys_set, IH, map_app, in_app_iff.
  simpl. intuition.
Qed.

(** A key of a comprehension holds the value of the last element with
    that key. *)
Lemma comprehension_get xs k :
  PyDict.get (PyDict.comprehension key value xs) k
  = option_map value (find (fun x => String.eqb k (key x)) (rev xs)).
Proof.
  induction xs as [|x xs IH] using rev_ind; [reflexivity|].
  rewrite comprehension_snoc, get_set, rev_app_distr. simpl.
  destruct (String.eqb k (key x)); [reflexivity | exact IH].
Qed.

End DictFacts.

Section DefinitionObjectsFacts.

Import Score.

Lemma definition_objects_names defs res slo :
  In slo (definition_objects defs res) -> In (name slo) (PyDict.keys defs).
Proof.
  unfold PyDict.keys.
  induction defs as [|[k d] defs IH]; simpl; [tauto|].
  destruct (PyDict.get res k) as [p|]; [|auto].
  destruct d as [s|s w]; simpl; intros [<-|H]; auto.
Qed.

Lemma definition_objects_absent defs res n :
  ~ In n (PyDict.keys defs) ->
  filter (fun slo => String.eqb n (name slo)) (definition_objects defs res)
  = [].
Proof.
  intro Hn.
  destruct (filter _ _) as [|slo l] eqn:E; [reflexivity|].
  assert (Hin : In slo (filter (fun slo => String.eqb n (name slo))
                               (definition_objects defs res)))
    by (rewrite E; now left).
  apply filter_In in Hin. destruct Hin as [Hin Hname].
  apply String.eqb_eq in Hname. subst n.
  apply definition_objects_names in Hin. contradiction.
Qed.

(** In a well-formed dictionary a name yields at most one [SLOResult]. *)
Lemma definition_objects_once defs res n :
  PyDict.wf defs ->
  filter (fun slo => String.eqb n (name slo)) (definition_objects defs res)
  = match PyDict.get defs n, PyDict.get res n with
    | Some d, Some p => [object_of n d p]
    | _, _ => []
    end.
Proof.
  unfold PyDict.wf, PyDict.keys.
  induction defs as [|[k d] defs IH]; simpl; intro H; [reflexivity|].
  inversion H as [|? ? Hk Hd]; subst.
  destruct (String.eqb n k) eqn:E.
  - apply String.eqb_eq in E. subst k.
    destruct (PyDict.get res n) as [p|].
    + assert (Hhead : filter (fun slo => String.eqb n (name slo))
                        (definition_objects defs res) = [])
        by now apply definition_objects_absent.
      destruct d as [s|s w]; simpl; rewrite String.eqb_refl, Hhead; reflexivity.
    + rewrite definition_objects_absent by assumption.
      now destruct (PyDict.get defs n).
  - destruct (PyDict.get res k) as [p|]; [|now apply IH].
    destruct d as [s|s w]; simpl; rewrite E; now apply IH.
Qed.

End DefinitionObjectsFacts.

Section OrchestratorFacts.

Import Score Resiliency.

Variable datetime : Type.
Variable isoformat : datetime -> string.
Variable fromtimestamp : Z -> result datetime.
Variable evaluate_slos :
  nat -> list slo -> datetime -> datetime -> result (PyDict.t bool).
Variable repr_other : PyVal.t -> string.
Variable float_repr : PyNum.float -> string.
Variable int_of_str : string -> result Z.

#[local] Abbreviation batch :=
  (add_scenario_reports isoformat fromtimestamp evaluate_slos repr_other
                        int_of_str).
#[local] Abbreviation process :=
  (process_item isoformat fromtimestamp evaluate_slos repr_other int_of_str).
#[local] Abbreviation guarded :=
  (guarded_item isoformat fromtimestamp evaluate_slos repr_other int_of_str).
#[local] Abbreviation before :=
  (state_before isoformat fromtimestamp evaluate_slos repr_other int_of_str).

(** What one call of [add_scenario_report] does, by the answer of the
    metrics backend and of the calculator. *)
Lemma add_scenario_report_run scenario_name start_time end_time weight hc st :
  add_scenario_report isoformat evaluate_slos scenario_name start_time
                      end_time weight hc st
  = let w := queried (the_world st) in
    match evaluate_slos (prom_calls (the_world st)) (_slos (self st))
                        start_time end_time with
    | Raise e => (mkState w (self st), Raise e)
    | Ok slo_results =>
        match calculate_resiliency_score (slo_defs (_slos (self st)))
                slo_results (or_empty hc) with
        | Raise e => (mkState w (self st), Raise e)
        | Ok (score, breakdown) =>
            (mkState w
               (with_report (self st)
                  (mkReport scenario_name (isoformat start_time)
                     (isoformat end_time) score weight breakdown slo_results
                     (or_empty hc))),
             Ok score)
        end
    end.
Proof.
  unfold add_scenario_report, call_evaluate_slos, append_report. unfold_m.
  simpl.
  destruct (evaluate_slos _ _ _ _) as [res|e]; [|reflexivity].
  destruct (calculate_resiliency_score _ _ _) as [[score bd]|e]; reflexivity.
Qed.

Lemma finalize_report_run total_start_time total_end_time st :
  finalize_report evaluate_slos total_start_time total_end_time st
  = match scenario_reports (self st) with
    | [] => (st, Raise (RuntimeError
                          "No scenario reports added - nothing to finalize"))
    | _ :: _ =>
        match weighted_average (scenario_reports (self st)) with
        | Raise e => (st, Raise e)
        | Ok score =>
            let w := queried (the_world st) in
            match evaluate_slos (prom_calls (the_world st)) (_slos (self st))
                                total_start_time total_end_time with
            | Raise e => (mkState w (self st), Raise e)
            | Ok full =>
                match calculate_resiliency_score (slo_defs (_slos (self st)))
                        full PyDict.empty with
                | Raise e => (mkState w (self st), Raise e)
                | Ok (_, bd) =>
                    (mkState w
                       (finalized (self st)
                          (mkSummary
                             (PyDict.comprehension rep_name rep_score
                                (scenario_reports (self st)))
                             score (bd_passed bd)
                             (bd_passed bd + bd_failed bd))),
                     Ok tt)
                end
            end
        end
    end.
Proof.
  destruct st as [w o].
  unfold finalize_report, call_evaluate_slos. unfold_m. simpl.
  destruct (scenario_reports o) as [|r rs] eqn:E; [reflexivity|].
  destruct (weighted_average (r :: rs)) as [score|e]; [|reflexivity].
  destruct (evaluate_slos _ _ _ _) as [res|e]; [|reflexivity].
  destruct (calculate_resiliency_score _ _ _) as [[score' bd]|e];
    simpl; rewrite ?E; reflexivity.
Qed.

Lemma slo_defs_get slos n :
  PyDict.get (slo_defs slos) n
  = option_map (fun s => DefDict (Some (slo_severity s)) (slo_weight s))
               (last_named n slos).
Proof. apply comprehension_get. Qed.

Lemma slo_defs_objects slos res n :
  filter (fun r => String.eqb n (name r))
         (definition_objects (slo_defs slos) res)
  = match last_named n slos, PyDict.get res n with
    | Some s, Some p => [mkSLOResult n (slo_severity s) p (slo_weight s)]
    | _, _ => []
    end.
Proof.
  rewrite definition_objects_once by apply comprehension_wf.
  rewrite slo_defs_get.
  destruct (last_named n slos) as [s|]; simpl; [|reflexivity].
  destruct (PyDict.get res n); reflexivity.
Qed.

Lemma add_scenario_reports_cons tel rest scenario_type bs be weight st :
  batch (tel :: rest) scenario_type bs be weight st
  = let '(st1, tel') := guarded scenario_type bs be weight tel st in
    match batch rest scenario_type bs be weight st1 with
    | (st2, Ok rest') => (st2, Ok (tel' :: rest'))
    | (st2, Raise e) => (st2, Raise e)
    end.
Proof.
  simpl. unfold guarded_item, logging. unfold_m.
  destruct (process_item _ _ _ _ _ _ _ _ _ _ st) as [st1 [tel'|e]]; simpl;
    destruct (add_scenario_reports _ _ _ _ _ rest _ _ _ _ _) as [st2 [r|e']];
    reflexivity.
Qed.

Lemma add_scenario_reports_ok items scenario_type bs be weight st :
  exists items',
    snd (batch items scenario_type bs be weight st) = Ok items'
    /\ List.length items' = List.length items.
Proof.
  revert st. induction items as [|tel rest IH]; intro st.
  - exists []. split; reflexivity.
  - rewrite add_scenario_reports_cons.
    destruct (guarded_item _ _ _ _ _ _ _ _ _ tel st) as [st1 tel'].
    destruct (IH st1) as (rest' & Hr & Hl).
    destruct (add_scenario_reports _ _ _ _ _ rest _ _ _ _ st1) as [st2 r].
    simpl in Hr. subst r. exists (tel' :: rest'). simpl. split; congruence.
Qed.

Lemma state_before_S k tel rest scenario_type bs be weight st :
  before (S k) (tel :: rest) scenario_type bs be weight st
  = before k rest scenario_type bs be weight
      (fst (guarded scenario_type bs be weight tel st)).
Proof.
  unfold state_before. simpl firstn. rewrite add_scenario_reports_cons.
  destruct (guarded_item _ _ _ _ _ _ _ _ _ tel st) as [st1 tel']. simpl.
  destruct (add_scenario_reports _ _ _ _ _ (firstn k rest) _ _ _ _ st1)
    as [st2 [r|e]]; reflexivity.
Qed.

Lemma add_scenario_reports_nth
      items scenario_type bs be weight st items' i tel :
  snd (batch items scenario_type bs be weight st) = Ok items' ->
  nth_error items i = Some tel ->
  let st_i := before i items scenario_type bs be weight st in
  nth_error items' i = Some (snd (guarded scenario_type bs be weight tel st_i))
  /\ before (S i) items scenario_type bs be weight st
     = fst (guarded scenario_type bs be weight tel st_i).
Proof.
  revert st items' i.
  induction items as [|x rest IH]; intros st items' i Hrun Hi.
  - destruct i; discriminate.
  - rewrite add_scenario_reports_cons in Hrun.
    destruct (guarded_item _ _ _ _ _ _ _ _ _ x st) as [st1 x'] eqn:Ex.
    destruct (add_scenario_reports _ _ _ _ _ rest _ _ _ _ st1)
      as [st2 [rest'|e]] eqn:Er; simpl in Hrun; [|discriminate].
    inversion Hrun; subst items'; clear Hrun.
    destruct i as [|i]; simpl in Hi.
    + inversion Hi; subst x. simpl.
      assert (E0 : before 0 (tel :: rest) scenario_type bs be weight st = st)
        by reflexivity.
      rewrite E0, Ex. split; [reflexivity|].
      rewrite state_before_S, Ex. reflexivity.
    + simpl. rewrite !state_before_S, Ex. simpl.
      apply IH; [|exact Hi]. rewrite Er. reflexivity.
Qed.

(** An item whose processing raises nothing leaves with the compact
    breakdown of the report appended for it. *)
Lemma process_item_ok scenario_type bs be weight tel st st' tel' :
  process scenario_type bs be weight tel st = (st', Ok tel') ->
  exists rep,
    scenario_reports (self st') = (scenario_reports (self st) ++ [rep])%list
    /\ tel' = mkTelemetry (tel_kind tel) (tel_fields tel)
                          (Some (compact_breakdown rep)).
Proof.
  unfold process_item.
  assert (W : forall (window : M (datetime * datetime)) k,
             (forall s, window s = (s, snd (window s))) ->
             bind window k st = (st', Ok tel') ->
             exists st_dt en_dt, k (st_dt, en_dt) st = (st', Ok tel')).
  { intros window k Hw. unfold bind. rewrite Hw.
    destruct (snd (window st)) as [[a b]|e]; [eauto|discriminate]. }
  intro H. apply W in H; clear W.
  2:{ intro s. destruct (_ && _); unfold_m; reflexivity. }
  destruct H as (st_dt & en_dt & H). revert H.
  unfold bind at 1. rewrite add_scenario_report_run.
  destruct (evaluate_slos _ _ _ _) as [res|e]; [|discriminate].
  destruct (calculate_resiliency_score _ _ _) as [[score bd]|e];
    [|discriminate].
  unfold_m. cbn [self the_world with_report scenario_reports].
  rewrite rev_app_distr. cbn [rev app].
  unfold set_resiliency_report.
  destruct (tel_kind tel) as [|[|]]; intro H; inversion H; subst;
    eexists; split; reflexivity.
Qed.

(** C5: the batch call never raises and returns one item per input
    item. The item of index [i] is processed in the state the loop has
    reached; when its processing raises nothing, the item leaves with the
    compact breakdown of the report appended for it; when it raises, the
    exception is logged as an error, the item is left as it was, and in
    both cases the loop goes on to the next item from the resulting state,
    whatever happened to the items before. *)
Theorem batch_skips_failed_items
        (items : list telemetry) (scenario_type : string)
        (bs be : datetime) (weight : PyNum.t) (st : state) :
  exists items',
    snd (batch items scenario_type bs be weight st) = Ok items'
    /\ List.length items' = List.length items
    /\ forall i tel,
         nth_error items i = Some tel ->
         let st_i := before i items scenario_type bs be weight st in
         let st_next := before (S i) items scenario_type bs be weight st in
         match process scenario_type bs be weight tel st_i with
         | (st1, Ok tel') =>
             nth_error items' i = Some tel'
             /\ st_next = st1
             /\ exists rep,
                  scenario_reports (self st1)
                  = (scenario_reports (self st_i) ++ [rep])%list
                  /\ tel_resiliency_report tel' = Some (compact_breakdown rep)
         | (st1, Raise e) =>
             nth_error items' i = Some tel
             /\ st_next
                = mkState
                    (logged (the_world st1)
                       (ERROR, "Resiliency per-scenario evaluation failed",
                        Some e))
                    (self st1)
         end.
Proof.
  destruct (add_scenario_reports_ok items scenario_type bs be weight st)
    as (items' & Hrun & Hlen).
  exists items'. split; [exact Hrun|]. split; [exact Hlen|].
  intros i tel Hi.
  destruct (add_scenario_reports_nth items scenario_type bs be weight st i
              Hrun Hi) as [Hnth Hnext].
  cbv zeta. rewrite Hnth, Hnext. unfold guarded_item.
  destruct (process_item _ _ _ _ _ _ _ _ _ tel _) as [st1 [tel'|e]] eqn:E;
    simpl.
  - split; [reflexivity|]. split; [reflexivity|].
    destruct (process_item_ok _ _ _ _ _ _ E) as (rep & Hr & ->).
    exists rep. split; [exact Hr | reflexivity].
  - split; reflexivity.
Qed.

(** C8, on the code: a freshly constructed object has both attributes
    bound to [None], so before any finalisation, with or without a
    scenario report added, [get_summary] and [get_detailed_report] find
    the attribute and return [None] instead of raising, while [to_dict],
    guarded by a test against [None], raises. *)
Theorem getters_return_none_before_finalize (slos : list slo) (w : world) :
  let st := mkState w (init slos) in
  get_summary st = (st, Ok None)
  /\ get_detailed_report st = (st, Ok None)
  /\ to_dict st
     = (st, Raise (RuntimeError
                     "calculate_score() must be called before to_dict()"))
  /\ forall scenario_name start_time end_time weight hc,
       let st1 := fst (add_scenario_report isoformat evaluate_slos
                         scenario_name start_time end_time weight hc st) in
       get_summary st1 = (st1, Ok None)
       /\ get_detailed_report st1 = (st1, Ok None).
Proof.
  repeat split; rewrite add_scenario_report_run;
    destruct (evaluate_slos _ _ _ _) as [res|e]; try reflexivity;
    destruct (calculate_resiliency_score _ _ _) as [[score bd]|e];
    reflexivity.
Qed.

(** C10: the definitions dictionary built from the SLO records is keyed
    by name: it has each name of the records once, bound to the severity
    and weight of the last record with that name; so for any evaluation
    results a name yields at most one [SLOResult], with the verdict of the
    results and the severity and weight of that last record. Every window
    evaluation, per scenario and over the full window, scores with this
    dictionary. *)
Theorem duplicate_names_count_once
        (slos : list slo) (res : PyDict.t bool) (n : string) :
  PyDict.wf (slo_defs slos)
  /\ (In n (PyDict.keys (slo_defs slos)) <-> In n (map slo_name slos))
  /\ PyDict.get (slo_defs slos) n
     = option_map (fun s => DefDict (Some (slo_severity s)) (slo_weight s))
                  (last_named n slos)
  /\ filter (fun r => String.eqb n (name r))
            (slo_objects (slo_defs slos) res PyDict.empty)
     = match last_named n slos, PyDict.get res n with
       | Some s, Some p => [mkSLOResult n (slo_severity s) p (slo_weight s)]
       | _, _ => []
       end
  /\ (List.length (filter (fun r => String.eqb n (name r))
                          (definition_objects (slo_defs slos) res)) <= 1)%nat
  /\ (forall st scenario_name start_time end_time weight hc st' score,
        _slos (self st) = slos ->
        add_scenario_report isoformat evaluate_slos scenario_name start_time
          end_time weight hc st = (st', Ok score) ->
        exists results,
          evaluate_slos (prom_calls (the_world st)) slos start_time end_time
          = Ok results
          /\ scenario_reports (self st')
             = (scenario_reports (self st)
                  ++ [mkReport scenario_name (isoformat start_time)
                        (isoformat end_time) score weight
                        (breakdown_of
                           (slo_objects (slo_defs slos) results (or_empty hc)))
                        results (or_empty hc)])%list)
  /\ (forall st total_start_time total_end_time st',
        _slos (self st) = slos ->
        finalize_report evaluate_slos total_start_time total_end_time st
        = (st', Ok tt) ->
        exists results s,
          evaluate_slos (prom_calls (the_world st)) slos total_start_time
            total_end_time = Ok results
          /\ summary (self st') = Bound (Some s)
          /\ passed_slos s
             = bd_passed (breakdown_of
                            (slo_objects (slo_defs slos) results PyDict.empty))
          /\ total_slos s
             = Z.of_nat (List.length
                           (slo_objects (slo_defs slos) results PyDict.empty))).
Proof.
  assert (Hobj := slo_defs_objects slos res n).
  split; [apply comprehension_wf|].
  split; [apply comprehension_keys|].
  split; [apply slo_defs_get|].
  split; [unfold slo_objects; simpl; rewrite app_nil_r; exact Hobj|].
  split.
  { rewrite Hobj. destruct (last_named n slos); [|simpl; lia].
    destruct (PyDict.get res n); simpl; lia. }
  split.
  - intros st scenario_name start_time end_time weight hc st' score Hs.
    rewrite add_scenario_report_run, Hs.
    destruct (evaluate_slos _ _ _ _) as [results|e]; [|discriminate].
    destruct (calculate_resiliency_score _ _ _) as [[sc bd]|e] eqn:Ec;
      [|discriminate].
    cbv zeta. intro H. inversion H; subst. exists results.
    split; [reflexivity|].
    apply calculate_breakdown in Ec. destruct Ec as [-> _]. reflexivity.
  - intros st total_start_time total_end_time st' Hs.
    rewrite finalize_report_run, Hs.
    destruct (scenario_reports (self st)) as [|r rs]; [discriminate|].
    destruct (weighted_average _) as [score|e]; [|discriminate].
    destruct (evaluate_slos _ _ _ _) as [results|e]; [|discriminate].
    destruct (calculate_resiliency_score _ _ _) as [[sc bd]|e] eqn:Ec;
      [|discriminate].
    cbv zeta. intro H. inversion H; subst. exists results. eexists.
    split; [reflexivity|]. split; [reflexivity|].
    pose proof (breakdown_counts _ _ _ Ec) as Hc.
    apply calculate_breakdown in Ec. destruct Ec as [-> _].
    split; [reflexivity|]. exact Hc.
Qed.

End OrchestratorFacts.

(** The scenario of three items whose second one fails in evaluation:
    the metrics backend raises on its second window; the first and the
    third item leave with a compact breakdown, the second is unchanged,
    two reports are stored and one error is logged. *)
Example batch_of_three_with_failing_second :
  let backend (n : nat) (_ : list Resiliency.slo) (_ _ : Z) :=
    if Nat.eqb n 1 then Raise (CollaboratorError "query failed")
    else Ok [("up", true)] in
  let item name :=
    Resiliency.mkTelemetry Resiliency.ItemDict
      [("scenario", PyVal.VStr name)] None in
  let st :=
    Resiliency.mkState
      (Resiliency.mkWorld 0 "" false [] (fun _ => true) [])
      (Resiliency.init [Resiliency.mkSlo "up" "up == 1" "critical" None]) in
  let '(st', r) :=
    Resiliency.add_scenario_reports PyVal.str_of_int (fun z => Ok z) backend
      (fun _ => "") (fun _ => Raise (ValueError "invalid literal"))
      [item "first"; item "second"; item "third"] "fallback" 0 60
      (PyNum.PInt 1) st in
  option_map (map Resiliency.tel_resiliency_report)
             (match r with Ok items => Some items | Raise _ => None end)
  = Some [Some (Resiliency.mkCompact 100 1 1); None;
          Some (Resiliency.mkCompact 100 1 1)]
  /\ map Resiliency.rep_name (Resiliency.scenario_reports (Resiliency.self st'))
     = ["first"; "third"]
  /\ Resiliency.log (Resiliency.the_world st')
     = [(Resiliency.ERROR, "Resiliency per-scenario evaluation failed",
         Some (CollaboratorError "query failed"))].
Proof. vm_compute. repeat split. Qed.

(** * Properties of the report persistence *)

Section JsonFacts.

Import Json.
Local Open Scope result_scope.

(** Induction on JSON values, through the lists of a container. *)
Lemma json_ind (P : Json.t -> Prop)
      (HNull : P JNull) (HBool : forall b, P (JBool b))
      (HInt : forall z, P (JInt z)) (HFloat : forall x, P (JFloat x))
      (HStr : forall s, P (JStr s))
      (HArr : forall items, Forall P items -> P (JArr items))
      (HObj : forall members, Forall (fun kv => P (snd kv)) members ->
                              P (JObj members)) :
  forall j, P j.
Proof.
  fix IH 1. intros [| b | z | x | s | items | members].
  - exact HNull.
  - apply HBool.
  - apply HInt.
  - apply HFloat.
  - apply HStr.
  - apply HArr. induction items as [|j items IHitems]; constructor.
    + apply IH.
    + exact IHitems.
  - apply HObj. induction members as [|[k j] members IHm]; constructor.
    + apply IH.
    + exact IHm.
Qed.

Lemma contains_app c a b :
  Json.contains c (a ++ b) = Json.contains c a || Json.contains c b.
Proof.
  induction a as [|c' a IH]; simpl; [reflexivity|].
  rewrite IH. now rewrite orb_assoc.
Qed.

Lemma one_line_app a b :
  Json.one_line (a ++ b) <-> Json.one_line a /\ Json.one_line b.
Proof. unfold Json.one_line. rewrite contains_app. apply orb_false_iff. Qed.

Lemma one_line_join sep parts :
  Json.one_line sep -> Forall Json.one_line parts ->
  Json.one_line (join sep parts).
Proof.
  intros Hsep H. induction H as [|p parts Hp Hparts IH]; [reflexivity|].
  simpl. destruct parts as [|p' parts]; [exact Hp|].
  apply one_line_app. split; [exact Hp|].
  apply one_line_app. split; [exact Hsep | exact IH].
Qed.

Lemma one_line_char c :
  nat_of_ascii c <> 10%nat -> Json.one_line (String c "").
Proof.
  intro H. unfold Json.one_line. cbn [Json.contains].
  destruct (Ascii.eqb (ascii_of_nat 10) c) eqn:E; [|reflexivity].
  apply Ascii.eqb_eq in E. subst c. now elim H.
Qed.

Lemma one_line_hex_digit n : Json.one_line (String (hex_digit n) "").
Proof. do 16 (destruct n as [|n]; [reflexivity|]). reflexivity. Qed.

Lemma one_line_escape_char c : Json.one_line (escape_char c).
Proof.
  unfold escape_char.
  destruct (nat_of_ascii c =? 34)%nat eqn:E34.
  { apply Nat.eqb_eq in E34.
    apply (one_line_app "\" _). split; [reflexivity|].
    apply one_line_char. lia. }
  destruct (nat_of_ascii c =? 92)%nat; [reflexivity|].
  destruct (nat_of_ascii c =? 10)%nat eqn:E10; [reflexivity|].
  destruct (nat_of_ascii c =? 13)%nat; [reflexivity|].
  destruct (nat_of_ascii c =? 9)%nat; [reflexivity|].
  destruct (nat_of_ascii c =? 8)%nat; [reflexivity|].
  destruct (nat_of_ascii c =? 12)%nat; [reflexivity|].
  destruct (_ && _).
  - apply one_line_char. apply Nat.eqb_neq in E10. exact E10.
  - apply (one_line_app "\u00" _). split; [reflexivity|].
    apply (one_line_app (String _ "") (String _ "")).
    split; apply one_line_hex_digit.
Qed.

Lemma one_line_escape s : Json.one_line (escape s).
Proof.
  induction s as [|c s IH]; [reflexivity|].
  simpl. apply one_line_app. split; [apply one_line_escape_char | exact IH].
Qed.

Lemma one_line_quote s : Json.one_line (quote s).
Proof.
  unfold quote.
  apply (one_line_app (String (ascii_of_nat 34) "") _). split; [reflexivity|].
  apply one_line_app. split; [apply one_line_escape | reflexivity].
Qed.

Lemma one_line_uint d : Json.one_line (NilEmpty.string_of_uint d).
Proof.
  induction d; simpl; try reflexivity; exact IHd.
Qed.

Lemma one_line_str_of_int z : Json.one_line (PyVal.str_of_int z).
Proof.
  unfold PyVal.str_of_int, NilEmpty.string_of_int.
  destruct (Z.to_int z); [apply one_line_uint|].
  apply (one_line_uint d).
Qed.

Lemma sequence_ok {A} (rs : list (result A)) parts :
  sequence rs = Ok parts -> Forall2 (fun r p => r = Ok p) rs parts.
Proof.
  revert parts. induction rs as [|r rs IH]; intros parts H; simpl in H.
  - inversion H. constructor.
  - destruct r as [a|e]; [|discriminate]. simpl in H.
    destruct (sequence rs) as [others|e]; [|discriminate].
    inversion H; subst. constructor; [reflexivity | now apply IH].
Qed.

(** A list of computations that each return or raise [e] returns as a
    whole when all of them return, and raises [e] otherwise. *)
Lemma sequence_cases {A} (rs : list (result A)) (e : exn) :
  Forall (fun r => is_ok r = true \/ r = Raise e) rs ->
  if forallb is_ok rs
  then exists parts, sequence rs = Ok parts
  else sequence rs = Raise e.
Proof.
  induction 1 as [|r rs Hr _ IH]; simpl; [eauto|].
  destruct r as [a|e']; simpl.
  - destruct (forallb is_ok rs).
    + destruct IH as (parts & ->). simpl. eauto.
    + now rewrite IH.
  - destruct Hr as [Hr|Hr]; [discriminate | congruence].
Qed.

Lemma snd_and_then (a b : progress) :
  snd (and_then a b)
  = match snd a with None => snd b | Some e => Some e end.
Proof. destruct a as [text [e|]]; reflexivity. Qed.

Variable int_max_str_digits : Z.
Variable float_repr : PyNum.float -> string.
Hypothesis float_repr_one_line : forall x, Json.one_line (float_repr x).

Lemma one_line_encode_float x : Json.one_line (encode_float float_repr x).
Proof.
  destruct x as [s|[|]| |s m e]; simpl; try reflexivity;
    apply float_repr_one_line.
Qed.

#[local] Abbreviation dumps := (Json.dumps int_max_str_digits float_repr).
#[local] Abbreviation dump := (Json.dump int_max_str_digits float_repr).
#[local] Abbreviation within_limit := (Json.within_limit int_max_str_digits).
#[local] Abbreviation limit_error := (Json.limit_error int_max_str_digits).
#[local] Abbreviation scalar := (Json.scalar int_max_str_digits float_repr).

(** The text [json.dumps] returns holds no newline. *)
Lemma dumps_one_line j text : dumps j = Ok text -> Json.one_line text.
Proof.
  revert text.
  induction j as [| [|] | z | x | s | items IH | members IH] using json_ind;
    intros text H; simpl in H.
  1-3: inversion H; reflexivity.
  - unfold encode_int in H. destruct (exceeds_limit _ z); [discriminate|].
    inversion H. apply one_line_str_of_int.
  - inversion H. now apply one_line_encode_float.
  - inversion H. apply one_line_quote.
  - destruct (sequence (map dumps items)) as [parts|e] eqn:E; [|discriminate].
    inversion H; subst; clear H. apply sequence_ok in E.
    apply (one_line_app "[" _). split; [reflexivity|].
    apply one_line_app. split; [|reflexivity].
    apply one_line_join; [reflexivity|].
    revert parts E. induction IH as [|j items Hj _ IHitems];
      intros parts E; inversion E; subst; constructor; eauto.
  - destruct (sequence _) as [parts|e] eqn:E; [|discriminate].
    inversion H; subst; clear H. apply sequence_ok in E.
    apply (one_line_app "{" _). split; [reflexivity|].
    apply one_line_app. split; [|reflexivity].
    apply one_line_join; [reflexivity|].
    revert parts E. induction IH as [|[k v] members Hv _ IHm];
      intros parts E; inversion E as [|r p rs ps Hr Hrest]; subst;
      constructor; eauto.
    simpl in Hv. destruct (Json.dumps _ _ v) as [t|e]; [|discriminate].
    inversion Hr; subst.
    apply one_line_app. split; [apply one_line_quote|].
    apply (one_line_app ": " _). split; [reflexivity | now apply Hv].
Qed.

(** [json.dumps] returns exactly on the values whose ints are all within
    the limit, and raises the [ValueError] of the limit on the others. *)
Lemma dumps_within_limit j :
  if within_limit j
  then exists text, dumps j = Ok text
  else dumps j = Raise limit_error.
Proof.
  induction j as [| [|] | z | x | s | items IH | members IH] using json_ind;
    simpl; eauto.
  - unfold encode_int. destruct (exceeds_limit _ z); simpl; eauto.
  - assert (H : Forall (fun r => is_ok r = true \/ r = Raise limit_error)
                       (map dumps items)).
    { apply Forall_map. eapply Forall_impl; [|exact IH].
      intros j Hj. simpl in Hj.
      destruct (Json.within_limit _ j); [destruct Hj as (t & ->); now left|].
      now right. }
    apply sequence_cases in H.
    assert (E : forallb is_ok (map dumps items) = forallb within_limit items).
    { clear H. induction IH as [|j items Hj _ IHi]; [reflexivity|].
      simpl. rewrite IHi. f_equal.
      destruct (Json.within_limit _ j); [destruct Hj as (t & ->)|rewrite Hj];
        reflexivity. }
    rewrite E in H. destruct (forallb within_limit items).
    + destruct H as (parts & ->). simpl. eauto.
    + now rewrite H.
  - match goal with
    | |- context [sequence (map ?g members)] => set (f := g)
    end.
    assert (H : Forall (fun r => is_ok r = true \/ r = Raise limit_error)
                       (map f members)).
    { apply Forall_map. eapply Forall_impl; [|exact IH].
      intros [k v] Hv. unfold f. simpl in *.
      destruct (Json.within_limit _ v); [destruct Hv as (t & ->); now left|].
      rewrite Hv. now right. }
    apply sequence_cases in H.
    assert (E : forallb is_ok (map f members)
                = forallb (fun kv => within_limit (snd kv)) members).
    { clear H. induction IH as [|[k v] members Hv _ IHm]; [reflexivity|].
      unfold f in *. simpl in *. rewrite IHm. f_equal.
      destruct (Json.within_limit _ v); [destruct Hv as (t & ->)|rewrite Hv];
        reflexivity. }
    rewrite E in H. destruct (forallb _ members).
    + destruct H as (parts & ->). simpl. eauto.
    + now rewrite H.
Qed.

Lemma scalar_within_limit j r :
  scalar j = Some r ->
  r = if within_limit j then r else Raise limit_error.
Proof.
  destruct j as [| [|] | z | x | s | items | members]; simpl;
    intro H; inversion H; try reflexivity.
  unfold encode_int. now destruct (exceeds_limit _ z).
Qed.

Lemma scalar_ok_within_limit j text :
  scalar j = Some (Ok text) -> within_limit j = true.
Proof.
  intro H. pose proof (scalar_within_limit _ H) as E.
  destruct (Json.within_limit _ j); [reflexivity | discriminate].
Qed.

Lemma scalar_raise_within_limit j e :
  scalar j = Some (Raise e) -> within_limit j = false /\ e = limit_error.
Proof.
  destruct j as [| [|] | z | x | s | items | members]; simpl;
    intro H; inversion H as [H']; clear H.
  unfold encode_int in H'. destruct (exceeds_limit _ z); inversion H'.
  split; reflexivity.
Qed.

(** [json.dump] writes to its end exactly on the values whose ints are
    all within the limit, and is ended by the [ValueError] of the limit
    on the others. *)
Lemma dump_within_limit j level :
  snd (dump level j) = if within_limit j then None else Some limit_error.
Proof.
  revert level.
  induction j as [| [|] | z | x | s | items IH | members IH] using json_ind;
    intro level; try reflexivity.
  - simpl. unfold value, scalar, encode_int.
    destruct (exceeds_limit _ z); reflexivity.
  - destruct items as [|j0 items]; [reflexivity|].
    cbn [Json.dump]. rewrite snd_and_then.
    set (nested := Json.dump _ _ (S level)).
    assert (E : forall sep buf xs,
               Forall (fun j => forall level,
                         snd (dump level j)
                         = if within_limit j then None
                           else Some limit_error) xs ->
               snd (elements int_max_str_digits float_repr nested sep buf xs)
               = if forallb within_limit xs then None else Some limit_error).
    { intros sep buf xs Hx. revert buf.
      induction Hx as [|x xs Hx _ IHx]; intro buf; [reflexivity|].
      simpl. rewrite snd_and_then, IHx. unfold element.
      destruct (Json.scalar _ _ x) as [[text|e]|] eqn:Es.
      - now rewrite (scalar_ok_within_limit _ Es).
      - destruct (scalar_raise_within_limit _ Es) as [-> ->]. reflexivity.
      - rewrite snd_and_then. simpl. unfold nested. rewrite Hx.
        destruct (Json.within_limit _ x); reflexivity. }
    rewrite E by exact IH.
    cbn [Json.within_limit]. destruct (forallb _ _); reflexivity.
  - destruct members as [|kv members]; [reflexivity|].
    cbn [Json.dump]. rewrite snd_and_then. cbn [emit snd].
    rewrite snd_and_then.
    set (nested := Json.dump _ _ (S level)).
    assert (E : forall sep first xs,
               Forall (fun kv => forall level,
                         snd (dump level (snd kv))
                         = if within_limit (snd kv) then None
                           else Some limit_error) xs ->
               snd (pairs int_max_str_digits float_repr nested sep first xs)
               = if forallb (fun kv => within_limit (snd kv)) xs
                 then None else Some limit_error).
    { intros sep first xs Hx. revert first.
      induction Hx as [|[k v] xs Hx _ IHx]; intro first; [reflexivity|].
      simpl. rewrite snd_and_then, IHx. unfold value. simpl in Hx.
      destruct (Json.scalar _ _ v) as [[text|e]|] eqn:Es.
      - now rewrite (scalar_ok_within_limit _ Es).
      - destruct (scalar_raise_within_limit _ Es) as [-> ->]. reflexivity.
      - unfold nested. rewrite Hx.
        destruct (Json.within_limit _ v); reflexivity. }
    rewrite E by exact IH.
    cbn [Json.within_limit]. destruct (forallb _ _); reflexivity.
Qed.

End JsonFacts.

(** The two layouts on a value without strings: one line with [", "]
    between items, and one item per line indented by two spaces per
    level, empty containers closed at once. *)
Example dumps_layouts :
  let j := Json.JArr [Json.JInt 1;
                      Json.JArr [Json.JBool true; Json.JNull];
                      Json.JArr []; Json.JObj []] in
  Json.dumps 4300 (fun _ => "") j = Ok "[1, [true, null], [], {}]"
  /\ Json.dump 4300 (fun _ => "") 0 j = ("[
  1,
  [
    true,
    null
  ],
  [],
  {}
]", None).
Proof. split; vm_compute; reflexivity. Qed.

(** Under a limit of 640 digits an [int] of 641 digits ends both
    encoders with the [ValueError] of the limit: [json.dumps] leaves no
    text, while [json.dump] has written the items before it, without the
    bracket or separator that was pending. *)
Example dump_stops_at_a_long_int :
  let long := Json.JInt (10 ^ 640) in
  let j := Json.JArr [Json.JArr []; Json.JObj [];
                      Json.JArr [Json.JInt 1; Json.JArr [Json.JInt 2]];
                      long] in
  Json.dumps 640 (fun _ => "") j = Raise (Json.limit_error 640)
  /\ Json.dump 640 (fun _ => "") 0 j = ("[
  [],
  {},
  [
    1,
    [
      2
    ]
  ]", Some (Json.limit_error 640))
  /\ Json.dump 640 (fun _ => "") 0
       (Json.JArr [Json.JInt 1; Json.JArr [long; Json.JInt 2]])
     = ("[
  1,
  ", Some (Json.limit_error 640))
  /\ Json.within_limit 640 (Json.JInt (10 ^ 640 - 1)) = true
  /\ Json.within_limit 640 (Json.JInt (- 10 ^ 640)) = false
  /\ Json.within_limit 0 long = true.
Proof.
  cbv zeta.
  split; [vm_compute; reflexivity|].
  split; [vm_compute; reflexivity|].
  split; [vm_compute; reflexivity|].
  split; [vm_compute; reflexivity|].
  split; vm_compute; reflexivity.
Qed.

(** The same on dictionaries: the key and the colon of an item are
    written before its value is converted. *)
Example dump_stops_inside_a_dictionary :
  let q := Json.quote in
  let whole :=
    Json.JObj [("a", Json.JInt 1);
               ("b", Json.JObj [("c", Json.JInt 2)]);
               ("d", Json.JArr [])] in
  let cut :=
    Json.JObj [("a", Json.JInt 1);
               ("b", Json.JObj [("c", Json.JInt (10 ^ 640))])] in
  Json.dumps 640 (fun _ => "") whole
  = Ok ("{" ++ q "a" ++ ": 1, " ++ q "b" ++ ": {" ++ q "c" ++ ": 2}, "
            ++ q "d" ++ ": []}")
  /\ Json.dump 640 (fun _ => "") 0 whole
     = ("{
  " ++ q "a" ++ ": 1,
  " ++ q "b" ++ ": {
    " ++ q "c" ++ ": 2
  },
  " ++ q "d" ++ ": []
}", None)
  /\ Json.dump 640 (fun _ => "") 0 cut
     = ("{
  " ++ q "a" ++ ": 1,
  " ++ q "b" ++ ": {
    " ++ q "c" ++ ": ", Some (Json.limit_error 640)).
Proof.
  cbv zeta.
  split; [vm_compute; reflexivity|].
  split; vm_compute; reflexivity.
Qed.

Section PersistFacts.

Import Score Resiliency.

Variable datetime : Type.
Variable evaluate_slos :
  nat -> list slo -> datetime -> datetime -> result (PyDict.t bool).
Variable int_max_str_digits : Z.
Variable float_repr : PyNum.float -> string.
Hypothesis float_repr_one_line : forall x, Json.one_line (float_repr x).

Lemma finalize_report_effect total_start_time total_end_time st :
  let '(st1, r) := finalize_report evaluate_slos total_start_time
                     total_end_time st in
  (the_world st1 = the_world st \/ the_world st1 = queried (the_world st))
  /\ scenario_reports (self st1) = scenario_reports (self st)
  /\ (is_ok r = true ->
      detailed_report (self st1) = Bound (Some ScenariosOfSelf)).
Proof.
  rewrite finalize_report_run.
  destruct (scenario_reports (self st)) as [|rep reps] eqn:E.
  { rewrite E. repeat split; auto; discriminate. }
  destruct (weighted_average _) as [score|e].
  2:{ rewrite E. repeat split; auto; discriminate. }
  destruct (evaluate_slos _ _ _ _) as [res|e].
  2:{ simpl. rewrite E. repeat split; auto; discriminate. }
  destruct (calculate_resiliency_score _ _ _) as [[sc bd]|e];
    simpl; rewrite E; repeat split; auto; discriminate.
Qed.

(** C9: [finalize_and_save] never raises. When [finalize_report] raises,
    the exception is logged and nothing is printed or written. When it
    succeeds, the object is as [finalize_report] left it, and the
    detailed report is serialised. Serialisation fails exactly when an
    [int] of the report has more decimal digits than the interpreter
    converts, with the [ValueError] of that limit. In controller mode a
    report that serialises is printed as exactly one line, the sentinel
    immediately followed by the [json.dumps] text, which holds no
    newline, and no file is written; a failure of the serialisation or
    of standard output is logged as an error and prints nothing. In any
    other mode nothing is printed and the report is written to the given
    path as [json.dump] writes it with an indent of two spaces: the whole
    text when it serialises, the text up to the failing [int] otherwise,
    which is then logged as an error; a file that cannot be opened is
    left as it was and the failure is logged. *)
Theorem finalize_and_save_contract
        (total_start_time total_end_time : datetime)
        (run_mode detailed_path : string) (st : state) :
  let run := finalize_and_save evaluate_slos float_repr int_max_str_digits
               total_start_time total_end_time run_mode detailed_path st in
  let w := the_world st in
  let w' := the_world (fst run) in
  snd run = Ok tt
  /\ match finalize_report evaluate_slos total_start_time total_end_time st with
     | (st1, Ok _) =>
         let doc :=
           Json.JObj [("scenarios",
                       Json.JArr (map json_of_report
                                      (scenario_reports (self st))))] in
         self (fst run) = self st1
         /\ if String.eqb run_mode "controller"
            then
              files w' = files w
              /\ match Json.dumps int_max_str_digits float_repr doc with
                 | Ok text =>
                     Json.within_limit int_max_str_digits doc = true
                     /\ Json.one_line (SENTINEL ++ text)
                     /\ if stdout_broken w
                        then
                          stdout w' = stdout w
                          /\ log w'
                             = (log w
                                  ++ [(ERROR,
                                       "Failed to serialize and log detailed resiliency report",
                                       Some (OSError "Broken pipe"))])%list
                        else
                          stdout w'
                          = stdout w ++ (SENTINEL ++ text) ++ Json.newline
                          /\ log w'
                             = (log w
                                  ++ [(INFO,
                                       "Resiliency report logged to stdout for krknctl.",
                                       None)])%list
                 | Raise exc =>
                     Json.within_limit int_max_str_digits doc = false
                     /\ exc = Json.limit_error int_max_str_digits
                     /\ stdout w' = stdout w
                     /\ log w'
                        = (log w
                             ++ [(ERROR,
                                  "Failed to serialize and log detailed resiliency report",
                                  Some exc)])%list
                 end
            else
              stdout w' = stdout w
              /\ if writable w detailed_path
                 then
                   files w'
                   = PyDict.set (files w) detailed_path
                       (fst (Json.dump int_max_str_digits float_repr 0 doc))
                   /\ if Json.within_limit int_max_str_digits doc
                      then
                        snd (Json.dump int_max_str_digits float_repr 0 doc)
                        = None
                        /\ log w'
                           = (log w
                                ++ [(INFO, "Resiliency report written",
                                     None)])%list
                      else
                        snd (Json.dump int_max_str_digits float_repr 0 doc)
                        = Some (Json.limit_error int_max_str_digits)
                        /\ log w'
                           = (log w
                                ++ [(ERROR,
                                     "Failed to write resiliency report files",
                                     Some (Json.limit_error
                                             int_max_str_digits))])%list
                 else
                   files w' = files w
                   /\ log w'
                      = (log w
                           ++ [(ERROR,
                                "Failed to write resiliency report files",
                                Some (OSError "Permission denied"))])%list
     | (st1, Raise exc) =>
         self (fst run) = self st1
         /\ stdout w' = stdout w
         /\ files w' = files w
         /\ log w'
            = (log w
                 ++ [(ERROR, "Failed to finalize resiliency scoring",
                      Some exc)])%list
     end.
Proof.
  cbv zeta.
  pose proof (finalize_report_effect total_start_time total_end_time st) as Hf.
  unfold finalize_and_save, get_detailed_report, getattr, print, dump_to_file,
    logging.
  unfold_m.
  destruct (finalize_report evaluate_slos total_start_time total_end_time st)
    as [st1 [[]|exc]].
  - destruct Hf as (Hw & Hr & Hd). rewrite (Hd eq_refl). rewrite <- Hr.
    cbn [hasattr negb].
    assert (Hs : stdout (the_world st1) = stdout (the_world st)
                 /\ files (the_world st1) = files (the_world st)
                 /\ stdout_broken (the_world st1) = stdout_broken (the_world st)
                 /\ writable (the_world st1) = writable (the_world st)
                 /\ log (the_world st1) = log (the_world st))
      by (destruct Hw as [-> | ->]; repeat split).
    destruct Hs as (Hout & Hfiles & Hbroken & Hwr & Hlog).
    rewrite <- Hout, <- Hfiles, <- Hbroken, <- Hwr, <- Hlog.
    cbn [json_of_detailed deref].
    set (doc := Json.JObj
                  [("scenarios",
                    Json.JArr (map json_of_report
                                   (scenario_reports (self st1))))]).
    pose proof (@dumps_within_limit int_max_str_digits float_repr doc) as Hds.
    pose proof (@dump_within_limit int_max_str_digits float_repr doc 0) as Hdp.
    destruct (String.eqb run_mode "controller").
    + destruct (Json.dumps int_max_str_digits float_repr doc)
        as [text|exc] eqn:Etext.
      * assert (Hin : Json.within_limit int_max_str_digits doc = true).
        { destruct (Json.within_limit _ doc); [reflexivity|discriminate]. }
        assert (Hline : Json.one_line (SENTINEL ++ text)).
        { apply (one_line_app SENTINEL _). split; [reflexivity|].
          exact (@dumps_one_line int_max_str_digits float_repr
                   float_repr_one_line doc text Etext). }
        destruct (stdout_broken (the_world st1)); simpl; repeat split;
          assumption.
      * assert (Hin : Json.within_limit int_max_str_digits doc = false
                      /\ exc = Json.limit_error int_max_str_digits).
        { destruct (Json.within_limit _ doc).
          - destruct Hds as (t & Ht). discriminate.
          - inversion Hds. now split. }
        destruct Hin as [Hin ->]. simpl. repeat split. exact Hin.
    + destruct (writable (the_world st1) detailed_path);
        [|simpl; repeat split].
      rewrite !Hdp.
      destruct (Json.within_limit int_max_str_digits doc); simpl;
        repeat split.
  - destruct Hf as (Hw & Hr & _).
    simpl. repeat split; destruct Hw as [-> | ->]; reflexivity.
Qed.

End PersistFacts.

(** A finalisation that succeeds, under the default limit of 4300
    digits: in controller mode the sentinel line goes to standard output,
    in any other mode the whole indented text is in the file. *)
Lemma finalize_and_save_contract_witness :
  let st :=
    Resiliency.mkState
      (Resiliency.mkWorld 0 "" false [] (fun _ => true) [])
      (Resiliency.mkObject
         [Resiliency.mkSlo "etcd" "up == 1" "critical" None]
         [] None None []
         [Resiliency.mkReport "pod-kill" "2024-01-01T00:00:00"
            "2024-01-01T00:10:00" 100 (PyNum.PInt 1)
            (Score.mkBreakdown 3 0 1 0) [("etcd", true)] []]
         (Resiliency.Bound None) (Resiliency.Bound None)) in
  let doc :=
    Json.JObj
      [("scenarios",
        Json.JArr
          (map Resiliency.json_of_report
               (Resiliency.scenario_reports (Resiliency.self st))))] in
  let run mode :=
    Resiliency.finalize_and_save (fun _ _ (_ _ : Z) => Ok [("etcd", true)])
      (fun _ => "0.0") 4300 0 600 mode "resiliency-report.json" st in
  (exists text,
      Json.dumps 4300 (fun _ => "0.0") doc = Ok text
      /\ Json.one_line (Resiliency.SENTINEL ++ text)
      /\ Resiliency.stdout (Resiliency.the_world (fst (run "controller")))
         = Resiliency.SENTINEL ++ text ++ Json.newline
      /\ Resiliency.files (Resiliency.the_world (fst (run "controller"))) = [])
  /\ Resiliency.files (Resiliency.the_world (fst (run "standalone")))
     = [("resiliency-report.json",
         fst (Json.dump 4300 (fun _ => "0.0") 0 doc))]
  /\ snd (Json.dump 4300 (fun _ => "0.0") 0 doc) = None
  /\ Resiliency.stdout (Resiliency.the_world (fst (run "standalone"))) = "".
Proof.
  cbv zeta.
  pose proof
    (fun mode =>
       @finalize_and_save_contract Z
         (fun _ _ (_ _ : Z) => Ok [("etcd", true)]) 4300 (fun _ => "0.0")
         (fun _ => eq_refl) 0 600 mode "resiliency-report.json"
         (Resiliency.mkState
            (Resiliency.mkWorld 0 "" false [] (fun _ => true) [])
            (Resiliency.mkObject
               [Resiliency.mkSlo "etcd" "up == 1" "critical" None]
               [] None None []
               [Resiliency.mkReport "pod-kill" "2024-01-01T00:00:00"
                  "2024-01-01T00:10:00" 100 (PyNum.PInt 1)
                  (Score.mkBreakdown 3 0 1 0) [("etcd", true)] []]
               (Resiliency.Bound None) (Resiliency.Bound None)))) as H.
  pose proof (H "controller") as Hc. pose proof (H "standalone") as Hs.
  clear H. cbv zeta in Hc, Hs.
  destruct Hc as [_ Hc]. destruct Hs as [_ Hs].
  vm_compute in Hc. vm_compute in Hs.
  destruct Hc as (_ & Hcf & _ & Hline & Hout & _).
  destruct Hs as (_ & Hso & Hsf & Hsd & _).
  split.
  - eexists. split; [vm_compute; reflexivity|].
    split; [vm_compute; exact Hline|].
    split; [vm_compute; exact Hout|].
    vm_compute. exact Hcf.
  - split; [vm_compute; exact Hsf|].
    split; [vm_compute; exact Hsd|].
    vm_compute. exact Hso.
Defined.

(** * Properties of the float arithmetic *)

Section FloatFacts.

Import PyNum.

Lemma digits2_size p : digits2_pos p = Pos.size p.
Proof. induction p; simpl; congruence. Qed.

Lemma Zdigits2_log2 p : Zdigits2 (Zpos p) = Z.log2 (Zpos p) + 1.
Proof.
  simpl. rewrite digits2_size.
  destruct p; simpl; rewrite ?Pos.add_1_r; reflexivity.
Qed.

(** The number of binary digits of a positive integer. *)
Lemma Zdigits2_bounds m :
  0 < m -> 2 ^ (Zdigits2 m - 1) <= m < 2 ^ Zdigits2 m.
Proof.
  intro H. destruct m as [|p|p]; try lia.
  rewrite Zdigits2_log2.
  replace (Z.log2 (Zpos p) + 1 - 1) with (Z.log2 (Zpos p)) by lia.
  apply Z.log2_spec. lia.
Qed.

Lemma Zdigits2_unique m d :
  0 < d -> 2 ^ (d - 1) <= m < 2 ^ d -> Zdigits2 m = d.
Proof.
  intros Hd H.
  assert (0 < m) by (pose proof (Z.pow_pos_nonneg 2 (d - 1)); lia).
  destruct m as [|p|p]; try lia.
  rewrite Zdigits2_log2.
  rewrite (Z.log2_unique (Zpos p) (d - 1)); try lia.
  replace (Z.succ (d - 1)) with d by lia. exact H.
Qed.

Lemma loc_of_shr_record_of_loc m l :
  loc_of_shr_record (shr_record_of_loc m l) = l.
Proof. destruct l as [|[| |]]; reflexivity. Qed.

Lemma fexp_normal x : -1021 <= x -> fexp prec emax x = x - 53.
Proof. unfold fexp, emin, prec, emax. lia. Qed.

Lemma shr_m_of_loc m l : shr_m (shr_record_of_loc m l) = m.
Proof. destruct l as [|[| |]]; reflexivity. Qed.

Lemma shr_1_spec mrs :
  0 <= shr_m mrs ->
  shr_m (shr_1 mrs) = shr_m mrs / 2
  /\ shr_r (shr_1 mrs) = Z.odd (shr_m mrs).
Proof.
  destruct mrs as [m r s]. simpl. intro H.
  destruct m as [|[p|p|]|p]; try lia; simpl; split; try reflexivity.
  - rewrite Pos2Z.inj_xI. apply Z.div_unique with 1; lia.
  - rewrite Pos2Z.inj_xO. apply Z.div_unique with 0; lia.
Qed.

(** The first shift of [binary_round_aux] on a mantissa of 53 or 54 bits:
    no shift, or a shift by one that keeps the bit shifted out. *)
Lemma shr_fexp_first m e l :
  2 ^ 52 <= m < 2 ^ 54 -> -1000 <= e ->
  exists mrs,
    (m < 2 ^ 53 /\ shr_fexp prec emax m e l = (mrs, e)
     /\ shr_m mrs = m /\ loc_of_shr_record mrs = l)
    \/ (2 ^ 53 <= m /\ shr_fexp prec emax m e l = (mrs, e + 1)
        /\ shr_m mrs = m / 2 /\ shr_r mrs = Z.odd m).
Proof.
  intros Hm He. unfold shr_fexp.
  destruct (Z_lt_le_dec m (2 ^ 53)) as [Hlt|Hge].
  - exists (shr_record_of_loc m l). left.
    rewrite (@Zdigits2_unique m 53) by (simpl; lia).
    rewrite fexp_normal by lia.
    replace (53 + e - 53 - e) with 0 by lia.
    repeat split; auto using shr_m_of_loc, loc_of_shr_record_of_loc.
  - exists (shr_1 (shr_record_of_loc m l)). right.
    rewrite (@Zdigits2_unique m 54) by (simpl; lia).
    rewrite fexp_normal by lia.
    replace (54 + e - 53 - e) with 1 by lia.
    destruct (@shr_1_spec (shr_record_of_loc m l)) as [H1 H2];
      rewrite shr_m_of_loc in *; [lia|].
    repeat split; auto.
Qed.

Lemma round_nearest_even_cases m l :
  round_nearest_even m l = m
  \/ (round_nearest_even m l = m + 1
      /\ (l = loc_Inexact Eq \/ l = loc_Inexact Gt)).
Proof.
  destruct l as [|[| |]]; simpl; auto.
  destruct (Z.even m); auto.
Qed.

(** The second shift: a rounded mantissa that reached [2 ^ 53] is halved. *)
Lemma shr_fexp_second m e :
  2 ^ 52 <= m <= 2 ^ 53 -> -1000 <= e <= 900 ->
  exists mf ef,
    (let '(mrs, e') := shr_fexp prec emax m e loc_Exact in
     match shr_m mrs with
     | Z0 => S754_zero false
     | Zpos p =>
         if e' <=? emax - prec then S754_finite false p e'
         else S754_infinity false
     | Zneg _ => S754_nan
     end) = S754_finite false mf ef
    /\ e <= ef <= e + 1 /\ Zpos mf * 2 ^ (ef - e) = m
    /\ 2 ^ 52 <= Zpos mf < 2 ^ 53.
Proof.
  intros Hm He. unfold shr_fexp.
  destruct (Z.eq_dec m (2 ^ 53)) as [->|Hne].
  - exists (Z.to_pos (2 ^ 52)), (e + 1).
    rewrite (@Zdigits2_unique (2 ^ 53) 54) by (simpl; lia).
    rewrite fexp_normal by lia.
    replace (54 + e - 53 - e) with 1 by lia.
    cbn -[Z.leb]. unfold emax, prec.
    match goal with
    | |- context [?a <=? ?b] => destruct (Z.leb_spec a b); [|lia]
    end.
    split; [reflexivity|]. split; [lia|].
    replace (e + 1 - e) with 1 by lia. split; [reflexivity|].
    simpl. lia.
  - exists (Z.to_pos m), e.
    rewrite (@Zdigits2_unique m 53) by (simpl; lia).
    rewrite fexp_normal by lia.
    replace (53 + e - 53 - e) with 0 by lia.
    cbn -[Z.leb]. unfold emax, prec.
    destruct m as [|p|p]; try (simpl in Hm; lia).
    match goal with
    | |- context [?a <=? ?b] => destruct (Z.leb_spec a b); [|lia]
    end.
    split; [reflexivity|]. split; [lia|].
    rewrite Z.sub_diag. split; [simpl; lia|].
    simpl Z.to_pos. lia.
Qed.

(** Rounding of a mantissa of 53 or 54 bits with its location: the value
    of the result is [m2 * 2 ^ e1], where [e1] is the exponent after the
    first shift and [m2] the shifted mantissa or its successor. *)
Lemma binary_round_aux_normal m e l :
  2 ^ 52 <= m < 2 ^ 54 -> -1000 <= e <= 899 ->
  exists mf ef k m2,
    binary_round_aux prec emax false m e l = S754_finite false mf ef
    /\ (k = 0 \/ k = 1)
    /\ e + k <= ef <= e + k + 1
    /\ Zpos mf * 2 ^ (ef - (e + k)) = m2
    /\ 2 ^ 52 <= Zpos mf < 2 ^ 53
    /\ 2 ^ 52 <= m / 2 ^ k < 2 ^ 53
    /\ (m2 = m / 2 ^ k
        \/ (m2 = m / 2 ^ k + 1
            /\ ((k = 0 /\ (l = loc_Inexact Eq \/ l = loc_Inexact Gt))
                \/ (k = 1 /\ Z.odd m = true)))).
Proof.
  intros Hm He. unfold binary_round_aux.
  destruct (@shr_fexp_first m e l Hm) as [mrs [H|H]]; [lia| |].
  - destruct H as (Hlt & -> & Hs & Hl). rewrite Hs, Hl.
    set (m2 := round_nearest_even m l).
    assert (Hm2 : 2 ^ 52 <= m2 <= 2 ^ 53)
      by (destruct (round_nearest_even_cases m l) as [E|[E _]];
          unfold m2; rewrite E; lia).
    destruct (@shr_fexp_second m2 e Hm2)
      as (mf & ef & Hres & Hef & Hval & Hmf); [lia|].
    exists mf, ef, 0, m2. rewrite Z.add_0_r, Z.pow_0_r, Z.div_1_r.
    split; [exact Hres|]. split; [auto|]. split; [lia|].
    split; [exact Hval|]. split; [exact Hmf|]. split; [lia|].
    destruct (round_nearest_even_cases m l) as [E|[E Hl']]; fold m2 in E; auto.
  - destruct H as (Hge & -> & Hs & Hr). rewrite Hs.
    assert (Hh : 2 ^ 52 <= m / 2 < 2 ^ 53).
    { split.
      - apply Z.div_le_lower_bound; lia.
      - apply Z.div_lt_upper_bound; lia. }
    set (l1 := loc_of_shr_record mrs).
    set (m2 := round_nearest_even (m / 2) l1).
    assert (Hm2 : 2 ^ 52 <= m2 <= 2 ^ 53)
      by (destruct (round_nearest_even_cases (m / 2) l1) as [E|[E _]];
          unfold m2; rewrite E; lia).
    destruct (@shr_fexp_second m2 (e + 1) Hm2)
      as (mf & ef & Hres & Hef & Hval & Hmf); [lia|].
    exists mf, ef, 1, m2. rewrite Z.pow_1_r.
    split; [exact Hres|]. split; [auto|]. split; [lia|].
    split; [exact Hval|]. split; [exact Hmf|]. split; [lia|].
    destruct (round_nearest_even_cases (m / 2) l1) as [E|[E Hl']];
      fold m2 in E; auto.
    right. split; [exact E|]. right. split; [reflexivity|].
    rewrite <- Hr. unfold l1 in Hl'.
    destruct mrs as [mm [|] [|]]; simpl in *; destruct Hl'; congruence.
Qed.

Lemma new_location_up b r :
  0 <= r ->
  new_location b r = loc_Inexact Eq \/ new_location b r = loc_Inexact Gt ->
  b <= 2 * r.
Proof.
  intro Hr. unfold new_location, new_location_even, new_location_odd.
  destruct (Z.even b); destruct (r =? 0) eqn:E0;
    try (intros [H|H]; discriminate).
  - destruct (Z.compare_spec (2 * r) b); intros [H'|H'];
      try discriminate; lia.
  - destruct (Z.compare_spec (2 * r + 1) b); intros [H'|H'];
      try discriminate; lia.
Qed.

(** The quotient mantissa of two positive integers below [2 ^ 53]. *)
Lemma SFdiv_core_small a b :
  0 < a < 2 ^ 53 -> 0 < b < 2 ^ 53 ->
  exists s,
    1 <= s <= 105
    /\ SFdiv_core_binary prec emax a 0 b 0
       = (a * 2 ^ s / b, - s, new_location b ((a * 2 ^ s) mod b))
    /\ 2 ^ 52 <= a * 2 ^ s / b < 2 ^ 54.
Proof.
  intros Ha Hb.
  pose proof (@Zdigits2_bounds a (proj1 Ha)) as Da.
  pose proof (@Zdigits2_bounds b (proj1 Hb)) as Db.
  assert (Hda : 1 <= Zdigits2 a <= 53).
  { split.
    - destruct a; try lia. simpl. lia.
    - destruct (Z_le_gt_dec (Zdigits2 a) 53); [assumption|].
      assert (2 ^ 53 <= 2 ^ (Zdigits2 a - 1))
        by (apply Z.pow_le_mono_r; lia). lia. }
  assert (Hdb : 1 <= Zdigits2 b <= 53).
  { split.
    - destruct b; try lia. simpl. lia.
    - destruct (Z_le_gt_dec (Zdigits2 b) 53); [assumption|].
      assert (2 ^ 53 <= 2 ^ (Zdigits2 b - 1))
        by (apply Z.pow_le_mono_r; lia). lia. }
  set (da := Zdigits2 a) in *. set (db := Zdigits2 b) in *.
  exists (53 + db - da). split; [lia|].
  assert (Hpow : 2 ^ (53 + db - da) * 2 ^ (da - 1) = 2 ^ 52 * 2 ^ db
                 /\ 2 ^ (53 + db - da) * 2 ^ da = 2 ^ 54 * 2 ^ (db - 1)).
  { rewrite <- !Z.pow_add_r by lia. split; f_equal; lia. }
  destruct Hpow as [Hp1 Hp2].
  assert (Hs : 0 < 2 ^ (53 + db - da)) by (apply Z.pow_pos_nonneg; lia).
  split.
  - unfold SFdiv_core_binary. fold da db.
    rewrite fexp_normal by lia.
    replace (Z.min (da + 0 - (db + 0) - 53) (0 - 0)) with (da - db - 53) by lia.
    replace (0 - 0 - (da - db - 53)) with (53 + db - da) by lia.
    destruct (53 + db - da) as [|p|p] eqn:E; try lia.
    rewrite Z.shiftl_mul_pow2 by lia.
    unfold Z.div, Z.modulo.
    destruct (Z.div_eucl (a * 2 ^ Z.pos p) b) as [q r].
    f_equal. f_equal. lia.
  - split.
    + apply Z.div_le_lower_bound; [lia|]. nia.
    + apply Z.div_lt_upper_bound; [lia|]. nia.
Qed.

Lemma pow2_pred s : 0 < s -> 2 ^ s = 2 * 2 ^ (s - 1).
Proof.
  intro H. rewrite <- Z.pow_succ_r by lia. f_equal. lia.
Qed.

(** Rounding a quotient to 53 bits cannot reach the next integer while
    the dividend is below [2 ^ 53]. *)
Lemma rounded_quotient_floor a b P m1 m2 :
  0 < b -> 0 <= a < 2 ^ 53 -> 0 < P ->
  m1 = a * P / b -> 2 ^ 52 <= m1 ->
  m2 = m1 \/ (m2 = m1 + 1 /\ b <= 2 * (a * P - m1 * b)) ->
  m2 / P = a / b.
Proof.
  intros Hb Ha HP Hm1 Hbig Hm2.
  pose proof (Z.div_mod a b ltac:(lia)) as Hab.
  pose proof (Z.mod_pos_bound a b Hb) as Ht.
  pose proof (Z.div_mod (a * P) b ltac:(lia)) as HaP.
  pose proof (Z.mod_pos_bound (a * P) b Hb) as Hr.
  rewrite <- Hm1 in HaP.
  set (N := a / b) in *. set (t := a mod b) in *.
  set (r := (a * P) mod b) in *.
  assert (HN : 0 <= N) by (apply Z.div_pos; lia).
  assert (Hlow : N * P <= m1).
  { rewrite Hm1. apply Z.div_le_lower_bound; [lia|]. nia. }
  assert (Hup : m1 < (N + 1) * P).
  { rewrite Hm1. apply Z.div_lt_upper_bound; [lia|]. nia. }
  symmetry. apply Z.div_unique with (m2 - N * P).
  - left. destruct Hm2 as [->|[-> Hhalf]]; [lia|].
    split; [lia|].
    destruct (Z_lt_le_dec (m1 + 1) ((N + 1) * P)) as [|Hge]; [lia|].
    exfalso.
    assert (Em1 : m1 = (N + 1) * P - 1) by lia.
    assert (H1 : 2 ^ 52 * b < 2 ^ 53 * P) by nia.
    assert (H2 : 2 * P <= b).
    { assert (Hb2 : b + 2 * m1 * b <= 2 * a * P) by lia.
      rewrite Em1 in Hb2.
      assert (2 * a * P <= 2 * (b * N + b - 1) * P) by nia.
      nia. }
    lia.
  - lia.
Qed.

Lemma int_of_float_scaled mf ef E m2 :
  0 <= E -> - E <= ef -> Zpos mf * 2 ^ (ef + E) = m2 ->
  int_of_float (S754_finite false mf ef) = Ok (m2 / 2 ^ E).
Proof.
  intros HE Hef <-. unfold int_of_float. f_equal.
  destruct ef as [|p|p].
  - rewrite Z.shiftl_0_r. simpl (0 + E).
    rewrite Z.div_mul; [reflexivity|]. apply Z.pow_nonzero; lia.
  - rewrite Z.shiftl_mul_pow2 by lia.
    rewrite Z.pow_add_r, Z.mul_assoc by lia.
    rewrite Z.div_mul; [reflexivity|]. apply Z.pow_nonzero; lia.
  - rewrite Z.shiftr_div_pow2 by lia.
    replace (2 ^ E) with (2 ^ (- Z.neg p) * 2 ^ (Z.neg p + E))
      by (rewrite <- Z.pow_add_r by lia; f_equal; lia).
    rewrite Z.div_mul_cancel_r; [reflexivity| |];
      apply Z.pow_nonzero; lia.
Qed.

(** The quotient of two positive integers below [2 ^ 53] as [a / b]
    computes it: a 53-bit mantissa [mf] at exponent [ef], worth
    [m2 / 2 ^ E], where [m2] is [a * 2 ^ E / b] cut to an integer, or its
    successor when at least half a unit was cut off. *)
Lemma int_true_divide_rounded a b :
  0 < a < 2 ^ 53 -> 0 < b < 2 ^ 53 ->
  exists mf ef E m2,
    int_true_divide a b = Ok (S754_finite false mf ef)
    /\ 0 <= E <= 105
    /\ - E <= ef <= - E + 1
    /\ Zpos mf * 2 ^ (ef + E) = m2
    /\ 2 ^ 52 <= Zpos mf < 2 ^ 53
    /\ 2 ^ 52 <= a * 2 ^ E / b < 2 ^ 53
    /\ (m2 = a * 2 ^ E / b
        \/ (m2 = a * 2 ^ E / b + 1
            /\ b <= 2 * (a * 2 ^ E - a * 2 ^ E / b * b))).
Proof.
  intros Ha Hb. unfold int_true_divide.
  destruct (Z.eqb_spec b 0) as [|_]; [lia|].
  destruct (SFdiv_core_small Ha Hb) as (s & Hs & Hcore & Hq).
  set (m := a * 2 ^ s / b) in *. set (r := (a * 2 ^ s) mod b) in *.
  assert (He : -1000 <= - s <= 899) by lia.
  destruct (binary_round_aux_normal (new_location b r) Hq He)
    as (mf & ef & k & m2 & Hres & Hk & Hef & Hval & Hmf & Hm1 & Hm2).
  assert (Hdiv : fdiv (exact_of_Z a) (exact_of_Z b) = S754_finite false mf ef).
  { destruct a as [|pa|pa], b as [|pb|pb]; try lia.
    unfold fdiv, exact_of_Z, SFdiv. rewrite Hcore. exact Hres. }
  rewrite Hdiv. simpl is_infinite. cbv iota.
  pose proof (Z.div_mod (a * 2 ^ s) b ltac:(lia)) as Hdm.
  pose proof (Z.mod_pos_bound (a * 2 ^ s) b ltac:(lia)) as Hrb.
  fold m r in Hdm, Hrb.
  assert (Em : m / 2 ^ k = a * 2 ^ (s - k) / b).
  { destruct Hk as [-> | ->].
    - rewrite Z.pow_0_r, Z.div_1_r, Z.sub_0_r. reflexivity.
    - unfold m. rewrite Z.pow_1_r, Z.div_div by lia.
      rewrite (@pow2_pred s), (Z.mul_comm 2 (2 ^ (s - 1))) by lia.
      rewrite Z.mul_assoc, Z.div_mul_cancel_r by lia. reflexivity. }
  exists mf, ef, (s - k), m2.
  split; [reflexivity|]. split; [lia|]. split; [lia|].
  split; [rewrite <- Hval; f_equal; f_equal; lia|].
  split; [exact Hmf|]. rewrite <- Em. split; [exact Hm1|].
  destruct Hm2 as [->|[-> Hup]]; [left; reflexivity|].
  right. split; [reflexivity|].
  destruct Hup as [[-> Hl]|[-> Hodd]].
  - apply new_location_up in Hl; [|lia].
    rewrite Z.pow_0_r, Z.div_1_r, Z.sub_0_r. lia.
  - rewrite Z.pow_1_r.
    assert (Em2 : m = 2 * (m / 2) + 1).
    { rewrite (Z.div_mod m 2) at 1 by lia.
      rewrite Zmod_odd, Hodd. reflexivity. }
    pose proof (@pow2_pred s ltac:(lia)) as E2.
    nia.
Qed.

(** [int(a / b)] is the floor of the quotient for two integers below
    [2 ^ 53], the divisor positive and the dividend not negative. *)
Lemma int_true_divide_floor a b :
  0 <= a < 2 ^ 53 -> 0 < b < 2 ^ 53 ->
  exists q, int_true_divide a b = Ok q /\ int_of_float q = Ok (a / b).
Proof.
  intros Ha Hb.
  destruct (Z.eq_dec a 0) as [->|Hna].
  { unfold int_true_divide.
    destruct (Z.eqb_spec b 0) as [|_]; [lia|].
    destruct b as [|pb|pb]; try lia.
    exists (S754_zero false). split; reflexivity. }
  destruct (@int_true_divide_rounded a b ltac:(lia) Hb)
    as (mf & ef & E & m2 & Hq & HE & Hef & Hval & _ & Hm1 & Hm2).
  exists (S754_finite false mf ef). split; [exact Hq|].
  assert (HP : 0 < 2 ^ E) by (apply Z.pow_pos_nonneg; lia).
  rewrite (@int_of_float_scaled mf ef E m2); try lia.
  f_equal.
  apply (@rounded_quotient_floor a b (2 ^ E) (a * 2 ^ E / b) m2);
    try lia.
Qed.

End FloatFacts.

Section ProductFacts.

Import PyNum.

Lemma pow2_xO p : 2 ^ Zpos p~0 = 2 ^ Zpos p * 2 ^ Zpos p.
Proof.
  rewrite <- Z.pow_add_r by lia. f_equal. lia.
Qed.

Lemma pow2_xI p : 2 ^ Zpos p~1 = 2 * (2 ^ Zpos p * 2 ^ Zpos p).
Proof.
  rewrite <- Z.pow_add_r, <- Z.pow_succ_r by lia. f_equal. lia.
Qed.

(** [p] shifts by one divide the mantissa by [2 ^ p]. *)
Lemma iter_shr_1_m p mrs :
  0 <= shr_m mrs ->
  shr_m (iter_pos shr_1 p mrs) = shr_m mrs / 2 ^ Zpos p.
Proof.
  revert mrs.
  induction p as [p IH|p IH|]; intros mrs Hm; simpl iter_pos.
  - destruct (shr_1_spec mrs Hm) as [H1 _].
    assert (Hp : 0 < 2 ^ Zpos p) by (apply Z.pow_pos_nonneg; lia).
    assert (H0 : 0 <= shr_m (shr_1 mrs)) by (rewrite H1; apply Z.div_pos; lia).
    assert (H2 : 0 <= shr_m (iter_pos shr_1 p (shr_1 mrs)))
      by (rewrite IH by exact H0; apply Z.div_pos; lia).
    rewrite IH by exact H2. rewrite IH by exact H0. rewrite H1.
    rewrite !Z.div_div by lia. rewrite pow2_xI. reflexivity.
  - assert (Hp : 0 < 2 ^ Zpos p) by (apply Z.pow_pos_nonneg; lia).
    assert (H2 : 0 <= shr_m (iter_pos shr_1 p mrs))
      by (rewrite IH by exact Hm; apply Z.div_pos; lia).
    rewrite IH by exact H2. rewrite IH by exact Hm.
    rewrite !Z.div_div by lia. rewrite pow2_xO. reflexivity.
  - destruct (shr_1_spec mrs Hm) as [H1 _]. rewrite H1. reflexivity.
Qed.

(** Rounding an exact mantissa of more than 53 bits: the result is the
    mantissa cut to 53 bits or its successor. *)
Lemma binary_round_aux_wide M ex :
  2 ^ 53 <= M -> -1000 <= ex -> ex + Zdigits2 M <= 900 ->
  exists mf ef m3,
    binary_round_aux prec emax false M ex loc_Exact = S754_finite false mf ef
    /\ let n := Zdigits2 M - 53 in
       0 < n
       /\ M / 2 ^ n <= m3 <= M / 2 ^ n + 1
       /\ ex + n <= ef <= ex + n + 1
       /\ Zpos mf * 2 ^ (ef - (ex + n)) = m3.
Proof.
  intros HM Hex Htop.
  pose proof (@Zdigits2_bounds M ltac:(lia)) as HD.
  set (d := Zdigits2 M) in *.
  assert (Hd : 54 <= d).
  { destruct (Z_lt_le_dec d 54) as [Hlt|]; [|assumption].
    assert (2 ^ d <= 2 ^ 53) by (apply Z.pow_le_mono_r; lia). lia. }
  unfold binary_round_aux, shr_fexp. fold d.
  rewrite fexp_normal by lia.
  replace (d + ex - 53 - ex) with (d - 53) by lia.
  destruct (d - 53) as [|n|n] eqn:En; try lia.
  cbn [shr].
  set (mrs := iter_pos shr_1 n (shr_record_of_loc M loc_Exact)).
  assert (Hm1 : shr_m mrs = M / 2 ^ Zpos n)
    by (unfold mrs; rewrite iter_shr_1_m; simpl; [reflexivity|lia]).
  assert (Hpow : 2 ^ Zpos n * 2 ^ 52 = 2 ^ (d - 1)
                 /\ 2 ^ Zpos n * 2 ^ 53 = 2 ^ d).
  { rewrite <- !Z.pow_add_r by lia. split; f_equal; lia. }
  destruct Hpow as [Hp1 Hp2].
  assert (Hn : 0 < 2 ^ Zpos n) by (apply Z.pow_pos_nonneg; lia).
  assert (Hr : 2 ^ 52 <= M / 2 ^ Zpos n < 2 ^ 53).
  { split.
    - apply Z.div_le_lower_bound; lia.
    - apply Z.div_lt_upper_bound; lia. }
  rewrite Hm1.
  set (m3 := round_nearest_even (M / 2 ^ Zpos n) (loc_of_shr_record mrs)).
  assert (Hm3 : M / 2 ^ Zpos n <= m3 <= M / 2 ^ Zpos n + 1).
  { unfold m3.
    destruct (round_nearest_even_cases (M / 2 ^ Zpos n)
                (loc_of_shr_record mrs)) as [->|[-> _]]; lia. }
  assert (Hb3 : 2 ^ 52 <= m3 <= 2 ^ 53) by lia.
  assert (He3 : -1000 <= ex + Zpos n <= 900) by lia.
  destruct (shr_fexp_second Hb3 He3) as (mf & ef & Hres & Hef & Hval & _).
  exists mf, ef, m3. split; [exact Hres|].
  cbv zeta. repeat split; lia.
Qed.

(** Two faithful roundings keep the integer part of a percentage within
    one below the exact floor. *)
Lemma percent_floor_bounds a b P K m2 m3 :
  0 < a <= b -> b <= 2 ^ 43 -> 2 ^ 52 <= P -> 2 ^ 44 <= K ->
  a * P / b <= m2 <= a * P / b + 1 ->
  (m3 - 1) * P <= 100 * m2 * K < (m3 + 1) * P ->
  100 * a / b - 1 <= m3 / K <= 100 * a / b.
Proof.
  intros Ha Hb HP HK Hm2 Hm3.
  assert (Hb0 : 0 < b) by lia.
  pose proof (Z.div_mod (a * P) b ltac:(lia)) as HaP.
  pose proof (Z.mod_pos_bound (a * P) b Hb0) as Hr.
  pose proof (Z.div_mod (100 * a) b ltac:(lia)) as HF.
  pose proof (Z.mod_pos_bound (100 * a) b Hb0) as Ht.
  set (m1 := a * P / b) in *. set (r := (a * P) mod b) in *.
  set (F := 100 * a / b) in *. set (t := (100 * a) mod b) in *.
  change (2 ^ 43) with 8796093022208 in Hb.
  change (2 ^ 52) with 4503599627370496 in HP.
  change (2 ^ 44) with 17592186044416 in HK.
  assert (HK0 : 0 < K) by lia. assert (HP0 : 0 < P) by lia.
  assert (HKP : 0 < K * P) by (apply Z.mul_pos_pos; lia).
  assert (HPb : 0 < P * b) by (apply Z.mul_pos_pos; lia).
  assert (HKb : 0 < K * b) by (apply Z.mul_pos_pos; lia).
  (* the two roundings, cleared of divisions *)
  assert (U1 : m2 * b <= a * P + b).
  { replace (a * P + b) with ((m1 + 1) * b + r) by lia.
    assert (m2 * b <= (m1 + 1) * b)
      by (apply Z.mul_le_mono_nonneg_r; lia). lia. }
  assert (U2 : a * P - b + 1 <= m2 * b).
  { assert (m1 * b <= m2 * b) by (apply Z.mul_le_mono_nonneg_r; lia). lia. }
  assert (V1 : (m3 - 1) * P * b <= 100 * K * (m2 * b)).
  { replace (100 * K * (m2 * b)) with (100 * m2 * K * b) by ring.
    apply Z.mul_le_mono_nonneg_r; lia. }
  assert (V2 : 100 * K * (m2 * b) < (m3 + 1) * P * b).
  { replace (100 * K * (m2 * b)) with (100 * m2 * K * b) by ring.
    apply Z.mul_lt_mono_pos_r; lia. }
  assert (W1 : 100 * K * (m2 * b) <= 100 * K * (a * P + b))
    by (apply Z.mul_le_mono_nonneg_l; lia).
  assert (W2 : 100 * K * (a * P - b + 1) <= 100 * K * (m2 * b))
    by (apply Z.mul_le_mono_nonneg_l; lia).
  assert (X : 100 * K * (a * P) = K * P * b * F + K * P * t).
  { replace (100 * K * (a * P)) with (K * P * (100 * a)) by ring.
    rewrite HF. ring. }
  assert (T1 : 0 <= K * P * t) by (apply Z.mul_nonneg_nonneg; lia).
  assert (T2 : K * P * t <= K * P * (b - 1))
    by (apply Z.mul_le_mono_nonneg_l; lia).
  split.
  - apply Z.div_le_lower_bound; [lia|].
    destruct (Z_le_gt_dec (K * (F - 1)) m3) as [|Hlt]; [assumption|].
    exfalso.
    assert (Y : (m3 + 1) * (P * b) <= K * (F - 1) * (P * b))
      by (apply Z.mul_le_mono_nonneg_r; lia).
    assert (Z1 : K * b * P < K * b * 100).
    { replace (K * (F - 1) * (P * b))
        with (K * P * b * F - K * b * P) in Y by ring.
      replace ((m3 + 1) * (P * b)) with ((m3 + 1) * P * b) in Y by ring.
      replace (100 * K * (a * P - b + 1))
        with (100 * K * (a * P) - K * b * 100 + 100 * K) in W2 by ring.
      lia. }
    apply Z.mul_lt_mono_pos_l in Z1; lia.
  - enough (m3 / K < F + 1) by lia.
    apply Z.div_lt_upper_bound; [lia|].
    destruct (Z_lt_le_dec m3 (K * (F + 1))) as [|Hge]; [assumption|].
    exfalso.
    assert (Y : (K * (F + 1) - 1) * (P * b) <= (m3 - 1) * (P * b))
      by (apply Z.mul_le_mono_nonneg_r; lia).
    (* K * P <= b * (P + 100 * K), impossible for these magnitudes *)
    assert (Z1 : K * P <= P * b + 100 * (K * b)).
    { replace ((K * (F + 1) - 1) * (P * b))
        with (K * P * b * F + K * P * b - P * b) in Y by ring.
      replace ((m3 - 1) * (P * b)) with ((m3 - 1) * P * b) in Y by ring.
      replace (100 * K * (a * P + b))
        with (100 * K * (a * P) + 100 * (K * b)) in W1 by ring.
      replace (K * P * (b - 1)) with (K * P * b - K * P) in T2 by ring.
      lia. }
    assert (Z2 : P * b <= P * 8796093022208)
      by (apply Z.mul_le_mono_nonneg_l; lia).
    assert (Z3 : K * b <= K * 8796093022208)
      by (apply Z.mul_le_mono_nonneg_l; lia).
    assert (Z4 : 17592186044416 * P <= K * P)
      by (apply Z.mul_le_mono_nonneg_r; lia).
    assert (Z5 : K * 4503599627370496 <= K * P)
      by (apply Z.mul_le_mono_nonneg_l; lia).
    lia.
Qed.

Lemma hundred_float :
  float_of_int 100 = Ok (S754_finite false 7036874417766400 (-46)).
Proof. reflexivity. Qed.

(** The score of a run with points at stake: for
    [0 <= points_lost <= total_points <= 2 ^ 43] the computation raises
    nothing and its result is the floor of the exact percentage or one
    less. *)
Lemma score_of_bounds tp pl :
  0 <= pl <= tp -> 0 < tp <= 2 ^ 43 ->
  exists s,
    Score.score_of tp pl = Ok s
    /\ 0 <= s <= 100
    /\ (tp - pl) * 100 / tp - 1 <= s <= (tp - pl) * 100 / tp.
Proof.
  intros Hpl Htp. unfold Score.score_of.
  destruct (Z.eqb_spec tp 0) as [|_]; [lia|].
  set (a := tp - pl). set (b := tp).
  assert (Ha : 0 <= a <= b) by (unfold a, b; lia).
  assert (Hb : 0 < b <= 2 ^ 43) by (unfold b; lia).
  assert (HF : 0 <= a * 100 / b <= 100).
  { split; [apply Z.div_pos; lia|].
    apply Z.div_le_upper_bound; lia. }
  destruct (Z.eq_dec a 0) as [E0|Hna].
  { rewrite E0. unfold int_true_divide.
    destruct (Z.eqb_spec b 0) as [|_]; [lia|].
    destruct b as [|pb|pb]; try lia.
    exists 0. split; [reflexivity|]. rewrite E0 in HF. simpl in *. lia. }
  assert (Hb53 : 0 < b < 2 ^ 53) by (simpl in *; lia).
  assert (Ha53 : 0 < a < 2 ^ 53) by lia.
  destruct (int_true_divide_rounded Ha53 Hb53)
    as (mf & ef & E & m2 & -> & HE & Hef & Hval & Hmf & Hm1 & Hm2).
  cbn [rbind]. rewrite hundred_float. cbn [rbind].
  set (P := 2 ^ E) in *.
  assert (HP0 : 0 < P) by (apply Z.pow_pos_nonneg; lia).
  (* the quotient is at most one, so [E] is at least 52 *)
  assert (HmP : a * P / b <= P).
  { apply Z.div_le_upper_bound; [lia|].
    apply Z.mul_le_mono_nonneg_r; lia. }
  assert (HE52 : 52 <= E).
  { destruct (Z_lt_le_dec E 52) as [Hlt|]; [|assumption].
    assert (2 ^ E <= 2 ^ 51) by (apply Z.pow_le_mono_r; lia).
    fold P in H. simpl in *. lia. }
  assert (HP52 : 2 ^ 52 <= P) by (apply Z.pow_le_mono_r; lia).
  (* the product by 100 *)
  set (M := Zpos mf * 7036874417766400).
  assert (HM : 2 ^ 104 <= M < 2 ^ 106) by (unfold M; simpl in *; lia).
  assert (HdM : 105 <= Zdigits2 M <= 106).
  { pose proof (@Zdigits2_bounds M ltac:(simpl in *; lia)) as HD.
    split.
    - destruct (Z_lt_le_dec (Zdigits2 M) 105) as [Hlt|]; [|assumption].
      assert (2 ^ Zdigits2 M <= 2 ^ 104) by (apply Z.pow_le_mono_r; lia).
      lia.
    - destruct (Z_lt_le_dec 106 (Zdigits2 M)) as [Hlt|]; [|lia].
      assert (2 ^ 106 <= 2 ^ (Zdigits2 M - 1))
        by (apply Z.pow_le_mono_r; lia).
      lia. }
  assert (Hmul : fmul (S754_finite false mf ef)
                      (S754_finite false 7036874417766400 (-46))
                 = binary_round_aux prec emax false M (ef + -46) loc_Exact)
    by reflexivity.
  rewrite Hmul.
  destruct (@binary_round_aux_wide M (ef + -46))
    as (mf' & ef' & m3 & -> & Hn & Hm3 & Hef' & Hval');
    try (simpl in *; lia).
  set (n := Zdigits2 M - 53) in *.
  set (G := 46 - ef - n).
  assert (HG : 44 <= G) by (unfold G, n; lia).
  rewrite (@int_of_float_scaled mf' ef' G m3); try (unfold G; lia).
  2:{ rewrite <- Hval'. f_equal. f_equal. unfold G. lia. }
  set (K := 2 ^ G).
  assert (HK : 2 ^ 44 <= K) by (apply Z.pow_le_mono_r; lia).
  assert (HK0 : 0 < K) by (simpl in HK; lia).
  assert (Hn0 : 0 < 2 ^ n) by (apply Z.pow_pos_nonneg; lia).
  (* [100 * m2 * K * 2 ^ n = M * P] *)
  assert (Hrel : 100 * m2 * K * 2 ^ n = M * P).
  { unfold M, K, P. rewrite <- Hval.
    change 7036874417766400 with (100 * 2 ^ 46).
    replace (100 * (Zpos mf * 2 ^ (ef + E)) * 2 ^ G * 2 ^ n)
      with (100 * Zpos mf * (2 ^ (ef + E) * 2 ^ G * 2 ^ n)) by ring.
    replace (Zpos mf * (100 * 2 ^ 46) * 2 ^ E)
      with (100 * Zpos mf * (2 ^ 46 * 2 ^ E)) by ring.
    f_equal. rewrite <- !Z.pow_add_r by (unfold G; lia).
    f_equal. unfold G. lia. }
  pose proof (Z.div_mod M (2 ^ n) ltac:(lia)) as HMn.
  pose proof (Z.mod_pos_bound M (2 ^ n) Hn0) as HMr.
  assert (Hbr : (m3 - 1) * P <= 100 * m2 * K < (m3 + 1) * P).
  { assert (L1 : (m3 - 1) * 2 ^ n <= M).
    { assert ((m3 - 1) * 2 ^ n <= M / 2 ^ n * 2 ^ n)
        by (apply Z.mul_le_mono_nonneg_r; lia). lia. }
    assert (L2 : M < (m3 + 1) * 2 ^ n).
    { assert ((M / 2 ^ n + 1) * 2 ^ n <= (m3 + 1) * 2 ^ n)
        by (apply Z.mul_le_mono_nonneg_r; lia). lia. }
    split.
    - apply (Z.mul_le_mono_pos_r _ _ (2 ^ n) Hn0).
      rewrite Hrel.
      replace ((m3 - 1) * P * 2 ^ n) with ((m3 - 1) * 2 ^ n * P) by ring.
      apply Z.mul_le_mono_nonneg_r; lia.
    - apply (Z.mul_lt_mono_pos_r (2 ^ n) _ _ Hn0).
      rewrite Hrel.
      replace ((m3 + 1) * P * 2 ^ n) with ((m3 + 1) * 2 ^ n * P) by ring.
      apply Z.mul_lt_mono_pos_r; lia. }
  assert (Hm2' : a * P / b <= m2 <= a * P / b + 1)
    by (destruct Hm2 as [->|[-> _]]; lia).
  pose proof (@percent_floor_bounds a b P K m2 m3 ltac:(lia) ltac:(lia)
                HP52 HK Hm2' Hbr) as Hres.
  rewrite (Z.mul_comm 100 a) in Hres.
  exists (m3 / K). split; [reflexivity|].
  assert (0 <= m3 / K) by (apply Z.div_pos; lia).
  lia.
Qed.

(** With no negative custom weight and at most [2 ^ 43] points at
    stake, the calculator raises nothing and the score is between 0 and
    100, the floor of the exact percentage or one less. *)
Lemma calculate_returns defs res hc :
  Score.nonneg_custom_weights defs ->
  Score.total_points_of (Score.slo_objects defs res hc) <= 2 ^ 43 ->
  exists s,
    Score.calculate_resiliency_score defs res hc
    = Ok (s, Score.breakdown_of (Score.slo_objects defs res hc))
    /\ 0 <= s <= 100.
Proof.
  intros Hw Htp. unfold Score.calculate_resiliency_score.
  pose proof (points_bounds (slo_objects_nonneg res hc Hw)) as Hb.
  set (objs := Score.slo_objects defs res hc) in *.
  destruct (Z.eq_dec (Score.total_points_of objs) 0) as [E|Hne].
  - rewrite E. exists 0. split; [reflexivity | lia].
  - destruct (@score_of_bounds (Score.total_points_of objs)
                (Score.points_lost_of objs) ltac:(lia) ltac:(lia))
      as (s & -> & Hs & _).
    exists s. split; [reflexivity | exact Hs].
Qed.

End ProductFacts.

(** * Properties of the weighted average *)

Section AverageFacts.

Import Score Resiliency AverageSpec.

Lemma sum_from_ints acc reports :
  integer_weights reports ->
  PyNum.sum_from (PyNum.PInt acc) (map rep_weight reports)
  = Ok (PyNum.PInt (acc + total_weight reports)).
Proof.
  unfold total_weight. intro H. revert acc.
  induction H as [|rep reports Hrep _ IH]; intro acc; simpl.
  - unfold zsum. simpl. now rewrite Z.add_0_r.
  - rewrite Hrep. simpl. rewrite IH, zsum_cons. do 2 f_equal. lia.
Qed.

Lemma sum_products_ints acc reports :
  integer_weights reports ->
  sum_products (PyNum.PInt acc) reports
  = Ok (PyNum.PInt (acc + weighted_scores reports)).
Proof.
  unfold weighted_scores. intro H. revert acc.
  induction H as [|rep reports Hrep _ IH]; intro acc; simpl.
  - unfold zsum. simpl. now rewrite Z.add_0_r.
  - rewrite Hrep. simpl. rewrite IH, zsum_cons. do 2 f_equal. lia.
Qed.

Lemma weighted_average_ints reports :
  integer_weights reports ->
  weighted_average reports
  = rbind (PyNum.int_true_divide (weighted_scores reports)
                                 (total_weight reports))
          PyNum.int_of_float.
Proof.
  intro H. unfold weighted_average, PyNum.sum.
  rewrite (sum_from_ints 0 H), (sum_products_ints 0 H). reflexivity.
Qed.

(** On integer weights within the exactly representable range the code
    computes the floor of the weighted average. *)
Lemma weighted_average_floor reports :
  integer_weights reports ->
  0 < total_weight reports < 2 ^ 53 ->
  0 <= weighted_scores reports < 2 ^ 53 ->
  weighted_average reports
  = Ok (weighted_scores reports / total_weight reports).
Proof.
  intros H HW HS. rewrite (weighted_average_ints H).
  destruct (int_true_divide_floor HS HW) as (q & -> & Hq). exact Hq.
Qed.

Lemma weighted_average_zero_weight reports :
  integer_weights reports ->
  total_weight reports = 0 ->
  weighted_average reports = Raise ZeroDivisionError.
Proof.
  intros H HW. rewrite (weighted_average_ints H), HW. reflexivity.
Qed.

End AverageFacts.

Section SpecAverageFacts.

Import Score Resiliency AverageSpec.
Import QArith_base.
Local Open Scope Z_scope.

Lemma spec_sums_ints reports :
  integer_weights reports ->
  exists num den,
    spec_sums reports = Some (num, den)
    /\ Qeq num (inject_Z (weighted_scores reports))
    /\ Qeq den (inject_Z (total_weight reports)).
Proof.
  unfold weighted_scores, total_weight.
  induction 1 as [|rep reports Hrep _ (num & den & Hs & Hn & Hd)].
  - exists (inject_Z 0), (inject_Z 0). repeat split; reflexivity.
  - simpl. rewrite Hrep, Hs. simpl.
    eexists. eexists. split; [reflexivity|].
    rewrite !zsum_cons, !inject_Z_plus, inject_Z_mult, Hn, Hd.
    split; reflexivity.
Qed.

Lemma Qfloor_inject_div (n d : Z) :
  0 < d -> Qround.Qfloor (Qdiv (inject_Z n) (inject_Z d)) = n / d.
Proof.
  intro Hd. destruct d as [|p|p]; try lia.
  unfold Qdiv, Qinv, inject_Z, Qmult, Qround.Qfloor. simpl.
  rewrite Z.mul_1_r. reflexivity.
Qed.

(** On integer weights with a positive total the specification's value
    is the integer quotient of the two sums. *)
Lemma spec_resiliency_score_ints reports :
  integer_weights reports ->
  0 < total_weight reports ->
  spec_resiliency_score reports
  = Some (weighted_scores reports / total_weight reports).
Proof.
  intros H HW. unfold spec_resiliency_score.
  destruct (spec_sums_ints H) as (num & den & -> & Hn & Hd).
  destruct (Qeq_bool den (inject_Z 0)) eqn:E.
  - apply Qeq_bool_eq in E. rewrite Hd in E.
    unfold Qeq in E. simpl in E. lia.
  - f_equal. rewrite <- (Qfloor_inject_div _ HW).
    apply Qround.Qfloor_comp. rewrite Hn, Hd. reflexivity.
Qed.

End SpecAverageFacts.

(** C3, as stated, fails for a weight that is a float: one report with
    score 3 and weight 0.7 (the binary64 number
    [6305039478318694 * 2 ^ -53]) has the weighted average 3 exactly, yet
    the product 3 * 0.7 is rounded, its quotient by 0.7 is
    2.9999999999999996, and the code yields 2. *)
Lemma weighted_average_float_weight_counterexample :
  let rep := Resiliency.mkReport "node-outage" "2024-01-01T00:00:00"
               "2024-01-01T00:10:00" 3
               (PyNum.PFloat (S754_finite false 6305039478318694 (-53)))
               (Score.mkBreakdown 100 97 3 97) [] [] in
  Resiliency.weighted_average [rep] = Ok 2
  /\ AverageSpec.spec_resiliency_score [rep] = Some 3.
Proof. split; vm_compute; reflexivity. Qed.

Section FinalizeFacts.

Import Score Resiliency AverageSpec.

Variable datetime : Type.
Variable evaluate_slos :
  nat -> list slo -> datetime -> datetime -> result (PyDict.t bool).

(** C3, amended: [finalize_report] raises [RuntimeError] when no scenario
    report was added. When the reports carry integer weights whose sum
    [W] is positive and whose weighted score sum [S] is not negative,
    both below [2 ^ 53], the averaging step yields
    [floor(S / W)], the value of the specification's formula, and a
    finalisation that returns has stored it as [resiliency_score]; it
    returns whenever the full-window evaluation and scoring succeed. Two
    reports with scores 100 and 50 and weights 1 and 3 average to 62. *)
Theorem finalize_weighted_floor
        (total_start_time total_end_time : datetime) (st : state) :
  let reports := scenario_reports (self st) in
  integer_weights reports ->
  0 < total_weight reports < 2 ^ 53 ->
  0 <= weighted_scores reports < 2 ^ 53 ->
  (forall st0,
      scenario_reports (self st0) = [] ->
      finalize_report evaluate_slos total_start_time total_end_time st0
      = (st0, Raise (RuntimeError
                       "No scenario reports added - nothing to finalize")))
  /\ weighted_average reports
     = Ok (weighted_scores reports / total_weight reports)
  /\ spec_resiliency_score reports
     = Some (weighted_scores reports / total_weight reports)
  /\ (forall st',
        finalize_report evaluate_slos total_start_time total_end_time st
        = (st', Ok tt) ->
        exists sm,
          summary (self st') = Bound (Some sm)
          /\ resiliency_score sm
             = weighted_scores reports / total_weight reports)
  /\ (forall results sc bd,
        evaluate_slos (prom_calls (the_world st)) (_slos (self st))
                      total_start_time total_end_time = Ok results ->
        calculate_resiliency_score (slo_defs (_slos (self st))) results
                                   PyDict.empty = Ok (sc, bd) ->
        snd (finalize_report evaluate_slos total_start_time total_end_time st)
        = Ok tt)
  /\ (forall r1 r2,
        rep_score r1 = 100 -> rep_weight r1 = PyNum.PInt 1 ->
        rep_score r2 = 50 -> rep_weight r2 = PyNum.PInt 3 ->
        weighted_average [r1; r2] = Ok 62).
Proof.
  intros reports Hint HW HS.
  pose proof (weighted_average_floor Hint HW HS) as Havg.
  split.
  { intros st0 H0. rewrite finalize_report_run, H0. reflexivity. }
  split; [exact Havg|].
  split; [apply spec_resiliency_score_ints; [exact Hint|lia]|].
  assert (Hne : exists r rs, scenario_reports (self st) = r :: rs).
  { subst reports. destruct (scenario_reports (self st)) as [|r rs]; eauto.
    unfold total_weight, zsum in HW. simpl in HW. lia. }
  destruct Hne as (r & rs & Hrs).
  split.
  - intro st'. rewrite finalize_report_run.
    subst reports. rewrite Hrs in *. rewrite Havg.
    destruct (evaluate_slos _ _ _ _) as [results|e]; [|discriminate].
    destruct (calculate_resiliency_score _ _ _) as [[sc bd]|e];
      [|discriminate].
    cbv zeta. intro H. inversion H; subst. eexists. split; reflexivity.
  - split.
    + intros results sc bd He Hc. rewrite finalize_report_run.
      subst reports. rewrite Hrs in *. rewrite Havg, He, Hc. reflexivity.
    + intros r1 r2 Hs1 Hw1 Hs2 Hw2.
      unfold weighted_average, PyNum.sum. simpl.
      rewrite Hs1, Hw1, Hs2, Hw2. vm_compute. reflexivity.
Qed.

End FinalizeFacts.

Lemma finalize_weighted_floor_witness :
  Resiliency.weighted_average
    [Resiliency.mkReport "pod-kill" "2024-01-01T00:00:00"
       "2024-01-01T00:10:00" 100 (PyNum.PInt 1)
       (Score.mkBreakdown 4 0 2 0) [] [];
     Resiliency.mkReport "node-outage" "2024-01-01T00:10:00"
       "2024-01-01T00:20:00" 50 (PyNum.PInt 3)
       (Score.mkBreakdown 4 2 1 1) [] []]
  = Ok 62.
Proof.
  refine (proj1 (proj2 (@finalize_weighted_floor Z
            (fun _ _ (_ _ : Z) => Ok []) 0 1200
            (Resiliency.mkState
               (Resiliency.mkWorld 0 "" false [] (fun _ => true) [])
               (Resiliency.mkObject [] [] None None []
                  [Resiliency.mkReport "pod-kill" "2024-01-01T00:00:00"
                     "2024-01-01T00:10:00" 100 (PyNum.PInt 1)
                     (Score.mkBreakdown 4 0 2 0) [] [];
                   Resiliency.mkReport "node-outage" "2024-01-01T00:10:00"
                     "2024-01-01T00:20:00" 50 (PyNum.PInt 3)
                     (Score.mkBreakdown 4 2 1 1) [] []]
                  (Resiliency.Bound None) (Resiliency.Bound None)))
            _ _ _))).
  - repeat constructor.
  - vm_compute. split; reflexivity.
  - vm_compute. split; [discriminate | reflexivity].
Defined.

(** * Further properties of the score calculator *)

Section ScoreRangeFacts.
Import PyNum Score.

Lemma int_true_divide_self a :
  0 < a < 2 ^ 53 ->
  int_true_divide a a = Ok (S754_finite false 4503599627370496 (-52)).
Proof.
  intro Ha.
  destruct (@int_true_divide_rounded a a Ha Ha)
    as (mf & ef & E & m2 & Hq & HE & Hef & Hval & Hmf & Hm1 & Hm2).
  rewrite Hq.
  assert (HaE : a * 2 ^ E / a = 2 ^ E).
  { rewrite Z.mul_comm. apply Z.div_mul. lia. }
  rewrite HaE in *.
  assert (E = 52).
  { destruct (Z.lt_trichotomy E 52) as [H|[H|H]]; [|exact H|].
    - assert (2 ^ E <= 2 ^ 51) by (apply Z.pow_le_mono_r; lia).
      change (2 ^ 51) with 2251799813685248 in *.
      change (2 ^ 52) with 4503599627370496 in *. lia.
    - assert (2 ^ 53 <= 2 ^ E) by (apply Z.pow_le_mono_r; lia). lia. }
  subst E.
  assert (Hm : m2 = 2 ^ 52) by nia.
  rewrite Hm in Hval. clear Hm2 HaE Hm1.
  change (2 ^ 52) with 4503599627370496 in *.
  change (2 ^ 53) with 9007199254740992 in *.
  assert (ef = -52 \/ ef = -51) as [-> | ->] by lia.
  - change (2 ^ (-52 + 52)) with 1 in Hval.
    assert (Hp : Zpos mf = Zpos 4503599627370496) by lia.
    inversion Hp. reflexivity.
  - exfalso. change (2 ^ (-51 + 52)) with 2 in Hval. lia.
Qed.

Lemma score_of_nothing_lost tp :
  0 < tp < 2 ^ 53 -> score_of tp 0 = Ok 100.
Proof.
  intro H. unfold score_of.
  destruct (Z.eqb_spec tp 0) as [|_]; [lia|].
  rewrite Z.sub_0_r, (int_true_divide_self H). vm_compute. reflexivity.
Qed.

Lemma score_of_all_lost tp : score_of tp tp = Ok 0.
Proof.
  unfold score_of. destruct (Z.eqb_spec tp 0) as [|Hne]; [reflexivity|].
  rewrite Z.sub_diag. unfold int_true_divide.
  destruct (Z.eqb_spec tp 0) as [|_]; [contradiction|].
  destruct tp as [|p|p]; [contradiction| |]; reflexivity.
Qed.


Lemma filter_all {A} (p : A -> bool) (xs : list A) :
  Forall (fun x => p x = true) xs -> filter p xs = xs.
Proof.
  induction 1 as [|x xs Hx _ IH]; simpl; [reflexivity|].
  now rewrite Hx, IH.
Qed.

Lemma filter_none {A} (p : A -> bool) (xs : list A) :
  Forall (fun x => p x = false) xs -> filter p xs = [].
Proof.
  induction 1 as [|x xs Hx _ IH]; simpl; [reflexivity|].
  now rewrite Hx.
Qed.

Lemma zsum_perm xs ys : Permutation xs ys -> zsum xs = zsum ys.
Proof.
  induction 1 as [|x xs ys _ IH|x y xs|xs ys zs _ IH1 _ IH2].
  - reflexivity.
  - rewrite !zsum_cons. lia.
  - rewrite !zsum_cons. lia.
  - congruence.
Qed.

Lemma filter_perm {A} (p : A -> bool) xs ys :
  Permutation xs ys -> Permutation (filter p xs) (filter p ys).
Proof.
  induction 1 as [|x xs ys _ IH|x y xs|xs ys zs _ IH1 _ IH2]; simpl.
  - constructor.
  - destruct (p x); [now constructor | exact IH].
  - destruct (p x), (p y); try apply Permutation_refl. apply perm_swap.
  - eapply perm_trans; eassumption.
Qed.

Lemma definition_objects_perm defs defs' res :
  Permutation defs defs' ->
  Permutation (definition_objects defs res) (definition_objects defs' res).
Proof.
  induction 1 as [|[k d] xs ys _ IH|[k d] [k' d'] xs|xs ys zs _ IH1 _ IH2];
    simpl.
  - constructor.
  - destruct (PyDict.get res k); [now constructor | exact IH].
  - destruct (PyDict.get res k), (PyDict.get res k');
      try apply Permutation_refl. apply perm_swap.
  - eapply perm_trans; eassumption.
Qed.

Lemma breakdown_of_perm objs objs' :
  Permutation objs objs' ->
  total_points_of objs = total_points_of objs'
  /\ points_lost_of objs = points_lost_of objs'
  /\ breakdown_of objs = breakdown_of objs'.
Proof.
  intro H.
  assert (Ht : total_points_of objs = total_points_of objs').
  { unfold total_points_of. apply zsum_perm. now apply Permutation_map. }
  assert (Hl : points_lost_of objs = points_lost_of objs').
  { unfold points_lost_of. apply zsum_perm, Permutation_map.
    now apply filter_perm. }
  split; [exact Ht|]. split; [exact Hl|].
  unfold breakdown_of. rewrite Ht, Hl.
  rewrite (Permutation_length (filter_perm passed H)).
  rewrite (Permutation_length
             (filter_perm (fun s => negb (passed s)) H)).
  reflexivity.
Qed.

Lemma definition_objects_ext defs res res' :
  (forall k, In k (PyDict.keys defs) -> PyDict.get res' k = PyDict.get res k) ->
  definition_objects defs res' = definition_objects defs res.
Proof.
  unfold PyDict.keys.
  induction defs as [|[k d] defs IH]; simpl; intro H; [reflexivity|].
  rewrite (H k) by now left.
  rewrite IH by (intros k' Hk'; apply H; now right). reflexivity.
Qed.

End ScoreRangeFacts.

(** X1: with no negative custom weight and at most [2 ^ 43] points at
    stake the calculator raises nothing and returns the breakdown of the
    included [SLOResult]s; the score lies between 0 and 100, is 0 when no
    point is at stake, and otherwise is the floor of the exact percentage
    of the points kept, or one less. *)
Theorem score_is_a_percentage
        (defs : PyDict.t Score.slo_def) (res : PyDict.t bool)
        (hc : PyDict.t Score.hc_value) :
  Score.nonneg_custom_weights defs ->
  Score.total_points_of (Score.slo_objects defs res hc) <= 2 ^ 43 ->
  let objs := Score.slo_objects defs res hc in
  let tp := Score.total_points_of objs in
  let pl := Score.points_lost_of objs in
  exists s,
    Score.calculate_resiliency_score defs res hc
    = Ok (s, Score.breakdown_of objs)
    /\ 0 <= s <= 100
    /\ (tp = 0 -> s = 0)
    /\ (0 < tp -> (tp - pl) * 100 / tp - 1 <= s <= (tp - pl) * 100 / tp).
Proof.
  intros Hw Htp objs tp pl.
  unfold Score.calculate_resiliency_score. fold objs. fold tp. fold pl.
  pose proof (points_bounds (slo_objects_nonneg res hc Hw)) as Hb.
  fold objs in Hb. fold tp pl in Hb.
  destruct (Z.eq_dec tp 0) as [E|Hne].
  - rewrite E. exists 0. repeat split; lia.
  - destruct (@score_of_bounds tp pl ltac:(lia) ltac:(subst tp objs; lia))
      as (s & -> & Hs & Hf).
    exists s. repeat split; lia.
Qed.

Lemma score_is_a_percentage_witness :
  exists s,
    Score.calculate_resiliency_score
      [("a", Score.DefStr "critical"); ("b", Score.DefStr "warning")]
      [("a", true); ("b", false)] []
    = Ok (s, Score.mkBreakdown 4 1 1 1)
    /\ 0 <= s <= 100.
Proof.
  destruct (@score_is_a_percentage
              [("a", Score.DefStr "critical"); ("b", Score.DefStr "warning")]
              [("a", true); ("b", false)] [])
    as (s & Hs & Hr & _).
  - repeat constructor.
  - vm_compute. discriminate.
  - exists s. split; [exact Hs | exact Hr].
Defined.

(** X2: under the same bounds and with points at stake, the returned
    score is 100 exactly when no point was lost. *)
Theorem perfect_score_iff_nothing_lost
        (defs : PyDict.t Score.slo_def) (res : PyDict.t bool)
        (hc : PyDict.t Score.hc_value) (s : Z) (bd : Score.Breakdown) :
  Score.nonneg_custom_weights defs ->
  0 < Score.total_points_of (Score.slo_objects defs res hc) <= 2 ^ 43 ->
  Score.calculate_resiliency_score defs res hc = Ok (s, bd) ->
  (s = 100 <-> Score.points_lost bd = 0).
Proof.
  intros Hw Htp H.
  pose proof (points_bounds (slo_objects_nonneg res hc Hw)) as Hb.
  apply calculate_breakdown in H. destruct H as [-> Hs]. simpl in *.
  set (tp := Score.total_points_of _) in *.
  set (pl := Score.points_lost_of _) in *.
  split.
  - intros ->.
    destruct (@score_of_bounds tp pl ltac:(lia) ltac:(lia))
      as (s' & Hs' & _ & Hf).
    rewrite Hs in Hs'. inversion Hs'; subst s'.
    destruct (Z.eq_dec pl 0) as [|Hne]; [assumption|exfalso].
    assert ((tp - pl) * 100 / tp < 100); [|lia].
    apply Z.div_lt_upper_bound; lia.
  - intro E. rewrite E in Hs.
    rewrite score_of_nothing_lost in Hs; [congruence|].
    change (2 ^ 43) with 8796093022208 in Htp.
    change (2 ^ 53) with 9007199254740992. lia.
Qed.

Lemma perfect_score_iff_nothing_lost_witness :
  100 = 100 <-> Score.points_lost (Score.mkBreakdown 4 0 2 0) = 0.
Proof.
  apply (@perfect_score_iff_nothing_lost
           [("a", Score.DefStr "critical"); ("b", Score.DefStr "warning")]
           [("a", true); ("b", true)] [] 100 (Score.mkBreakdown 4 0 2 0)).
  - repeat constructor.
  - vm_compute. split; [reflexivity | discriminate].
  - vm_compute. reflexivity.
Defined.

(** X3: when every evaluated SLO and every health check failed, the
    score is 0 whatever the weights are (also negative ones, where the
    quotient is [-0.0]); the points lost are the points at stake and the
    breakdown counts no pass. *)
Theorem all_failed_scores_zero
        (defs : PyDict.t Score.slo_def) (res : PyDict.t bool)
        (hc : PyDict.t Score.hc_value) :
  Forall (fun slo => Score.passed slo = false)
         (Score.slo_objects defs res hc) ->
  exists bd,
    Score.calculate_resiliency_score defs res hc = Ok (0, bd)
    /\ Score.points_lost bd = Score.total_points bd
    /\ Score.bd_passed bd = 0
    /\ Score.bd_failed bd
       = Z.of_nat (List.length (Score.slo_objects defs res hc)).
Proof.
  intro H. unfold Score.calculate_resiliency_score.
  set (objs := Score.slo_objects defs res hc) in *.
  assert (Hf : filter (fun s => negb (Score.passed s)) objs = objs).
  { apply filter_all. eapply Forall_impl; [|exact H].
    simpl. now intros slo ->. }
  assert (Hp : filter Score.passed objs = []) by now apply filter_none.
  assert (E : Score.points_lost_of objs = Score.total_points_of objs).
  { unfold Score.points_lost_of, Score.total_points_of. now rewrite Hf. }
  rewrite E, score_of_all_lost. simpl.
  eexists. split; [reflexivity|]. unfold Score.breakdown_of. simpl.
  rewrite E, Hp, Hf. repeat split.
Qed.

Lemma all_failed_scores_zero_witness :
  exists bd,
    Score.calculate_resiliency_score
      [("a", Score.DefDict (Some "critical") (Some (-5)))]
      [("a", false)] [("etcd", Score.HCFlag false)]
    = Ok (0, bd).
Proof.
  destruct (@all_failed_scores_zero
              [("a", Score.DefDict (Some "critical") (Some (-5)))]
              [("a", false)] [("etcd", Score.HCFlag false)])
    as (bd & Hbd & _).
  - repeat constructor.
  - exists bd. exact Hbd.
Defined.

(** X4: the result does not depend on the order in which the
    definitions and the health checks are listed. *)
Theorem score_ignores_entry_order
        (defs defs' : PyDict.t Score.slo_def) (res : PyDict.t bool)
        (hc hc' : PyDict.t Score.hc_value) :
  Permutation defs defs' -> Permutation hc hc' ->
  Score.calculate_resiliency_score defs res hc
  = Score.calculate_resiliency_score defs' res hc'.
Proof.
  intros Hd Hh.
  assert (Hp : Permutation (Score.slo_objects defs res hc)
                           (Score.slo_objects defs' res hc')).
  { unfold Score.slo_objects. apply Permutation_app.
    - now apply definition_objects_perm.
    - unfold Score.health_check_objects. now apply Permutation_map. }
  destruct (breakdown_of_perm Hp) as (Ht & Hl & Hb).
  unfold Score.calculate_resiliency_score. now rewrite Ht, Hl, Hb.
Qed.

Lemma score_ignores_entry_order_witness :
  Score.calculate_resiliency_score
    [("a", Score.DefStr "critical"); ("b", Score.DefStr "warning")]
    [("a", true); ("b", false)] []
  = Score.calculate_resiliency_score
      [("b", Score.DefStr "warning"); ("a", Score.DefStr "critical")]
      [("a", true); ("b", false)] [].
Proof.
  apply (@score_ignores_entry_order
           [("a", Score.DefStr "critical"); ("b", Score.DefStr "warning")]
           [("b", Score.DefStr "warning"); ("a", Score.DefStr "critical")]
           [("a", true); ("b", false)] [] []).
  - apply perm_swap.
  - apply perm_nil.
Defined.

(** X5: an evaluation result for a name that has no definition never
    affects the outcome: storing it in the results, or deleting it from
    them, leaves score and breakdown as they were. *)
Theorem undefined_result_is_ignored
        (defs : PyDict.t Score.slo_def) (res : PyDict.t bool)
        (hc : PyDict.t Score.hc_value) (n : string) (verdict : bool) :
  PyDict.get defs n = None ->
  Score.calculate_resiliency_score defs (PyDict.set res n verdict) hc
  = Score.calculate_resiliency_score defs res hc
  /\ Score.calculate_resiliency_score defs (PyDict.remove res n) hc
     = Score.calculate_resiliency_score defs res hc.
Proof.
  intro Hn. apply get_none_not_in in Hn.
  unfold Score.calculate_resiliency_score, Score.slo_objects.
  split.
  - rewrite (@definition_objects_ext defs res (PyDict.set res n verdict));
      [reflexivity|].
    intros k Hk. rewrite get_set.
    destruct (String.eqb_spec k n) as [->|_]; [contradiction | reflexivity].
  - rewrite (@definition_objects_ext defs res (PyDict.remove res n));
      [reflexivity|].
    intros k Hk.
    assert (Hkn : k <> n) by (intros ->; contradiction).
    clear -Hkn. induction res as [|[k0 v0] res IH]; simpl; [reflexivity|].
    destruct (String.eqb_spec n k0) as [<-|Hne].
    + rewrite IH. destruct (String.eqb_spec k n); [contradiction|reflexivity].
    + simpl. rewrite IH. reflexivity.
Qed.

Lemma undefined_result_is_ignored_witness :
  Score.calculate_resiliency_score [("a", Score.DefStr "critical")]
    (PyDict.set [("a", true)] "stray" false) []
  = Score.calculate_resiliency_score [("a", Score.DefStr "critical")]
      [("a", true)] [].
Proof.
  apply (@undefined_result_is_ignored [("a", Score.DefStr "critical")]
           [("a", true)] [] "stray" false).
  reflexivity.
Defined.

Section ResolvedWeight.
Import Score.

Lemma weight_object_of k d p k' p' :
  weight (object_of k d p) DEFAULT_WEIGHTS
  = weight (object_of k' d p') DEFAULT_WEIGHTS.
Proof. destruct d as [s|s [w|]]; reflexivity. Qed.

Lemma passed_object_of k d p : passed (object_of k d p) = p.
Proof. destruct d as [s|s w]; reflexivity. Qed.

Lemma breakdown_of_cons o objs :
  breakdown_of (o :: objs)
  = let w := weight o DEFAULT_WEIGHTS in
    let bd := breakdown_of objs in
    mkBreakdown (w + total_points bd)
      (if passed o then points_lost bd else w + points_lost bd)
      (if passed o then bd_passed bd + 1 else bd_passed bd)
      (if passed o then bd_failed bd else bd_failed bd + 1).
Proof.
  unfold breakdown_of, total_points_of, points_lost_of. simpl.
  rewrite zsum_cons.
  destruct (passed o); simpl; rewrite ?zsum_cons; f_equal; lia.
Qed.

Lemma breakdown_of_resolved defs defs' res hc :
  map fst defs = map fst defs' ->
  map (fun kd => weight (object_of (fst kd) (snd kd) true) DEFAULT_WEIGHTS)
      defs
  = map (fun kd => weight (object_of (fst kd) (snd kd) true) DEFAULT_WEIGHTS)
        defs' ->
  breakdown_of (slo_objects defs res hc)
  = breakdown_of (slo_objects defs' res hc).
Proof.
  unfold slo_objects. revert defs'.
  induction defs as [|[k d] defs IH]; intros [|[k' d'] defs'] Hk Hw;
    try discriminate; [reflexivity|].
  simpl in Hk, Hw. inversion Hk; subst k'. inversion Hw as [[Hw0 Hw1]].
  simpl. destruct (PyDict.get res k) as [p|]; [|now apply IH].
  simpl. rewrite !breakdown_of_cons, (IH defs') by assumption.
  rewrite !passed_object_of.
  rewrite (weight_object_of k d p k true), Hw0,
    (weight_object_of k d' true k p).
  reflexivity.
Qed.

End ResolvedWeight.

(** X6: score and breakdown depend on a definition only through its
    name and the weight it resolves to. Two definition dictionaries with
    the same names in the same order and the same resolved weights give
    the same result: the string format and the dictionary format, a
    missing severity and [warning], any severity other than [critical]
    and [warning], and any two severities under the same custom weight
    are interchangeable. *)
Theorem score_depends_on_resolved_weights
        (defs defs' : PyDict.t Score.slo_def) (res : PyDict.t bool)
        (hc : PyDict.t Score.hc_value) :
  let resolved (kd : string * Score.slo_def) :=
    Score.weight (Score.object_of (fst kd) (snd kd) true)
                 Score.DEFAULT_WEIGHTS in
  map fst defs = map fst defs' ->
  map resolved defs = map resolved defs' ->
  Score.calculate_resiliency_score defs res hc
  = Score.calculate_resiliency_score defs' res hc.
Proof.
  intros resolved Hk Hw.
  pose proof (@breakdown_of_resolved defs defs' res hc Hk Hw) as Hb.
  unfold Score.calculate_resiliency_score. rewrite <- Hb.
  change (Score.total_points_of (Score.slo_objects defs' res hc))
    with (Score.total_points
            (Score.breakdown_of (Score.slo_objects defs' res hc))).
  change (Score.points_lost_of (Score.slo_objects defs' res hc))
    with (Score.points_lost
            (Score.breakdown_of (Score.slo_objects defs' res hc))).
  rewrite <- Hb. reflexivity.
Qed.

Lemma score_depends_on_resolved_weights_witness :
  Score.calculate_resiliency_score
    [("a", Score.DefStr "critical"); ("b", Score.DefStr "info");
     ("c", Score.DefDict None None)]
    [("a", true); ("b", false); ("c", true)] []
  = Score.calculate_resiliency_score
      [("a", Score.DefDict (Some "warning") (Some 3));
       ("b", Score.DefDict (Some "Critical") None);
       ("c", Score.DefStr "warning")]
      [("a", true); ("b", false); ("c", true)] [].
Proof.
  apply (@score_depends_on_resolved_weights
           [("a", Score.DefStr "critical"); ("b", Score.DefStr "info");
            ("c", Score.DefDict None None)]
           [("a", Score.DefDict (Some "warning") (Some 3));
            ("b", Score.DefDict (Some "Critical") None);
            ("c", Score.DefStr "warning")]
           [("a", true); ("b", false); ("c", true)] []);
    reflexivity.
Defined.

(** * Further properties of the definition loader *)

Section LoaderNameFacts.
Import PyVal Loader.
Variable repr_other : PyVal.t -> string.

Lemma str_of_nat_inj i j : str_of_nat i = str_of_nat j -> i = j.
Proof.
  unfold str_of_nat. intro H.
  assert (E : Nat.to_uint i = Nat.to_uint j).
  { pose proof (NilEmpty.usu (Nat.to_uint i)) as Hi.
    pose proof (NilEmpty.usu (Nat.to_uint j)) as Hj.
    rewrite H in Hi. congruence. }
  rewrite <- (DecimalNat.Unsigned.of_to i), <- (DecimalNat.Unsigned.of_to j).
  now rewrite E.
Qed.

Lemma lower_char_idem c : lower_char (lower_char c) = lower_char c.
Proof. destruct c as [[] [] [] [] [] [] [] []]; reflexivity. Qed.

Lemma lower_idem s : lower (lower s) = lower s.
Proof.
  induction s as [|c s IH]; simpl; [reflexivity|].
  now rewrite lower_char_idem, IH.
Qed.

Lemma normalise_from_lengths idx alerts :
  (List.length (fst (normalise_from repr_other idx alerts))
   + List.length (snd (normalise_from repr_other idx alerts))
   = List.length alerts)%nat.
Proof.
  revert idx. induction alerts as [|a alerts IH]; intro idx; simpl;
    [reflexivity|].
  specialize (IH (S idx)).
  destruct (normalise_from repr_other (S idx) alerts) as [slos warned].
  simpl in IH.
  destruct a as [| | | | | |d]; simpl; try lia.
  destruct (PyDict.mem d "expr" && PyDict.mem d "severity"); simpl; lia.
Qed.

Lemma in_enumerate_from_inv {A} (xs : list A) idx k a :
  In (k, a) (enumerate_from idx xs) ->
  (idx <= k)%nat /\ nth_error xs (k - idx) = Some a.
Proof.
  unfold enumerate_from. revert idx.
  induction xs as [|x xs IH]; intro idx; simpl; [tauto|].
  intros [H|H].
  - inversion H; subst. rewrite Nat.sub_diag. split; [lia|reflexivity].
  - apply IH in H. destruct H as [Hle Hn]. split; [lia|].
    replace (k - idx)%nat with (S (k - S idx)) by lia. exact Hn.
Qed.


Lemma normalise_from_names idx alerts r :
  (forall d, In (VDict d) alerts ->
             truthy (PyDict.get_default d "description" VNone) = false) ->
  In r (fst (normalise_from repr_other idx alerts)) ->
  exists k, (idx <= k)%nat /\ Loader.name r = VStr ("slo_" ++ str_of_nat k).
Proof.
  revert idx. induction alerts as [|a alerts IH]; intros idx Hd; simpl;
    [tauto|].
  assert (Hd' : forall d, In (VDict d) alerts ->
                  truthy (PyDict.get_default d "description" VNone) = false)
    by (intros d Hin; apply Hd; now right).
  specialize (IH (S idx) Hd').
  destruct (normalise_from repr_other (S idx) alerts) as [slos warned].
  simpl in IH.
  assert (Hrest : In r slos ->
                  exists k, (idx <= k)%nat
                            /\ Loader.name r = VStr ("slo_" ++ str_of_nat k)).
  { intro H. destruct (IH H) as (k & Hk & Hn). exists k.
    split; [lia | exact Hn]. }
  destruct a as [| | | | | |d]; simpl; try exact Hrest.
  destruct (PyDict.mem d "expr" && PyDict.mem d "severity"); simpl;
    [|exact Hrest].
  intros [<-|H]; [|now apply Hrest].
  exists idx. split; [lia|]. unfold record_of. simpl.
  rewrite (Hd d) by now left. reflexivity.
Qed.

Lemma normalise_from_nodup idx alerts :
  (forall d, In (VDict d) alerts ->
             truthy (PyDict.get_default d "description" VNone) = false) ->
  NoDup (map Loader.name (fst (normalise_from repr_other idx alerts))).
Proof.
  revert idx. induction alerts as [|a alerts IH]; intros idx Hd; simpl;
    [constructor|].
  assert (Hd' : forall d, In (VDict d) alerts ->
                  truthy (PyDict.get_default d "description" VNone) = false)
    by (intros d Hin; apply Hd; now right).
  pose proof (IH (S idx) Hd') as IH'.
  pose proof (fun r => @normalise_from_names (S idx) alerts r Hd') as Hn.
  destruct (normalise_from repr_other (S idx) alerts) as [slos warned].
  simpl in IH', Hn.
  destruct a as [| | | | | |d]; simpl; try exact IH'.
  destruct (PyDict.mem d "expr" && PyDict.mem d "severity"); simpl;
    [|exact IH'].
  constructor; [|exact IH'].
  intro Hin. apply in_map_iff in Hin. destruct Hin as (r & Hr & Hin).
  destruct (Hn r Hin) as (k & Hk & Hname).
  unfold record_of in Hr. simpl in Hr.
  rewrite (Hd d) in Hr by now left.
  rewrite Hname in Hr. inversion Hr as [Hs].
  apply str_of_nat_inj in Hs. lia.
Qed.

Lemma normalise_from_severity idx alerts r :
  In r (fst (normalise_from repr_other idx alerts)) ->
  lower (Loader.severity r) = Loader.severity r.
Proof.
  revert idx. induction alerts as [|a alerts IH]; intro idx; simpl; [tauto|].
  specialize (IH (S idx)).
  destruct (normalise_from repr_other (S idx) alerts) as [slos warned].
  simpl in IH.
  destruct a as [| | | | | |d]; simpl; try exact IH.
  destruct (PyDict.mem d "expr" && PyDict.mem d "severity"); simpl;
    [|exact IH].
  intros [<-|H]; [|now apply IH].
  unfold record_of. simpl. apply lower_idem.
Qed.

End LoaderNameFacts.

(** X7: loading a list accounts for every entry exactly once. The kept
    records and the warned indices add up to the number of entries; the
    kept records are as many as the entries that are dictionaries with
    both keys; an index is warned about exactly when its entry is not
    such a dictionary. *)
Theorem loader_keeps_or_warns
        (repr_other : PyVal.t -> string) (alerts : list PyVal.t)
        (slos : list Loader.slo) (warned : list nat) :
  Loader._normalise_alerts repr_other (PyVal.VList alerts)
  = Ok (slos, warned) ->
  (List.length slos + List.length warned = List.length alerts)%nat
  /\ (List.length slos
      = List.length (filter Loader.valid_entry alerts))%nat
  /\ forall i,
       In i warned
       <-> exists alert, nth_error alerts i = Some alert
                         /\ Loader.valid_entry alert = false.
Proof.
  intro H. simpl in H. inversion H as [H']; clear H.
  pose proof (normalise_from_lengths repr_other 0 alerts) as Hl.
  rewrite H' in Hl. simpl in Hl. split; [exact Hl|].
  rewrite normalise_from_spec in H'. inversion H'; subst; clear H'.
  split.
  - clear Hl. unfold Loader.enumerate_from. generalize 0%nat.
    induction alerts as [|a alerts IH]; intro idx; simpl; [reflexivity|].
    rewrite length_app, IH. unfold Loader.kept.
    destruct a as [| | | | | |d]; simpl; try reflexivity.
    destruct (PyDict.mem d "expr" && PyDict.mem d "severity"); reflexivity.
  - intro i. rewrite in_map_iff. split.
    + intros ([k a] & Hk & Hin). simpl in Hk. subst k.
      apply filter_In in Hin. destruct Hin as [Hin Hv]. simpl in Hv.
      apply in_enumerate_from_inv in Hin. destruct Hin as [_ Hn].
      rewrite Nat.sub_0_r in Hn. exists a. split; [exact Hn|].
      now destruct (Loader.valid_entry a).
    + intros (a & Hn & Hv). exists (i, a). split; [reflexivity|].
      apply filter_In. split.
      * apply (in_enumerate_from alerts 0 i Hn).
      * simpl. now rewrite Hv.
Qed.

Lemma loader_keeps_or_warns_witness :
  (List.length [Loader.mkSlo (PyVal.VStr "slo_1") (PyVal.VStr "up")
                             "critical" PyVal.VNone]
   + List.length [0%nat; 2%nat]
   = List.length [PyVal.VStr "x";
                  PyVal.VDict [("expr", PyVal.VStr "up");
                               ("severity", PyVal.VStr "critical")];
                  PyVal.VNone])%nat.
Proof.
  exact (proj1 (@loader_keeps_or_warns (fun _ => "")
                  [PyVal.VStr "x";
                   PyVal.VDict [("expr", PyVal.VStr "up");
                                ("severity", PyVal.VStr "critical")];
                   PyVal.VNone]
                  [Loader.mkSlo (PyVal.VStr "slo_1") (PyVal.VStr "up")
                                "critical" PyVal.VNone]
                  [0%nat; 2%nat] eq_refl)).
Defined.

(** X8: when no entry has a truthy [description], the names
    [slo_<index>] synthesised for the loaded records are pairwise
    distinct, [index] being the position of the entry in the input. *)
Theorem synthesised_names_are_distinct
        (repr_other : PyVal.t -> string) (alerts : list PyVal.t)
        (slos : list Loader.slo) (warned : list nat) :
  (forall d, In (PyVal.VDict d) alerts ->
             PyVal.truthy (PyDict.get_default d "description" PyVal.VNone)
             = false) ->
  Loader._normalise_alerts repr_other (PyVal.VList alerts)
  = Ok (slos, warned) ->
  NoDup (map Loader.name slos).
Proof.
  intros Hd H. simpl in H. inversion H as [H']; clear H.
  pose proof (@normalise_from_nodup repr_other 0 alerts Hd) as Hn.
  now rewrite H' in Hn.
Qed.

(** X9: the severity of every loaded record is in lower case: lowering
    it again changes nothing. *)
Theorem loaded_severity_is_lower_case
        (repr_other : PyVal.t -> string) (raw : PyVal.t)
        (slos : list Loader.slo) (warned : list nat) (r : Loader.slo) :
  Loader._normalise_alerts repr_other raw = Ok (slos, warned) ->
  In r slos ->
  PyVal.lower (Loader.severity r) = Loader.severity r.
Proof.
  intros H Hin. destruct raw; try discriminate.
  simpl in H. inversion H as [H']; clear H.
  apply (@normalise_from_severity repr_other 0 items r).
  now rewrite H'.
Qed.

Lemma synthesised_names_are_distinct_witness :
  NoDup (map Loader.name
           [Loader.mkSlo (PyVal.VStr "slo_0") (PyVal.VStr "up == 0")
                         "critical" PyVal.VNone;
            Loader.mkSlo (PyVal.VStr "slo_2") (PyVal.VStr "up == 1")
                         "warning" PyVal.VNone]).
Proof.
  apply (@synthesised_names_are_distinct (fun _ => "")
           [PyVal.VDict [("expr", PyVal.VStr "up == 0");
                         ("severity", PyVal.VStr "critical")];
            PyVal.VInt 7;
            PyVal.VDict [("expr", PyVal.VStr "up == 1");
                         ("severity", PyVal.VStr "Warning");
                         ("description", PyVal.VStr "")]]
           _ [1%nat]).
  - intros d [H|[H|[H|[]]]]; inversion H; reflexivity.
  - reflexivity.
Defined.

Lemma loaded_severity_is_lower_case_witness :
  PyVal.lower "critical" = "critical".
Proof.
  apply (@loaded_severity_is_lower_case (fun _ => "")
           (PyVal.VList [PyVal.VDict [("expr", PyVal.VStr "up == 0");
                                      ("severity", PyVal.VStr "CRITICAL")]])
           [Loader.mkSlo (PyVal.VStr "slo_0") (PyVal.VStr "up == 0")
                         "critical" PyVal.VNone]
           []
           (Loader.mkSlo (PyVal.VStr "slo_0") (PyVal.VStr "up == 0")
                         "critical" PyVal.VNone)).
  - reflexivity.
  - left. reflexivity.
Defined.

(** * Further properties of the orchestrator *)

Section LifecycleFacts.

Import Score Resiliency.

Variable datetime : Type.
Variable isoformat : datetime -> string.
Variable fromtimestamp : Z -> result datetime.
Variable evaluate_slos :
  nat -> list slo -> datetime -> datetime -> result (PyDict.t bool).
Variable repr_other : PyVal.t -> string.
Variable float_repr : PyNum.float -> string.
Variable int_of_str : string -> result Z.
Variable int_max_str_digits : Z.

(** The window of an item: the two timestamps when both are truthy, the
    batch window otherwise. *)
Lemma process_item_run scenario_type bs be weight tel st :
  let st_ts :=
    PyDict.get_default (tel_fields tel) "start_timestamp" PyVal.VNone in
  let en_ts :=
    PyDict.get_default (tel_fields tel) "end_timestamp" PyVal.VNone in
  let scen_name :=
    PyDict.get_default (tel_fields tel) "scenario" (PyVal.VStr scenario_type) in
  let window :=
    if PyVal.truthy st_ts && PyVal.truthy en_ts
    then (let! s := py_int int_of_str st_ts in
          let! st_dt := fromtimestamp s in
          let! e := py_int int_of_str en_ts in
          let! en_dt := fromtimestamp e in
          Ok (st_dt, en_dt))%result
    else Ok (bs, be) in
  process_item isoformat fromtimestamp evaluate_slos repr_other int_of_str
               scenario_type bs be weight tel st
  = match window with
    | Raise e => (st, Raise e)
    | Ok (st_dt, en_dt) =>
        match add_scenario_report isoformat evaluate_slos
                (PyVal.str repr_other scen_name) st_dt en_dt weight None st with
        | (st1, Raise e) => (st1, Raise e)
        | (st1, Ok _) =>
            match rev (scenario_reports (self st1)) with
            | [] => (st1, Raise (IndexError "list index out of range"))
            | last_report :: _ =>
                (st1, set_resiliency_report tel (compact_breakdown last_report))
            end
        end
    end.
Proof.
  cbv zeta. unfold process_item.
  destruct (PyVal.truthy _ && PyVal.truthy _).
  - unfold bind at 1. unfold lift at 1.
    destruct (rbind _ _) as [[st_dt en_dt]|e]; [|reflexivity].
    unfold bind at 1.
    destruct (add_scenario_report _ _ _ _ _ _ _ _) as [st1 [sc|e]];
      [|reflexivity].
    unfold_m. destruct (rev _); reflexivity.
  - unfold bind at 1. unfold ret at 1.
    unfold bind at 1.
    destruct (add_scenario_report _ _ _ _ _ _ _ _) as [st1 [sc|e]];
      [|reflexivity].
    unfold_m. destruct (rev _); reflexivity.
Qed.


#[local] Abbreviation batch :=
  (add_scenario_reports isoformat fromtimestamp evaluate_slos repr_other
                        int_of_str).
#[local] Abbreviation process :=
  (process_item isoformat fromtimestamp evaluate_slos repr_other int_of_str).
#[local] Abbreviation guarded :=
  (guarded_item isoformat fromtimestamp evaluate_slos repr_other int_of_str).

(** What one item of a batch leaves of the object: nothing new, or one
    more report, named after the item, with the batch weight and no
    health check. *)
Lemma process_item_self scenario_type bs be weight tel st :
  let st' := fst (process scenario_type bs be weight tel st) in
  self st' = self st
  \/ exists rep,
       self st' = with_report (self st) rep
       /\ rep_name rep
          = PyVal.str repr_other
              (PyDict.get_default (tel_fields tel) "scenario"
                                  (PyVal.VStr scenario_type))
       /\ rep_weight rep = weight
       /\ rep_health_check_results rep = PyDict.empty.
Proof.
  cbv zeta. rewrite process_item_run. cbv zeta.
  match goal with
  | |- context [match ?w with Ok _ => _ | Raise _ => _ end] =>
      destruct w as [[st_dt en_dt]|e]; [|now left]
  end.
  rewrite add_scenario_report_run. cbv zeta.
  destruct (evaluate_slos _ _ _ _) as [res|e]; [|now left].
  destruct (calculate_resiliency_score _ _ _) as [[score bd]|e]; [|now left].
  right. eexists.
  destruct (rev _); simpl; (split; [reflexivity|]); repeat split.
Qed.

Lemma guarded_item_self scenario_type bs be weight tel st :
  self (fst (guarded scenario_type bs be weight tel st))
  = self (fst (process scenario_type bs be weight tel st)).
Proof.
  unfold guarded_item.
  destruct (process_item _ _ _ _ _ _ _ _ _ _ _) as [st1 [tel'|e]]; reflexivity.
Qed.

Lemma add_scenario_reports_self items scenario_type bs be weight st :
  exists news,
    self (fst (batch items scenario_type bs be weight st))
    = mkObject (_slos (self st)) (_results (self st)) (_score (self st))
               (_breakdown (self st)) (_health_check_results (self st))
               (scenario_reports (self st) ++ news)
               (summary (self st)) (detailed_report (self st))
    /\ (List.length news <= List.length items)%nat
    /\ Forall (fun rep => rep_weight rep = weight
                          /\ rep_health_check_results rep = PyDict.empty) news.
Proof.
  revert st. induction items as [|tel rest IH]; intro st.
  - exists []. simpl. rewrite app_nil_r. destruct st as [w []].
    repeat split; constructor.
  - rewrite add_scenario_reports_cons.
    pose proof (guarded_item_self scenario_type bs be weight tel st) as Hg.
    pose proof (process_item_self scenario_type bs be weight tel st) as Hp.
    cbv zeta in Hp. rewrite <- Hg in Hp. clear Hg.
    destruct (guarded_item _ _ _ _ _ _ _ _ _ tel st) as [st1 tel'].
    simpl in Hp.
    destruct (IH st1) as (news & Hs & Hl & Hf).
    destruct (add_scenario_reports _ _ _ _ _ rest _ _ _ _ st1)
      as [st2 [rest'|e]]; simpl in Hs |- *.
    all: destruct Hp as [Hp | (rep & Hp & _ & Hw & Hh)].
    all: rewrite Hs, Hp; simpl.
    1,3: exists news; split; [reflexivity|]; split; [lia | exact Hf].
    all: exists (rep :: news); rewrite <- app_assoc; simpl.
    all: split; [reflexivity|]; split; [lia|]; constructor; auto.
Qed.

Lemma finalize_and_save_self ts te run_mode detailed_path st :
  self (fst (finalize_and_save evaluate_slos float_repr int_max_str_digits
               ts te run_mode detailed_path st))
  = self (fst (finalize_report evaluate_slos ts te st)).
Proof.
  pose proof (@finalize_report_effect datetime evaluate_slos ts te st) as Hf.
  unfold finalize_and_save, get_detailed_report, getattr, print, dump_to_file,
    logging.
  unfold_m.
  destruct (finalize_report evaluate_slos ts te st) as [st1 [[]|exc]];
    [|reflexivity].
  destruct Hf as (_ & _ & Hd). rewrite (Hd eq_refl). cbn [hasattr negb].
  destruct (String.eqb run_mode "controller").
  - destruct (Json.dumps _ _ _); [|reflexivity].
    destruct (stdout_broken (the_world st1)); reflexivity.
  - destruct (writable (the_world st1) detailed_path); [|reflexivity].
    cbn [fst snd]. destruct (snd (Json.dump _ _ _ _)); reflexivity.
Qed.

(** X10: no operation changes the loaded SLO list or the stored
    evaluation results: [calculate_score], [add_scenario_report],
    [finalize_report], [add_scenario_reports] and [finalize_and_save]
    leave [_slos] and [_results] as they found them, whether they return
    or raise. *)
Theorem configuration_is_never_modified (st : state) :
  let same (st' : state) :=
    _slos (self st') = _slos (self st)
    /\ _results (self st') = _results (self st) in
  (forall hc, same (fst (calculate_score hc st)))
  /\ (forall scenario_name start_time end_time weight hc,
        same (fst (add_scenario_report isoformat evaluate_slos scenario_name
                     start_time end_time weight hc st)))
  /\ (forall total_start_time total_end_time,
        same (fst (finalize_report evaluate_slos total_start_time
                     total_end_time st)))
  /\ (forall items scenario_type bs be weight,
        same (fst (batch items scenario_type bs be weight st)))
  /\ (forall total_start_time total_end_time run_mode detailed_path,
        same (fst (finalize_and_save evaluate_slos float_repr
                     int_max_str_digits total_start_time total_end_time
                     run_mode detailed_path st))).
Proof.
  cbv zeta.
  assert (Hfin : forall ts te,
             _slos (self (fst (finalize_report evaluate_slos ts te st)))
             = _slos (self st)
             /\ _results (self (fst (finalize_report evaluate_slos ts te st)))
                = _results (self st)).
  { intros ts te. rewrite finalize_report_run.
    destruct (scenario_reports (self st)); [now split|].
    destruct (weighted_average _); [|now split].
    destruct (evaluate_slos _ _ _ _); [|now split].
    destruct (calculate_resiliency_score _ _ _) as [[sc bd]|e]; now split. }
  split; [|split; [|split; [|split]]].
  - intro hc. unfold calculate_score. unfold_m.
    destruct (calculate_resiliency_score _ _ _) as [[sc bd]|e]; now split.
  - intros. rewrite add_scenario_report_run.
    destruct (evaluate_slos _ _ _ _); [|now split].
    destruct (calculate_resiliency_score _ _ _) as [[sc bd]|e]; now split.
  - exact Hfin.
  - intros items scenario_type bs be w.
    destruct (add_scenario_reports_self items scenario_type bs be w st)
      as (news & -> & _). now split.
  - intros. rewrite finalize_and_save_self. apply Hfin.
Qed.

(** X11: on an object whose stored results are empty, as [__init__]
    leaves them, [calculate_score] scores the health checks alone,
    whatever SLOs are loaded; without health checks it returns 0 and
    stores the empty breakdown. *)
Theorem calculate_score_sees_health_checks_only
        (hc : option (PyDict.t hc_value)) (st : state) :
  _results (self st) = PyDict.empty ->
  snd (calculate_score hc st)
  = rbind (calculate_resiliency_score PyDict.empty PyDict.empty (or_empty hc))
          (fun r => Ok (fst r))
  /\ calculate_score None st
     = (mkState (the_world st)
          (mkObject (_slos (self st)) PyDict.empty (Some 0)
             (Some (mkBreakdown 0 0 0 0)) PyDict.empty
             (scenario_reports (self st)) (summary (self st))
             (detailed_report (self st))),
        Ok 0).
Proof.
  intro Hr.
  assert (E : forall defs, definition_objects defs PyDict.empty = []).
  { induction defs as [|[k d] defs IH]; [reflexivity | exact IH]. }
  split.
  - unfold calculate_score, calculate_resiliency_score, slo_objects. unfold_m.
    rewrite Hr, E. simpl.
    destruct hc as [d|]; simpl; [|reflexivity].
    destruct (score_of _ _); reflexivity.
  - unfold calculate_score, calculate_resiliency_score, slo_objects. unfold_m.
    rewrite Hr, E. reflexivity.
Qed.

(** X12: after a [calculate_score] that returned, [to_dict] returns
    that score (a score 0 included), the breakdown of the [SLOResult]s
    scored, the stored results and the health checks given, and changes
    nothing. *)
Theorem to_dict_after_calculate_score
        (hc : option (PyDict.t hc_value)) (st st1 : state) (score : Z) :
  calculate_score hc st = (st1, Ok score) ->
  to_dict st1
  = (st1,
     Ok (score,
         Some (breakdown_of
                 (slo_objects (slo_defs (_slos (self st))) (_results (self st))
                              (or_empty hc))),
         _results (self st), or_empty hc)).
Proof.
  unfold calculate_score, to_dict. unfold_m.
  destruct (calculate_resiliency_score _ _ _) as [[sc bd]|e] eqn:E;
    [|discriminate].
  intro H. inversion H; subst; clear H. simpl.
  apply calculate_breakdown in E. destruct E as [-> _].
  destruct hc; reflexivity.
Qed.

(** X13: [add_scenario_report] asks the metrics backend for exactly one
    window evaluation and touches nothing else outside the object. When
    it returns, exactly one report was appended after the existing ones,
    with the name, score, weight, window and health checks of the call;
    when it raises, the object is unchanged. *)
Theorem add_scenario_report_is_atomic
        (scenario_name : string) (start_time end_time : datetime)
        (weight : PyNum.t) (hc : option (PyDict.t hc_value)) (st : state) :
  let run := add_scenario_report isoformat evaluate_slos scenario_name
               start_time end_time weight hc st in
  the_world (fst run) = queried (the_world st)
  /\ match snd run with
     | Ok score =>
         exists rep,
           self (fst run) = with_report (self st) rep
           /\ rep_name rep = scenario_name
           /\ rep_score rep = score
           /\ rep_weight rep = weight
           /\ rep_window_start rep = isoformat start_time
           /\ rep_window_end rep = isoformat end_time
           /\ rep_health_check_results rep = or_empty hc
     | Raise _ => self (fst run) = self st
     end.
Proof.
  cbv zeta. rewrite add_scenario_report_run. cbv zeta.
  destruct (evaluate_slos _ _ _ _) as [res|e]; [|now split].
  destruct (calculate_resiliency_score _ _ _) as [[sc bd]|e]; [|now split].
  simpl. split; [reflexivity|]. eexists. repeat split.
Qed.

(** X20: [finalize_report] changes the object only when it returns, and
    then only the attributes [summary] and [detailed_report], after one
    window evaluation; when it raises, the object is unchanged and at
    most one window evaluation was asked for. *)
Theorem finalize_report_is_atomic
        (total_start_time total_end_time : datetime) (st : state) :
  let run := finalize_report evaluate_slos total_start_time total_end_time st in
  match snd run with
  | Ok _ =>
      exists sm,
        self (fst run) = finalized (self st) sm
        /\ the_world (fst run) = queried (the_world st)
  | Raise _ =>
      self (fst run) = self st
      /\ (the_world (fst run) = the_world st
          \/ the_world (fst run) = queried (the_world st))
  end.
Proof.
  cbv zeta. rewrite finalize_report_run.
  destruct (scenario_reports (self st)); [simpl; auto|].
  destruct (weighted_average _); [|simpl; auto].
  destruct (evaluate_slos _ _ _ _); [|simpl; auto].
  destruct (calculate_resiliency_score _ _ _) as [[sc bd]|e]; [|simpl; auto].
  simpl. eexists. split; reflexivity.
Qed.

(** X16: the [scenarios] dictionary of the summary is keyed by scenario
    name: it holds each name of the reports once, bound to the score of
    the last report so named, so it never has more entries than there
    are reports. *)
Theorem summary_lists_last_score_per_name
        (total_start_time total_end_time : datetime) (st st' : state) :
  finalize_report evaluate_slos total_start_time total_end_time st
  = (st', Ok tt) ->
  exists sm,
    summary (self st') = Bound (Some sm)
    /\ PyDict.wf (sum_scenarios sm)
    /\ (forall n,
          In n (PyDict.keys (sum_scenarios sm))
          <-> In n (map rep_name (scenario_reports (self st))))
    /\ (forall n,
          PyDict.get (sum_scenarios sm) n
          = option_map rep_score
              (find (fun rep => String.eqb n (rep_name rep))
                    (rev (scenario_reports (self st)))))
    /\ (List.length (sum_scenarios sm)
        <= List.length (scenario_reports (self st)))%nat.
Proof.
  rewrite finalize_report_run.
  destruct (scenario_reports (self st)) as [|r rs] eqn:E; [discriminate|].
  destruct (weighted_average _); [|discriminate].
  destruct (evaluate_slos _ _ _ _); [|discriminate].
  destruct (calculate_resiliency_score _ _ _) as [[sc bd]|e]; [|discriminate].
  cbv zeta. intro H. inversion H; subst; clear H.
  eexists. split; [reflexivity|]. cbn [sum_scenarios].
  split; [apply comprehension_wf|].
  split; [intro n; apply (comprehension_keys rep_name rep_score (r :: rs))|].
  split; [intro n; apply (comprehension_get rep_name rep_score (r :: rs))|].
  pose proof (@comprehension_wf Z scenario_report rep_name rep_score (r :: rs))
    as Hwf.
  unfold PyDict.wf in Hwf.
  rewrite <- (length_map fst). fold (PyDict.keys
    (PyDict.comprehension rep_name rep_score (r :: rs))).
  rewrite <- (length_map rep_name (r :: rs)).
  apply NoDup_incl_length; [exact Hwf|].
  intros n Hn. now apply comprehension_keys in Hn.
Qed.

(** X17: the detailed report holds the report list of the object
    itself, not a copy: a report added after finalisation is part of what
    [get_detailed_report] returns, while [get_summary] keeps returning
    the summary computed at finalisation. *)
Theorem detailed_report_is_live
        (total_start_time total_end_time : datetime) (st st1 st2 : state)
        (scenario_name : string) (start_time end_time : datetime)
        (weight : PyNum.t) (hc : option (PyDict.t hc_value)) (score : Z) :
  finalize_report evaluate_slos total_start_time total_end_time st
  = (st1, Ok tt) ->
  add_scenario_report isoformat evaluate_slos scenario_name start_time
                      end_time weight hc st1 = (st2, Ok score) ->
  exists ref rep,
    get_detailed_report st1 = (st1, Ok (Some ref))
    /\ get_detailed_report st2 = (st2, Ok (Some ref))
    /\ deref (self st1) ref = scenario_reports (self st)
    /\ deref (self st2) ref = (scenario_reports (self st) ++ [rep])%list
    /\ rep_name rep = scenario_name
    /\ rep_score rep = score
    /\ snd (get_summary st2) = snd (get_summary st1).
Proof.
  rewrite finalize_report_run.
  destruct (scenario_reports (self st)) as [|r rs] eqn:E; [discriminate|].
  destruct (weighted_average _); [|discriminate].
  destruct (evaluate_slos _ _ _ _); [|discriminate].
  destruct (calculate_resiliency_score _ _ _) as [[sc bd]|e]; [|discriminate].
  cbv zeta. intro H. inversion H; subst; clear H.
  rewrite add_scenario_report_run. cbv zeta.
  destruct (evaluate_slos _ _ _ _); [|discriminate].
  destruct (calculate_resiliency_score _ _ _) as [[sc' bd']|e]; [|discriminate].
  intro H. inversion H; subst; clear H.
  exists ScenariosOfSelf. eexists. simpl. rewrite E. repeat split.
Qed.

(** X18: [add_scenario_reports] only appends reports, at most one per
    item, each with the weight of the batch and no health check; the
    summary and the score attribute are left alone. *)
Theorem batch_reports_share_weight
        (items : list telemetry) (scenario_type : string)
        (bs be : datetime) (weight : PyNum.t) (st : state) :
  let st' := fst (batch items scenario_type bs be weight st) in
  exists news,
    scenario_reports (self st') = (scenario_reports (self st) ++ news)%list
    /\ (List.length news <= List.length items)%nat
    /\ Forall (fun rep => rep_weight rep = weight
                          /\ rep_health_check_results rep = PyDict.empty) news
    /\ summary (self st') = summary (self st)
    /\ _score (self st') = _score (self st).
Proof.
  cbv zeta.
  destruct (add_scenario_reports_self items scenario_type bs be weight st)
    as (news & -> & Hl & Hf).
  exists news. repeat split; assumption.
Qed.

(** X19: an item whose start or end timestamp is missing, [None], zero
    or otherwise falsy is evaluated over the window of the batch; the
    report appended for it carries that window and is named after the
    item's [scenario] field, or after the scenario type of the batch when
    the item has none. *)
Theorem falsy_timestamp_selects_batch_window
        (scenario_type : string) (bs be : datetime) (weight : PyNum.t)
        (tel tel' : telemetry) (st st' : state) :
  PyVal.truthy (PyDict.get_default (tel_fields tel) "start_timestamp"
                                   PyVal.VNone)
  && PyVal.truthy (PyDict.get_default (tel_fields tel) "end_timestamp"
                                      PyVal.VNone) = false ->
  process scenario_type bs be weight tel st = (st', Ok tel') ->
  exists rep,
    scenario_reports (self st') = (scenario_reports (self st) ++ [rep])%list
    /\ rep_window_start rep = isoformat bs
    /\ rep_window_end rep = isoformat be
    /\ rep_name rep
       = PyVal.str repr_other
           (PyDict.get_default (tel_fields tel) "scenario"
                               (PyVal.VStr scenario_type)).
Proof.
  intro Hts. rewrite process_item_run. cbv zeta. rewrite Hts.
  rewrite add_scenario_report_run. cbv zeta.
  destruct (evaluate_slos _ _ _ _) as [res|e]; [|discriminate].
  destruct (calculate_resiliency_score _ _ _) as [[score bd]|e];
    [|discriminate].
  cbn [self the_world with_report scenario_reports].
  rewrite rev_app_distr. cbn [rev app].
  intro H. inversion H; subst; clear H.
  eexists. repeat split.
Qed.

End LifecycleFacts.

Lemma calculate_score_sees_health_checks_only_witness :
  snd (Resiliency.calculate_score None
         (Resiliency.mkState
            (Resiliency.mkWorld 0 "" false [] (fun _ => true) [])
            (Resiliency.init
               [Resiliency.mkSlo "etcd" "up == 1" "critical" None])))
  = Ok 0.
Proof.
  rewrite (proj2 (@calculate_score_sees_health_checks_only None
                    (Resiliency.mkState
                       (Resiliency.mkWorld 0 "" false [] (fun _ => true) [])
                       (Resiliency.init
                          [Resiliency.mkSlo "etcd" "up == 1" "critical" None]))
                    eq_refl)).
  reflexivity.
Defined.

Lemma to_dict_after_calculate_score_witness :
  exists st1,
    snd (Resiliency.to_dict st1)
    = Ok (0, Some (Score.mkBreakdown 3 3 0 1), [],
          [("etcd", Score.HCFlag false)]).
Proof.
  eexists.
  rewrite (@to_dict_after_calculate_score
             (Some [("etcd", Score.HCFlag false)])
             (Resiliency.mkState
                (Resiliency.mkWorld 0 "" false [] (fun _ => true) [])
                (Resiliency.init []))
             _ 0 eq_refl).
  reflexivity.
Defined.

Lemma summary_lists_last_score_per_name_witness :
  exists sm,
    Resiliency.sum_scenarios sm = [("pod-kill", 50)]
    /\ Resiliency.resiliency_score sm = 75.
Proof.
  destruct (@summary_lists_last_score_per_name Z
              (fun _ _ (_ _ : Z) => Ok []) 0 60
              (Resiliency.mkState
                 (Resiliency.mkWorld 0 "" false [] (fun _ => true) [])
                 (Resiliency.mkObject [] [] None None []
                    [Resiliency.mkReport "pod-kill" "" "" 100 (PyNum.PInt 1)
                       (Score.mkBreakdown 0 0 0 0) [] [];
                     Resiliency.mkReport "pod-kill" "" "" 50 (PyNum.PInt 1)
                       (Score.mkBreakdown 0 0 0 0) [] []]
                    (Resiliency.Bound None) (Resiliency.Bound None)))
              _ eq_refl) as (sm & Hsm & _).
  exists sm. inversion Hsm. split; reflexivity.
Defined.

Lemma detailed_report_is_live_witness :
  exists st2 ref,
    snd (Resiliency.get_detailed_report st2) = Ok (Some ref)
    /\ map Resiliency.rep_name (Resiliency.deref (Resiliency.self st2) ref)
       = ["pod-kill"; "node-outage"].
Proof.
  destruct (@detailed_report_is_live Z PyVal.str_of_int
              (fun _ _ (_ _ : Z) => Ok []) 0 120
              (Resiliency.mkState
                 (Resiliency.mkWorld 0 "" false [] (fun _ => true) [])
                 (Resiliency.mkObject [] [] None None []
                    [Resiliency.mkReport "pod-kill" "" "" 100 (PyNum.PInt 1)
                       (Score.mkBreakdown 0 0 0 0) [] []]
                    (Resiliency.Bound None) (Resiliency.Bound None)))
              _ _ "node-outage" 60 120 (PyNum.PInt 1) None 0
              eq_refl eq_refl)
    as (ref & rep & _ & H2 & _ & Hd & Hn & _).
  eexists. exists ref. split.
  - rewrite H2. reflexivity.
  - rewrite Hd. simpl. rewrite Hn. reflexivity.
Defined.

Lemma falsy_timestamp_selects_batch_window_witness :
  exists rep,
    Resiliency.rep_window_start rep = "10"
    /\ Resiliency.rep_window_end rep = "70"
    /\ Resiliency.rep_name rep = "fallback".
Proof.
  destruct (@falsy_timestamp_selects_batch_window Z PyVal.str_of_int
              (fun z => Ok z) (fun _ _ (_ _ : Z) => Ok []) (fun _ => "")
              (fun _ => Raise (ValueError "invalid literal"))
              "fallback" 10 70 (PyNum.PInt 1)
              (Resiliency.mkTelemetry Resiliency.ItemDict
                 [("start_timestamp", PyVal.VInt 0);
                  ("end_timestamp", PyVal.VInt 1700000000)] None)
              _
              (Resiliency.mkState
                 (Resiliency.mkWorld 0 "" false [] (fun _ => true) [])
                 (Resiliency.init []))
              _ eq_refl eq_refl) as (rep & _ & Hs & He & Hn).
  exists rep. repeat split; assumption.
Defined.

(** * Further properties of the weighted average *)

Section AverageRangeFacts.

Import Score Resiliency AverageSpec.

Lemma weighted_scores_bounds reports lo hi :
  Forall (fun rep => 0 <= int_weight rep) reports ->
  Forall (fun rep => lo <= rep_score rep <= hi) reports ->
  lo * total_weight reports <= weighted_scores reports
  <= hi * total_weight reports.
Proof.
  unfold total_weight, weighted_scores.
  induction reports as [|rep reports IH]; intros Hw Hs.
  - unfold zsum. simpl. lia.
  - inversion Hw as [|? ? Hw0 Hw']; inversion Hs as [|? ? Hs0 Hs']; subst.
    specialize (IH Hw' Hs'). simpl. rewrite !zsum_cons. nia.
Qed.

Variable datetime : Type.
Variable evaluate_slos :
  nat -> list slo -> datetime -> datetime -> result (PyDict.t bool).

(** X14: [finalize_report] on reports whose integer weights sum to zero
    raises [ZeroDivisionError] before the metrics backend is asked
    anything, and leaves the state as it was. *)
Theorem finalize_rejects_zero_total_weight
        (total_start_time total_end_time : datetime) (st : state) :
  scenario_reports (self st) <> [] ->
  integer_weights (scenario_reports (self st)) ->
  total_weight (scenario_reports (self st)) = 0 ->
  finalize_report evaluate_slos total_start_time total_end_time st
  = (st, Raise ZeroDivisionError).
Proof.
  intros Hne Hint HW. rewrite finalize_report_run.
  destruct (scenario_reports (self st)) as [|r rs]; [contradiction|].
  now rewrite (weighted_average_zero_weight Hint HW).
Qed.

(** X15: with integer weights that are not negative and sum to
    [W], [0 < W < 2 ^ 53], and scenario scores all within [lo .. hi],
    [0 <= lo] and [hi * W < 2 ^ 53], the weighted average is computed
    without error and lies within [lo .. hi]; for scores between 0 and
    100 so does the final score. *)
Theorem final_score_between_scenario_scores
        (reports : list scenario_report) (lo hi : Z) :
  integer_weights reports ->
  Forall (fun rep => 0 <= int_weight rep) reports ->
  0 < total_weight reports < 2 ^ 53 ->
  0 <= lo ->
  Forall (fun rep => lo <= rep_score rep <= hi) reports ->
  hi * total_weight reports < 2 ^ 53 ->
  exists score,
    weighted_average reports = Ok score /\ lo <= score <= hi.
Proof.
  intros Hint Hw HW Hlo Hs Hhi.
  pose proof (weighted_scores_bounds Hw Hs) as Hb.
  rewrite (weighted_average_floor Hint HW) by nia.
  eexists. split; [reflexivity|]. split.
  - apply Z.div_le_lower_bound; lia.
  - apply Z.div_le_upper_bound; lia.
Qed.

End AverageRangeFacts.

Lemma finalize_rejects_zero_total_weight_witness :
  snd (Resiliency.finalize_report (fun _ _ (_ _ : Z) => Ok []) 0 60
         (Resiliency.mkState
            (Resiliency.mkWorld 0 "" false [] (fun _ => true) [])
            (Resiliency.mkObject [] [] None None []
               [Resiliency.mkReport "pod-kill" "" "" 80 (PyNum.PInt 0)
                  (Score.mkBreakdown 5 1 1 1) [] []]
               (Resiliency.Bound None) (Resiliency.Bound None))))
  = Raise ZeroDivisionError.
Proof.
  rewrite (@finalize_rejects_zero_total_weight Z (fun _ _ (_ _ : Z) => Ok [])
             0 60).
  - reflexivity.
  - discriminate.
  - repeat constructor.
  - reflexivity.
Defined.

Lemma final_score_between_scenario_scores_witness :
  exists score,
    Resiliency.weighted_average
      [Resiliency.mkReport "pod-kill" "" "" 100 (PyNum.PInt 1)
         (Score.mkBreakdown 4 0 2 0) [] [];
       Resiliency.mkReport "node-outage" "" "" 50 (PyNum.PInt 3)
         (Score.mkBreakdown 4 2 1 1) [] []]
    = Ok score
    /\ 50 <= score <= 100.
Proof.
  apply (@final_score_between_scenario_scores
           [Resiliency.mkReport "pod-kill" "" "" 100 (PyNum.PInt 1)
              (Score.mkBreakdown 4 0 2 0) [] [];
            Resiliency.mkReport "node-outage" "" "" 50 (PyNum.PInt 3)
              (Score.mkBreakdown 4 2 1 1) [] []] 50 100).
  - repeat constructor.
  - repeat (apply Forall_cons;
            [unfold AverageSpec.int_weight; simpl; lia|]);
      apply Forall_nil.
  - vm_compute. split; reflexivity.
  - lia.
  - repeat (apply Forall_cons;
            [unfold AverageSpec.int_weight; simpl; lia|]);
      apply Forall_nil.
  - vm_compute. reflexivity.
Defined.

(** * Further properties of the item windows and the summary *)

Section WindowFacts.

Import Score Resiliency AverageSpec.

Variable datetime : Type.
Variable isoformat : datetime -> string.
Variable fromtimestamp : Z -> result datetime.
Variable evaluate_slos :
  nat -> list slo -> datetime -> datetime -> result (PyDict.t bool).
Variable repr_other : PyVal.t -> string.
Variable int_of_str : string -> result Z.

#[local] Abbreviation process :=
  (process_item isoformat fromtimestamp evaluate_slos repr_other int_of_str).

(** X25: for reports with integer weights that are not negative and sum
    to [W], [0 < W] and [100 * W < 2 ^ 53], and scenario scores between 0
    and 100, a finalisation that returns leaves an object on which
    [get_summary] and [get_detailed_report] return the stored values,
    with [0 <= resiliency_score <= 100] and
    [0 <= passed_slos <= total_slos]. *)
Theorem finalized_summary_is_consistent
        (total_start_time total_end_time : datetime) (st st' : state) :
  let reports := scenario_reports (self st) in
  integer_weights reports ->
  Forall (fun rep => 0 <= int_weight rep) reports ->
  0 < total_weight reports ->
  100 * total_weight reports < 2 ^ 53 ->
  Forall (fun rep => 0 <= rep_score rep <= 100) reports ->
  finalize_report evaluate_slos total_start_time total_end_time st
  = (st', Ok tt) ->
  exists sm,
    get_summary st' = (st', Ok (Some sm))
    /\ get_detailed_report st' = (st', Ok (Some ScenariosOfSelf))
    /\ 0 <= resiliency_score sm <= 100
    /\ 0 <= passed_slos sm <= total_slos sm.
Proof.
  intros reports Hint Hw HW Hhi Hs.
  pose proof (weighted_scores_bounds Hw Hs) as Hb.
  assert (HW' : 0 < total_weight reports < 2 ^ 53) by lia.
  assert (HS : 0 <= weighted_scores reports < 2 ^ 53) by lia.
  pose proof (weighted_average_floor Hint HW' HS) as Havg.
  rewrite finalize_report_run. fold reports.
  destruct reports as [|r rs] eqn:E; [discriminate|].
  rewrite Havg.
  destruct (evaluate_slos _ _ _ _) as [results|e]; [|discriminate].
  destruct (calculate_resiliency_score _ _ _) as [[sc bd]|e] eqn:Ec;
    [|discriminate].
  cbv zeta. intro H. inversion H; subst; clear H.
  eexists. split; [reflexivity|]. split; [reflexivity|].
  cbn [resiliency_score passed_slos total_slos]. split.
  - split.
    + apply Z.div_le_lower_bound; lia.
    + apply Z.div_le_upper_bound; lia.
  - apply calculate_breakdown in Ec. destruct Ec as [-> _]. simpl. lia.
Qed.

(** X26: an item with two truthy timestamps is evaluated over the window
    [fromtimestamp(int(start_timestamp))] to
    [fromtimestamp(int(end_timestamp))], whose [isoformat] strings the
    appended report carries; when one of the four conversions raises,
    the item is given up before the metrics backend is asked anything
    and the state is left as it was. *)
Theorem timestamps_select_item_window
        (scenario_type : string) (bs be : datetime) (weight : PyNum.t)
        (tel : telemetry) (st : state) :
  let st_ts :=
    PyDict.get_default (tel_fields tel) "start_timestamp" PyVal.VNone in
  let en_ts :=
    PyDict.get_default (tel_fields tel) "end_timestamp" PyVal.VNone in
  PyVal.truthy st_ts && PyVal.truthy en_ts = true ->
  match (let! s := py_int int_of_str st_ts in
         let! st_dt := fromtimestamp s in
         let! e := py_int int_of_str en_ts in
         let! en_dt := fromtimestamp e in
         Ok (st_dt, en_dt))%result with
  | Raise e => process scenario_type bs be weight tel st = (st, Raise e)
  | Ok (st_dt, en_dt) =>
      forall st' tel',
        process scenario_type bs be weight tel st = (st', Ok tel') ->
        exists rep,
          scenario_reports (self st')
          = (scenario_reports (self st) ++ [rep])%list
          /\ rep_window_start rep = isoformat st_dt
          /\ rep_window_end rep = isoformat en_dt
  end.
Proof.
  intros st_ts en_ts Hts. rewrite process_item_run. cbv zeta.
  fold st_ts en_ts. rewrite Hts.
  destruct (rbind _ _) as [[st_dt en_dt]|e]; [|reflexivity].
  intros st' tel'. rewrite add_scenario_report_run. cbv zeta.
  destruct (evaluate_slos _ _ _ _) as [res|e]; [|discriminate].
  destruct (calculate_resiliency_score _ _ _) as [[score bd]|e];
    [|discriminate].
  cbn [self the_world with_report scenario_reports].
  rewrite rev_app_distr. cbn [rev app].
  intro H. inversion H; subst; clear H.
  eexists. repeat split.
Qed.

End WindowFacts.

Lemma finalized_summary_is_consistent_witness :
  exists sm,
    0 <= Resiliency.resiliency_score sm <= 100
    /\ 0 <= Resiliency.passed_slos sm <= Resiliency.total_slos sm.
Proof.
  edestruct (@finalized_summary_is_consistent Z
              (fun _ _ (_ _ : Z) => Ok [("up", true)]) 0 120
              (Resiliency.mkState
                 (Resiliency.mkWorld 0 "" false [] (fun _ => true) [])
                 (Resiliency.mkObject
                    [Resiliency.mkSlo "up" "up == 1" "critical" None]
                    [] None None []
                    [Resiliency.mkReport "pod-kill" "" "" 100 (PyNum.PInt 1)
                       (Score.mkBreakdown 3 0 1 0) [("up", true)] [];
                     Resiliency.mkReport "node-outage" "" "" 50 (PyNum.PInt 3)
                       (Score.mkBreakdown 3 0 1 0) [("up", true)] []]
                    (Resiliency.Bound None) (Resiliency.Bound None))))
    as (sm & _ & _ & Hs & Hp).
  - repeat constructor.
  - repeat (apply Forall_cons;
            [unfold AverageSpec.int_weight; simpl; lia|]);
      apply Forall_nil.
  - vm_compute. reflexivity.
  - vm_compute. reflexivity.
  - repeat (apply Forall_cons; [simpl; lia|]); apply Forall_nil.
  - reflexivity.
  - exists sm. split; assumption.
Defined.

Lemma timestamps_select_item_window_witness :
  Resiliency.process_item PyVal.str_of_int (fun z => Ok z)
    (fun _ _ (_ _ : Z) => Ok []) (fun _ => "")
    (fun _ => Raise (ValueError "invalid literal for int()"))
    "fallback" 10 70 (PyNum.PInt 1)
    (Resiliency.mkTelemetry Resiliency.ItemDict
       [("start_timestamp", PyVal.VStr "soon");
        ("end_timestamp", PyVal.VInt 1700000000)] None)
    (Resiliency.mkState
       (Resiliency.mkWorld 0 "" false [] (fun _ => true) [])
       (Resiliency.init []))
  = (Resiliency.mkState
       (Resiliency.mkWorld 0 "" false [] (fun _ => true) [])
       (Resiliency.init []),
     Raise (ValueError "invalid literal for int()")).
Proof.
  exact (@timestamps_select_item_window Z PyVal.str_of_int (fun z => Ok z)
           (fun _ _ (_ _ : Z) => Ok []) (fun _ => "")
           (fun _ => Raise (ValueError "invalid literal for int()"))
           "fallback" 10 70 (PyNum.PInt 1)
           (Resiliency.mkTelemetry Resiliency.ItemDict
              [("start_timestamp", PyVal.VStr "soon");
               ("end_timestamp", PyVal.VInt 1700000000)] None)
           (Resiliency.mkState
              (Resiliency.mkWorld 0 "" false [] (fun _ => true) [])
              (Resiliency.init []))
           eq_refl).
Defined.

(** * The definitions dictionary of distinct names *)

Section DistinctNames.

Import Score Resiliency.

Lemma set_fresh {V} (d : PyDict.t V) k v :
  ~ In k (PyDict.keys d) -> PyDict.set d k v = (d ++ [(k, v)])%list.
Proof.
  unfold PyDict.keys.
  induction d as [|[k0 v0] d IH]; simpl; intro H; [reflexivity|].
  destruct (String.eqb_spec k k0) as [->|_]; [tauto|].
  rewrite IH by tauto. reflexivity.
Qed.

Lemma comprehension_distinct {X V} (key : X -> string) (value : X -> V) xs :
  NoDup (map key xs) ->
  PyDict.comprehension key value xs = map (fun x => (key x, value x)) xs.
Proof.
  induction xs as [|x xs IH] using rev_ind; intro H; [reflexivity|].
  rewrite map_app in H. simpl in H.
  apply NoDup_remove in H. rewrite app_nil_r in H. destruct H as [Hnd Hx].
  rewrite comprehension_snoc, IH by assumption.
  rewrite set_fresh.
  - now rewrite map_app.
  - unfold PyDict.keys. rewrite map_map. exact Hx.
Qed.

End DistinctNames.

(** X27: when the loaded SLOs have pairwise distinct names, the
    definitions dictionary built for scoring holds one entry per SLO, in
    load order, with the SLO's own severity and weight, and every SLO
    with an evaluation result yields exactly one [SLOResult], in load
    order; the SLOs without a result yield none. *)
Theorem distinct_names_are_scored_one_by_one
        (slos : list Resiliency.slo) (res : PyDict.t bool) :
  NoDup (map Resiliency.slo_name slos) ->
  Resiliency.slo_defs slos
  = map (fun s => (Resiliency.slo_name s,
                   Score.DefDict (Some (Resiliency.slo_severity s))
                                 (Resiliency.slo_weight s))) slos
  /\ Score.definition_objects (Resiliency.slo_defs slos) res
     = flat_map
         (fun s =>
            match PyDict.get res (Resiliency.slo_name s) with
            | Some verdict =>
                [Score.mkSLOResult (Resiliency.slo_name s)
                   (Resiliency.slo_severity s) verdict
                   (Resiliency.slo_weight s)]
            | None => []
            end) slos.
Proof.
  intro H.
  assert (E : Resiliency.slo_defs slos
              = map (fun s => (Resiliency.slo_name s,
                               Score.DefDict
                                 (Some (Resiliency.slo_severity s))
                                 (Resiliency.slo_weight s))) slos)
    by (apply comprehension_distinct; exact H).
  split; [exact E|]. rewrite E. clear.
  induction slos as [|s slos IH]; simpl; [reflexivity|].
  destruct (PyDict.get res (Resiliency.slo_name s)); simpl; now rewrite IH.
Qed.

Lemma distinct_names_are_scored_one_by_one_witness :
  Score.definition_objects
    (Resiliency.slo_defs
       [Resiliency.mkSlo "etcd" "up == 1" "critical" None;
        Resiliency.mkSlo "api" "errors < 5" "warning" (Some 7)])
    [("api", false)]
  = [Score.mkSLOResult "api" "warning" false (Some 7)].
Proof.
  exact (proj2 (@distinct_names_are_scored_one_by_one
                  [Resiliency.mkSlo "etcd" "up == 1" "critical" None;
                   Resiliency.mkSlo "api" "errors < 5" "warning" (Some 7)]
                  [("api", false)]
                  ltac:(repeat constructor; simpl; intuition discriminate))).
Defined.

(** * Properties of the reports as Python values *)

Section TelemetryFacts.

Import Score Resiliency PyVal.
Local Open Scope result_scope.

Lemma score_map_from_spec acc reports :
  Telemetry.score_map_from acc reports
  = Ok (fold_left
          (fun d rep =>
             PyDict.set d (rep_name rep)
               (Telemetry.compact_value (compact_breakdown rep)))
          reports acc).
Proof.
  revert acc. induction reports as [|rep reports IH]; intro acc;
    [reflexivity|].
  simpl. rewrite IH. reflexivity.
Qed.

Variable obj : Type.
Variable obj_scenario : obj -> PyVal.t.
Variable obj_as_dict : obj -> result (PyDict.t PyVal.t).

#[local] Abbreviation item_name := (Telemetry.item_name obj_scenario).
#[local] Abbreviation item_dict := (Telemetry.item_dict obj_as_dict).
#[local] Abbreviation attach_item :=
  (Telemetry.attach_item obj_scenario obj_as_dict).
#[local] Abbreviation attach_loop :=
  (Telemetry.attach_loop obj_scenario obj_as_dict).

Lemma attach_item_ok score_map it d :
  match item_name it with VList _ | VDict _ => False | _ => True end ->
  item_dict it = Ok d ->
  exists it',
    attach_item score_map it
    = Ok (it',
          match item_name it with
          | VStr n =>
              match PyDict.get score_map n with
              | Some c => PyDict.set d "resiliency_report" c
              | None => d
              end
          | _ => d
          end).
Proof.
  destruct it as [d0|o]; simpl; intros Hn Hd.
  - inversion Hd; subst d0; clear Hd.
    destruct (PyDict.get_default d "scenario" VNone) as [| | | |n| |];
      simpl; try contradiction; try (eexists; reflexivity).
    unfold PyDict.mem, PyDict.get_default.
    destruct (PyDict.get score_map n); eexists; reflexivity.
  - rewrite Hd. simpl.
    destruct (obj_scenario o) as [| | | |n| |];
      simpl; try contradiction; try (eexists; reflexivity).
    unfold PyDict.mem, PyDict.get_default.
    destruct (PyDict.get score_map n); eexists; reflexivity.
Qed.

Lemma attach_loop_ok score_map items :
  Forall (fun it => match item_name it with
                    | VList _ | VDict _ => False
                    | _ => True
                    end) items ->
  Forall (fun it => is_ok (item_dict it) = true) items ->
  exists ds,
    snd (attach_loop score_map items) = Ok ds
    /\ Forall2
         (fun it d' =>
            exists d,
              item_dict it = Ok d
              /\ d' = match item_name it with
                      | VStr n =>
                          match PyDict.get score_map n with
                          | Some c => PyDict.set d "resiliency_report" c
                          | None => d
                          end
                      | _ => d
                      end)
         items ds.
Proof.
  induction items as [|it items IH]; intros Hn Hd.
  - exists []. split; [reflexivity | constructor].
  - inversion Hn as [|? ? Hn0 Hn']; inversion Hd as [|? ? Hd0 Hd']; subst.
    destruct (IH Hn' Hd') as (ds & Hds & Hf).
    destruct (item_dict it) as [d|e] eqn:Ed; [|discriminate].
    destruct (attach_item_ok score_map it Hn0 Ed) as (it' & Hit).
    simpl. rewrite Hit.
    destruct (Telemetry.attach_loop _ _ score_map items) as [rest' r].
    simpl in Hds. subst r. simpl.
    eexists. split; [reflexivity|].
    constructor; [|exact Hf]. exists d. split; [exact Ed | reflexivity].
Qed.

Lemma attach_loop_old score_map items :
  Forall2
    (fun it it' =>
       it' = it
       \/ exists d,
            it = Telemetry.DictItem d
            /\ it' = Telemetry.DictItem
                       (PyDict.set d "resiliency_report"
                          (Telemetry.lookup score_map (item_name it))))
    items (fst (attach_loop score_map items)).
Proof.
  induction items as [|it items IH]; [constructor|].
  simpl.
  destruct (Telemetry.attach_item _ _ score_map it) as [[it' d]|e] eqn:E.
  - destruct (Telemetry.attach_loop _ _ score_map items) as [rest' r].
    simpl in *. constructor; [|exact IH].
    destruct it as [d0|o]; simpl in E.
    + destruct (Telemetry.contains_key _ _) as [[|]|]; simpl in E;
        inversion E; subst; [right; eauto | now left].
    + destruct (obj_as_dict o); simpl in E; [|discriminate].
      destruct (Telemetry.contains_key _ _); simpl in E; inversion E.
      now left.
  - simpl. constructor; [now left|].
    clear. induction items; constructor; auto.
Qed.

(** X21: [compact_breakdown] reads every field through its default: for
    any value, the [try] block and its handler together give what the
    three [.get] readings alone give. On a dictionary whose [breakdown]
    is a dictionary or missing, a missing [passed], [failed] or [score]
    counts as 0; a report or a [breakdown] that is not a dictionary
    raises [AttributeError]; the only other failure is that of
    [passed + failed]. *)
Theorem compact_breakdown_reads_with_defaults (report : PyVal.t) :
  Telemetry.compact_breakdown report
  = match report with
    | VDict d =>
        match PyDict.get_default d "breakdown" (VDict []) with
        | VDict b =>
            let passed := PyDict.get_default b "passed" (VInt 0) in
            let failed := PyDict.get_default b "failed" (VInt 0) in
            let! total := Telemetry.py_add passed failed in
            Ok (VDict [("resiliency_score",
                         PyDict.get_default d "score" (VInt 0));
                       ("passed_slos", passed);
                       ("total_slos", total)])
        | _ => Raise (AttributeError "object has no attribute 'get'")
        end
    | _ => Raise (AttributeError "object has no attribute 'get'")
    end.
Proof.
  destruct report as [| | | | | |d]; try reflexivity.
  unfold Telemetry.compact_breakdown, Telemetry.direct_fields,
    Telemetry.default_fields, Telemetry.subscript, Telemetry.get,
    PyDict.get_default.
  destruct (PyDict.get d "breakdown") as [[| | | | | |b]|]; try reflexivity.
  simpl. unfold PyDict.get_default.
  destruct (PyDict.get b "passed"), (PyDict.get b "failed"),
    (PyDict.get d "score"); reflexivity.
Qed.

(** X22: on the dictionary [add_scenario_report] stores for a report,
    [compact_breakdown] returns the score of the report, its passed
    count, and the sum of its passed and failed counts. *)
Theorem compact_breakdown_of_stored_report (r : scenario_report) :
  Telemetry.compact_breakdown (Telemetry.report_value r)
  = Ok (Telemetry.compact_value (compact_breakdown r))
  /\ c_total_slos (compact_breakdown r)
     = bd_passed (rep_breakdown r) + bd_failed (rep_breakdown r).
Proof. split; reflexivity. Qed.

(** X23: when no item has a list or a dictionary as its scenario name
    and every item converts to a dictionary, [attach_compact_to_telemetry]
    returns and replaces the item list by a list of dictionaries, one per
    item in the same order: the item's own dictionary or its conversion,
    with [resiliency_report] set to the compact breakdown of the last
    report named like the item when there is one, and untouched
    otherwise. *)
Theorem attach_annotates_matching_items
        (self : object) (items : list (Telemetry.item obj)) :
  Forall (fun it => match item_name it with
                    | VList _ | VDict _ => False
                    | _ => True
                    end) items ->
  Forall (fun it => is_ok (item_dict it) = true) items ->
  exists ds,
    Telemetry.attach_compact_to_telemetry obj_scenario obj_as_dict self
      (Some items)
    = (Some (map Telemetry.DictItem ds), Ok tt)
    /\ Forall2
         (fun it d' =>
            exists d,
              item_dict it = Ok d
              /\ d' = match item_name it with
                      | VStr n =>
                          match find (fun rep => String.eqb n (rep_name rep))
                                     (rev (scenario_reports self)) with
                          | Some rep =>
                              PyDict.set d "resiliency_report"
                                (Telemetry.compact_value
                                   (compact_breakdown rep))
                          | None => d
                          end
                      | _ => d
                      end)
         items ds.
Proof.
  intros Hn Hd. unfold Telemetry.attach_compact_to_telemetry.
  rewrite score_map_from_spec.
  fold (PyDict.comprehension rep_name
          (fun rep => Telemetry.compact_value (compact_breakdown rep))
          (scenario_reports self)).
  set (score_map := PyDict.comprehension _ _ _).
  destruct (attach_loop_ok score_map Hn Hd) as (ds & Hds & Hf).
  destruct (Telemetry.attach_loop _ _ score_map items) as [old r].
  simpl in Hds. subst r. exists ds. split; [reflexivity|].
  eapply Forall2_impl; [|exact Hf].
  intros it d' (d & Hit & ->). exists d. split; [exact Hit|].
  destruct (item_name it); try reflexivity.
  subst score_map. rewrite comprehension_get.
  destruct (find _ _); reflexivity.
Qed.

(** X24: when [attach_compact_to_telemetry] raises, the telemetry
    object keeps its old item list, with the same items in the same
    order and no object converted; but a dictionary item that was
    processed before the failure may already carry its
    [resiliency_report]. *)
Theorem attach_failure_leaves_partial_annotations
        (self : object) (items : list (Telemetry.item obj)) (e : exn) :
  snd (Telemetry.attach_compact_to_telemetry obj_scenario obj_as_dict self
         (Some items)) = Raise e ->
  let score_map :=
    PyDict.comprehension rep_name
      (fun rep => Telemetry.compact_value (compact_breakdown rep))
      (scenario_reports self) in
  exists old,
    fst (Telemetry.attach_compact_to_telemetry obj_scenario obj_as_dict self
           (Some items)) = Some old
    /\ Forall2
         (fun it it' =>
            it' = it
            \/ exists d,
                 it = Telemetry.DictItem d
                 /\ it' = Telemetry.DictItem
                            (PyDict.set d "resiliency_report"
                               (Telemetry.lookup score_map (item_name it))))
         items old.
Proof.
  intros H score_map. revert H.
  unfold Telemetry.attach_compact_to_telemetry.
  rewrite score_map_from_spec.
  change (fold_left _ (scenario_reports self) PyDict.empty) with score_map.
  pose proof (attach_loop_old score_map items) as Hold.
  destruct (Telemetry.attach_loop _ _ score_map items) as [old [ds|e']];
    simpl; [discriminate|].
  intros _. exists old. split; [reflexivity | exact Hold].
Qed.

End TelemetryFacts.

Lemma attach_annotates_matching_items_witness :
  exists ds,
    fst (Telemetry.attach_compact_to_telemetry
           (fun _ : unit => PyVal.VStr "node-outage")
           (fun _ : unit => Ok [("scenario", PyVal.VStr "node-outage")])
           (Resiliency.mkObject [] [] None None []
              [Resiliency.mkReport "pod-kill" "" "" 75 (PyNum.PInt 1)
                 (Score.mkBreakdown 4 1 1 1) [] []]
              (Resiliency.Bound None) (Resiliency.Bound None))
           (Some [Telemetry.DictItem [("scenario", PyVal.VStr "pod-kill")];
                  Telemetry.ObjectItem tt]))
    = Some (map Telemetry.DictItem ds)
    /\ List.length ds = 2%nat.
Proof.
  destruct (@attach_annotates_matching_items unit
              (fun _ => PyVal.VStr "node-outage")
              (fun _ => Ok [("scenario", PyVal.VStr "node-outage")])
              (Resiliency.mkObject [] [] None None []
                 [Resiliency.mkReport "pod-kill" "" "" 75 (PyNum.PInt 1)
                    (Score.mkBreakdown 4 1 1 1) [] []]
                 (Resiliency.Bound None) (Resiliency.Bound None))
              [Telemetry.DictItem [("scenario", PyVal.VStr "pod-kill")];
               Telemetry.ObjectItem tt])
    as (ds & Hrun & Hf).
  - repeat constructor.
  - repeat constructor.
  - exists ds. rewrite Hrun. split; [reflexivity|].
    apply Forall2_length in Hf. symmetry. exact Hf.
Defined.

Lemma attach_failure_leaves_partial_annotations_witness :
  exists old,
    fst (Telemetry.attach_compact_to_telemetry
           (fun _ : unit => PyVal.VNone) (fun _ : unit => Ok [])
           (Resiliency.mkObject [] [] None None []
              [Resiliency.mkReport "pod-kill" "" "" 75 (PyNum.PInt 1)
                 (Score.mkBreakdown 4 1 1 1) [] []]
              (Resiliency.Bound None) (Resiliency.Bound None))
           (Some [Telemetry.DictItem [("scenario", PyVal.VStr "pod-kill")];
                  Telemetry.DictItem [("scenario", PyVal.VList [])]]))
    = Some old
    /\ List.length old = 2%nat.
Proof.
  destruct (@attach_failure_leaves_partial_annotations unit
              (fun _ => PyVal.VNone) (fun _ => Ok [])
              (Resiliency.mkObject [] [] None None []
                 [Resiliency.mkReport "pod-kill" "" "" 75 (PyNum.PInt 1)
                    (Score.mkBreakdown 4 1 1 1) [] []]
                 (Resiliency.Bound None) (Resiliency.Bound None))
              [Telemetry.DictItem [("scenario", PyVal.VStr "pod-kill")];
               Telemetry.DictItem [("scenario", PyVal.VList [])]]
              (TypeError "unhashable type") eq_refl)
    as (old & Hrun & Hf).
  exists old. split; [exact Hrun|].
  apply Forall2_length in Hf. symmetry. exact Hf.
Defined.
